(** * Recommendation engine, cache store and cache sweep of smzdz

    A shallow embedding of
      - [app/core/config.py]                      (settings),
      - [app/models/schemas.py]                   (data model),
      - [app/services/recommendation_engine.py]   (scorer, generators, selector),
      - [app/services/cache_service.py]           (cache store and its fallback),
      - [app/services/performance.py]             (the cache sweep),
    together with the properties the specification states about them.

    Conventions.
      - A Python [int] is a [Z]; a Python [float] is a rational [Q], so the
        arithmetic below is exact where binary64 rounds.  Equality of two
        floats is [Qeq].
      - A Python [str] is the [string] of its UTF-8 bytes; [py_len] and
        [py_prefix] count code points, as [len] and slicing do.
      - A [datetime] is a wall-clock count of microseconds with an optional
        UTC offset; a [timedelta] is a count of microseconds. *)

From Stdlib Require Import PrimFloat.
From Stdlib Require Import ZArith QArith Qabs Lqa Lia.
From Stdlib Require Import String Ascii List Sorted Permutation.
From stdpp Require Import base option list gmap strings pretty.

Set Default Proof Using "Type".
Set Warnings "-clear-no-such-hyp,-inexact-float".

Local Open Scope string_scope.
Local Open Scope Z_scope.

(** ** Settings ([app/core/config.py]) *)

Record Settings := {
  use_mock_data : bool;
  redis_host : string;
  redis_port : Z;
  redis_db : Z;
  redis_password : string;
  cache_ttl : Z;
  cache_prefix : string;
  algorithm_weights_urgency : Q;
  algorithm_weights_importance : Q;
  algorithm_weights_personal_fit : Q;
  algorithm_weights_growth_value : Q;
  urgency_critical : Z;
  urgency_high : Z;
  urgency_medium : Z;
  urgency_low : Z
}.

(** The values of the class body, used when the environment overrides
    nothing. *)
Definition default_settings : Settings := {|
  use_mock_data := false;
  redis_host := "localhost";
  redis_port := 6379;
  redis_db := 0;
  redis_password := "";
  cache_ttl := 7200;
  cache_prefix := "what_to_do";
  algorithm_weights_urgency := 0.35;
  algorithm_weights_importance := 0.30;
  algorithm_weights_personal_fit := 0.25;
  algorithm_weights_growth_value := 0.10;
  urgency_critical := 24;
  urgency_high := 72;
  urgency_medium := 168;
  urgency_low := 720
|}.

(** ** Enumerations ([app/models/schemas.py]) *)

Inductive RecommendationType :=
| COURSE_URGENT
| COURSE_POPULAR
| TASK_CLAIM
| GOAL_TALK
| REPORT_TIME
| PROFILE_COMPLETE
| EXAM_PUBLISH
| COURSE_PUBLISH.

Definition RecommendationType_value (t : RecommendationType) : string :=
  match t with
  | COURSE_URGENT => "COURSE_URGENT"
  | COURSE_POPULAR => "COURSE_POPULAR"
  | TASK_CLAIM => "TASK_CLAIM"
  | GOAL_TALK => "GOAL_TALK"
  | REPORT_TIME => "REPORT_TIME"
  | PROFILE_COMPLETE => "PROFILE_COMPLETE"
  | EXAM_PUBLISH => "EXAM_PUBLISH"
  | COURSE_PUBLISH => "COURSE_PUBLISH"
  end.

Inductive UrgencyLevel := CRITICAL | HIGH | MEDIUM | LOW.

Definition UrgencyLevel_value (u : UrgencyLevel) : string :=
  match u with
  | CRITICAL => "critical"
  | HIGH => "high"
  | MEDIUM => "medium"
  | LOW => "low"
  end.

#[global] Instance RecommendationType_eq_dec : EqDecision RecommendationType.
Proof. solve_decision. Defined.

#[global] Instance UrgencyLevel_eq_dec : EqDecision UrgencyLevel.
Proof. solve_decision. Defined.

(** ** The scorer *)

(** The engine object: [__init__] copies the four weights out of the
    settings into [self.algorithm_weights]. *)
Record AlgorithmWeights := {
  w_urgency : Q;
  w_importance : Q;
  w_personal_fit : Q;
  w_growth_value : Q
}.

Record RecommendationEngine := { algorithm_weights : AlgorithmWeights }.

Definition RecommendationEngine_init (settings : Settings) : RecommendationEngine :=
  {| algorithm_weights := {|
       w_urgency := algorithm_weights_urgency settings;
       w_importance := algorithm_weights_importance settings;
       w_personal_fit := algorithm_weights_personal_fit settings;
       w_growth_value := algorithm_weights_growth_value settings |} |}.

Definition _calculate_urgency_score (days_left : Z) (task_type : string) : Z :=
  if String.eqb task_type "COURSE" then
    if days_left <=? 1 then 95
    else if days_left <=? 3 then 85
    else if days_left <=? 7 then 70
    else if days_left <=? 14 then 50
    else 30
  else if String.eqb task_type "PROJECT" then
    if days_left <=? 3 then 90
    else if days_left <=? 7 then 75
    else if days_left <=? 14 then 60
    else 40
  else 25.

(** Python's [min(a, b)] returns [a] unless [b < a]. *)
Definition py_min (a b : Q) : Q := if Qlt_le_dec b a then b else a.

Definition _calculate_total_score (self : RecommendationEngine)
    (urgency importance fit growth : Q) : Q :=
  let total :=
    (urgency * w_urgency (algorithm_weights self) +
     importance * w_importance (algorithm_weights self) +
     fit * w_personal_fit (algorithm_weights self) +
     growth * w_growth_value (algorithm_weights self))%Q in
  py_min total 100.

Definition _get_urgency_level (settings : Settings) (hours_left : Z) : UrgencyLevel :=
  if hours_left <=? urgency_critical settings then CRITICAL
  else if hours_left <=? urgency_high settings then HIGH
  else if hours_left <=? urgency_medium settings then MEDIUM
  else LOW.

(** ** Python strings *)

(** [str.split(sep)] for a one-character separator: never an empty list. *)
Fixpoint py_split (sep : ascii) (s : string) : list string :=
  match s with
  | EmptyString => [EmptyString]
  | String c rest =>
      if Ascii.eqb c sep then EmptyString :: py_split sep rest
      else match py_split sep rest with
           | h :: t => String c h :: t
           | [] => [String c EmptyString]
           end
  end.

(** [l[0]] on a list of strings; [py_split] never returns the empty list,
    the only case in which the index would be out of range. *)
Definition py_first (l : list string) : string :=
  match l with
  | x :: _ => x
  | [] => EmptyString
  end.

(** A byte of the form [10xxxxxx] continues a code point. *)
Definition utf8_continuation (c : ascii) : bool :=
  let n := N_of_ascii c in ((128 <=? n) && (n <? 192))%N.

(** [len(s)]: the number of code points. *)
Fixpoint py_len (s : string) : Z :=
  match s with
  | EmptyString => 0
  | String c rest => (if utf8_continuation c then 0 else 1) + py_len rest
  end.

(** [s[:n]] for [0 <= n]: the first [n] code points. *)
Fixpoint py_prefix (n : nat) (s : string) : string :=
  match s with
  | EmptyString => EmptyString
  | String c rest =>
      if utf8_continuation c then String c (py_prefix n rest)
      else match n with
           | O => EmptyString
           | S n' => String c (py_prefix n' rest)
           end
  end.

(** [needle in s]. *)
Definition py_contains (needle s : string) : bool :=
  match String.index 0 needle s with
  | Some _ => true
  | None => false
  end.

(** Truthiness of a [str] and of an [Optional[str]]. *)
Definition str_truthy (s : string) : bool := negb (String.eqb s "").

Definition opt_str_truthy (s : option string) : bool :=
  match s with
  | Some s => str_truthy s
  | None => false
  end.

(** ** Exceptions, results and the effect monad *)

(** Only instances of [Exception] are modelled: these are what the
    [except Exception] clauses of the source catch. *)
Inductive exn_class :=
| KeyError | TypeError | ValueError | AttributeError | ValidationError
| UpstreamError | ConnectionError.

Record exn := Exn { exn_cls : exn_class; exn_str : string }.

Inductive res (A : Type) :=
| Ok (a : A)
| Raise (e : exn).
Arguments Ok {A} a.
Arguments Raise {A} e.

(** [isinstance(r, Exception)] on one slot of a gathered result. *)
Definition is_exception {A} (r : res A) : bool :=
  match r with
  | Ok _ => false
  | Raise _ => true
  end.

(** A computation over a state [St]: it returns or raises, and the state
    reached at a raise is kept (Python does not roll mutations back). *)
Definition prog (St A : Type) : Type := St -> res A * St.

Definition ret {St A} (a : A) : prog St A := fun w => (Ok a, w).

Definition raise {St A} (e : exn) : prog St A := fun w => (Raise e, w).

Definition bind {St A B} (m : prog St A) (k : A -> prog St B) : prog St B :=
  fun w =>
    match m w with
    | (Ok a, w') => k a w'
    | (Raise e, w') => (Raise e, w')
    end.

(** [try: m  except Exception as e: h e]. *)
Definition try_except {St A} (m : prog St A) (h : exn -> prog St A) : prog St A :=
  fun w =>
    match m w with
    | (Ok a, w') => (Ok a, w')
    | (Raise e, w') => h e w'
    end.

Definition lift_res {St A} (r : res A) : prog St A := fun w => (r, w).

Definition get_state {St} : prog St St := fun w => (Ok w, w).

Declare Scope prog_scope.
Delimit Scope prog_scope with prog.
Notation "x <- m ;; k" := (bind m (fun x => k))
  (at level 100, m at next level, right associativity) : prog_scope.
Notation "m ;;; k" := (bind m (fun _ => k))
  (at level 100, right associativity) : prog_scope.
Local Open Scope prog_scope.

(** The state a computation leaves, whether it returns or raises,
    satisfies [Q] whenever the state it starts in satisfies [P]. *)
Definition after {St A} (P : St -> Prop) (m : prog St A) (Q : St -> Prop) : Prop :=
  forall st, P st -> Q (m st).2.

(** [for x in l: acc = body x acc]. *)
Fixpoint for_each {St A S} (body : A -> S -> prog St S) (l : list A) (acc : S)
    : prog St S :=
  match l with
  | [] => ret acc
  | x :: rest => acc' <- body x acc ;; for_each body rest acc'
  end.

(** ** Logging and the clock *)

Inductive LogLevel := DEBUG | INFO | WARNING | ERROR.

Record LogRecord := { level : LogLevel; message : string }.

(** What a generation cycle touches outside its arguments: the number of
    clock readings taken so far and the log. *)
Record World := {
  reads : nat;
  log : list LogRecord
}.

Definition logger {St} (put : LogRecord -> St -> St) (lv : LogLevel) (msg : string)
    : prog St unit :=
  fun w => (Ok tt, put {| level := lv; message := msg |} w).

Definition World_log (r : LogRecord) (w : World) : World :=
  {| reads := reads w; log := log w ++ [r] |}.

(** ** Dates and durations *)

Record datetime := {
  wall : Z;             (* microseconds shown by the wall clock *)
  tzinfo : option Z     (* the UTC offset in microseconds, [None] when naive *)
}.

Definition microseconds_per_day : Z := 86400000000.

Definition microseconds_per_hour : Z := 3600000000.

(** [timedelta(days=d)]. *)
Definition timedelta_of_days (d : Z) : Z := d * microseconds_per_day.

(** [td.days]: a [timedelta] is normalised with [0 <= seconds], so its
    [days] is the floor of the quotient. *)
Definition timedelta_days (td : Z) : Z := td / microseconds_per_day.

(** [d.replace(tzinfo=timezone.utc)] keeps the wall clock. *)
Definition replace_tzinfo_utc (d : datetime) : datetime :=
  {| wall := wall d; tzinfo := Some 0 |}.

Definition naive_aware_error (what : string) : exn :=
  Exn TypeError ("can't " ++ what ++ " offset-naive and offset-aware datetimes").

(** [a - b] on two datetimes. *)
Definition datetime_sub (a b : datetime) : res Z :=
  match tzinfo a, tzinfo b with
  | None, None => Ok (wall a - wall b)
  | Some oa, Some ob => Ok ((wall a - oa) - (wall b - ob))
  | _, _ => Raise (naive_aware_error "subtract")
  end.

(** [a > b] on two datetimes. *)
Definition datetime_gt (a b : datetime) : res bool :=
  match tzinfo a, tzinfo b with
  | None, None => Ok (wall b <? wall a)
  | Some oa, Some ob => Ok (wall b - ob <? wall a - oa)
  | _, _ => Raise (naive_aware_error "compare")
  end.

(** [a == b] on two datetimes: a naive and an aware one are never equal. *)
Definition datetime_eqb (a b : datetime) : bool :=
  match tzinfo a, tzinfo b with
  | None, None => wall a =? wall b
  | Some oa, Some ob => wall a - oa =? wall b - ob
  | _, _ => false
  end.

(** [d + td] and [d - td] for a duration [td]. *)
Definition datetime_plus (d : datetime) (td : Z) : datetime :=
  {| wall := wall d + td; tzinfo := tzinfo d |}.

Definition datetime_minus (d : datetime) (td : Z) : datetime :=
  {| wall := wall d - td; tzinfo := tzinfo d |}.

(** The instant a timezone-aware datetime denotes. *)
Definition utc_instant (d : datetime) : Z :=
  match tzinfo d with
  | Some off => wall d - off
  | None => wall d
  end.

(** ** The data model ([app/models/schemas.py]) *)

Module CourseSelection.
Record t := {
  sele_id : Z;
  user_id : Z;
  user_name : string;
  course_title : string;
  course_id : Z;
  chapter_title : string;
  chapter_id : Z;
  current_serial : Z;
  deadline : datetime;
  url : string;
  shushi_id : option Z;
  shushi_name : option string
}.
End CourseSelection.

Module InnoProject.
Record t := {
  id : Z;
  task_serial : string;
  title : string;
  publisher : string;
  taker : option string;
  taker_id : option Z;
  status : option string;
  deadline : datetime;
  planed_hour : Q;
  bonus : option Q;
  task_text : option string;
  desc : option string;
  create_time : datetime
}.
End InnoProject.

(** The upstream catalogue, goal and report entries are raw JSON objects.
    A field is [None] when the key is absent; a present key is assumed to
    carry a value of the JSON type the engine reads it at. *)
Module Course.
Record t := {
  id : option Z;
  title : option string;
  desc : option string;
  director_name : option string;
  finish_selections_num : option Z
}.
End Course.

Module Goal.
Record t := {
  id : option Z;
  user_id : option Z;
  content : option string;
  start_time : option string;
  target_date : option string
}.
End Goal.

Module Report.
Record t := {
  id : option Z;
  user_id : option Z;
  report_time : option string;
  time_reported : option Q;
  activity : option string
}.
End Report.

Module RecommendationItem.
Record t := {
  id : string;
  type : RecommendationType;
  title : string;
  description : string;
  action_text : string;
  action_url : string;
  score : Q;
  urgency : Q;
  importance : Q;
  personal_fit : Q;
  growth_value : Q;
  estimated_time : string;
  deadline : option datetime;
  urgency_level : option UrgencyLevel;
  reasons : list string;
  source_id : option string;
  source_type : option string;
  created_at : datetime
}.
End RecommendationItem.

(** The dictionary [_fetch_user_data] builds.  [goal] is [None] both for
    [None] and for the empty object: the engine only tests its truth. *)
Record UserData := {
  selections : list CourseSelection.t;
  all_courses : list Course.t;
  projects : list InnoProject.t;
  goal : option Goal.t;
  reports : list Report.t;
  user_id : Z;
  token : string
}.

(** [d[key]] on a JSON object. *)
Definition getitem {St A} (key : string) (v : option A) : prog St A :=
  match v with
  | Some a => ret a
  | None => raise (Exn KeyError ("'" ++ key ++ "'"))
  end.

(** [d.get(key, dflt)]. *)
Definition get_default {A} (v : option A) (dflt : A) : A :=
  match v with
  | Some a => a
  | None => dflt
  end.

(** *** Equality of recommendation items

    [rec in selected] compares with [==], which pydantic defines field by
    field. *)

Definition option_eqb {A} (eqb : A -> A -> bool) (a b : option A) : bool :=
  match a, b with
  | Some x, Some y => eqb x y
  | None, None => true
  | _, _ => false
  end.

Fixpoint list_eqb {A} (eqb : A -> A -> bool) (a b : list A) : bool :=
  match a, b with
  | [], [] => true
  | x :: a', y :: b' => eqb x y && list_eqb eqb a' b'
  | _, _ => false
  end.

Definition RecommendationItem_eqb (a b : RecommendationItem.t) : bool :=
  String.eqb (RecommendationItem.id a) (RecommendationItem.id b)
  && bool_decide (RecommendationItem.type a = RecommendationItem.type b)
  && String.eqb (RecommendationItem.title a) (RecommendationItem.title b)
  && String.eqb (RecommendationItem.description a) (RecommendationItem.description b)
  && String.eqb (RecommendationItem.action_text a) (RecommendationItem.action_text b)
  && String.eqb (RecommendationItem.action_url a) (RecommendationItem.action_url b)
  && Qeq_bool (RecommendationItem.score a) (RecommendationItem.score b)
  && Qeq_bool (RecommendationItem.urgency a) (RecommendationItem.urgency b)
  && Qeq_bool (RecommendationItem.importance a) (RecommendationItem.importance b)
  && Qeq_bool (RecommendationItem.personal_fit a) (RecommendationItem.personal_fit b)
  && Qeq_bool (RecommendationItem.growth_value a) (RecommendationItem.growth_value b)
  && String.eqb (RecommendationItem.estimated_time a) (RecommendationItem.estimated_time b)
  && option_eqb datetime_eqb (RecommendationItem.deadline a) (RecommendationItem.deadline b)
  && bool_decide (RecommendationItem.urgency_level a = RecommendationItem.urgency_level b)
  && list_eqb String.eqb (RecommendationItem.reasons a) (RecommendationItem.reasons b)
  && option_eqb String.eqb (RecommendationItem.source_id a) (RecommendationItem.source_id b)
  && option_eqb String.eqb (RecommendationItem.source_type a) (RecommendationItem.source_type b)
  && datetime_eqb (RecommendationItem.created_at a) (RecommendationItem.created_at b).

(** [rec in selected]. *)
Definition item_in (rec : RecommendationItem.t) (selected : list RecommendationItem.t) : bool :=
  existsb (RecommendationItem_eqb rec) selected.

(** ** The Diversity Selector *)

(** [rec.type.value.split('_')[0]]. *)
Definition rec_category (rec : RecommendationItem.t) : string :=
  py_first (py_split "_" (RecommendationType_value (RecommendationItem.type rec))).

(** [sorted(recommendations, key=lambda x: x.score, reverse=True)].
    Python's sort is stable, also under [reverse=True]: items of equal
    score keep their order.  A stable sort has one result, computed here by
    insertion from the right, each item going in front of the first item
    that does not beat it. *)
Fixpoint insert_by_score (x : RecommendationItem.t) (l : list RecommendationItem.t)
    : list RecommendationItem.t :=
  match l with
  | [] => [x]
  | y :: l' =>
      if Qlt_le_dec (RecommendationItem.score x) (RecommendationItem.score y)
      then y :: insert_by_score x l'
      else x :: y :: l'
  end.

Definition sorted_by_score (recommendations : list RecommendationItem.t)
    : list RecommendationItem.t :=
  foldr insert_by_score [] recommendations.

(** The first loop: one item per category not yet used. *)
Fixpoint diversity_loop (sorted_recs selected : list RecommendationItem.t)
    (used_types : gset string) : list RecommendationItem.t * gset string :=
  match sorted_recs with
  | [] => (selected, used_types)
  | rec :: rest =>
      if (3 <=? length selected)%nat then (selected, used_types)
      else if decide (rec_category rec ∈ used_types)
           then diversity_loop rest selected used_types
           else diversity_loop rest (selected ++ [rec]) (used_types ∪ {[rec_category rec]})
  end.

(** The second loop: fill up with the best items not selected yet. *)
Fixpoint fill_loop (sorted_recs selected : list RecommendationItem.t)
    : list RecommendationItem.t :=
  match sorted_recs with
  | [] => selected
  | rec :: rest =>
      if (3 <=? length selected)%nat then selected
      else if item_in rec selected
           then fill_loop rest selected
           else fill_loop rest (selected ++ [rec])
  end.

Definition _select_top3_with_diversity (recommendations : list RecommendationItem.t)
    : list RecommendationItem.t :=
  match recommendations with
  | [] => []
  | _ =>
      let sorted_recs := sorted_by_score recommendations in
      let selected := (diversity_loop sorted_recs [] ∅).1 in
      let selected := fill_loop sorted_recs selected in
      take 3 selected
  end.

(** ** The recommendation engine *)

(** What the engine takes from its runtime and from libraries outside the
    repository. *)
Record Runtime := {
  (* the UTC time, in microseconds, of the k-th reading of the clock *)
  clock : nat -> Z;
  (* the UTC offset of the local time zone, in microseconds *)
  local_utcoffset : Z;
  (* [datetime.fromisoformat] and [datetime.isoformat] *)
  fromisoformat : string -> res datetime;
  isoformat : datetime -> string;
  (* [str(x)] and [format(x, '.1f')] of a float *)
  float_str : Q -> string;
  float_format_1f : Q -> string
}.

(** The five awaited results of [asyncio.gather(..., return_exceptions=True)],
    one per upstream fetch, each a value or the exception it ended with. *)
Record Gathered := {
  results_0 : res (list CourseSelection.t);
  results_1 : res (list Course.t);
  results_2 : res (list InnoProject.t);
  results_3 : res (option Goal.t);
  results_4 : res (list Report.t)
}.

Section Engine.

Variable rt : Runtime.
Variable settings : Settings.
(* the upstream provider as seen through [asyncio.gather]: whether the
   gathering itself returns, and with which five results *)
Variable api_gather : Z -> string -> res Gathered.

Definition tick (w : World) : World := {| reads := S (reads w); log := log w |}.

(** [datetime.now(timezone.utc)]. *)
Definition datetime_now_utc : prog World datetime :=
  fun w => (Ok {| wall := clock rt (reads w); tzinfo := Some 0 |}, tick w).

(** [datetime.now()]: naive local time. *)
Definition datetime_now : prog World datetime :=
  fun w => (Ok {| wall := clock rt (reads w) + local_utcoffset rt; tzinfo := None |},
            tick w).

Definition log_info : string -> prog World unit := logger World_log INFO.
Definition log_warning : string -> prog World unit := logger World_log WARNING.
Definition log_error : string -> prog World unit := logger World_log ERROR.

(** The bounds [ge=0, le=100] of the five score fields. *)
Definition in_0_100 (x : Q) : bool := Qle_bool 0 x && Qle_bool x 100.

Definition scores_valid (r : RecommendationItem.t) : bool :=
  in_0_100 (RecommendationItem.score r)
  && in_0_100 (RecommendationItem.urgency r)
  && in_0_100 (RecommendationItem.importance r)
  && in_0_100 (RecommendationItem.personal_fit r)
  && in_0_100 (RecommendationItem.growth_value r).

(** [RecommendationItem(...)]: [created_at] defaults to [datetime.now()],
    and pydantic refuses a score field out of its bounds. *)
Definition RecommendationItem_new (fields : datetime -> RecommendationItem.t)
    : prog World RecommendationItem.t :=
  created <- datetime_now ;;
  let r := fields created in
  if scores_valid r then ret r
  else raise (Exn ValidationError "validation error for RecommendationItem").

(** [d.replace(tzinfo=timezone.utc) if d.tzinfo is None else d]: how every
    generator makes a datetime timezone-aware before subtracting. *)
Definition assume_utc (d : datetime) : datetime :=
  match tzinfo d with
  | None => replace_tzinfo_utc d
  | Some _ => d
  end.

(** [x[:n] + "..." if len(x) > n else x]. *)
Definition ellipsis (n : nat) (x : string) : string :=
  if Z.of_nat n <? py_len x then py_prefix n x ++ "..." else x.

(** *** Course recommendations *)

(** The body of the loop over the user's selections. *)
Definition course_urgent_step (self : RecommendationEngine)
    (selection : CourseSelection.t) (recommendations : list RecommendationItem.t)
    : prog World (list RecommendationItem.t) :=
  now <- datetime_now_utc ;;
  let deadline := assume_utc (CourseSelection.deadline selection) in
  delta <- lift_res (datetime_sub deadline now) ;;
  let days_to_deadline := timedelta_days delta in
  if days_to_deadline <=? 3 then
    let urgency_score := _calculate_urgency_score days_to_deadline "COURSE" in
    let importance_score := 85 in
    let fit_score := 90 in
    let growth_score := 70 in
    let total_score :=
      _calculate_total_score self (inject_Z urgency_score) (inject_Z importance_score)
        (inject_Z fit_score) (inject_Z growth_score) in
    let urgency_level := _get_urgency_level settings (days_to_deadline * 24) in
    rec <- RecommendationItem_new (fun created => {|
      RecommendationItem.id := "course_urgent_" ++ pretty (CourseSelection.sele_id selection);
      RecommendationItem.type := COURSE_URGENT;
      RecommendationItem.title :=
        "完成《" ++ CourseSelection.course_title selection ++ "》"
        ++ CourseSelection.chapter_title selection;
      RecommendationItem.description :=
        "第" ++ pretty (CourseSelection.current_serial selection) ++ "课 - "
        ++ CourseSelection.chapter_title selection;
      RecommendationItem.action_text := "立即学习";
      RecommendationItem.action_url := CourseSelection.url selection;
      RecommendationItem.score := total_score;
      RecommendationItem.urgency := inject_Z urgency_score;
      RecommendationItem.importance := inject_Z importance_score;
      RecommendationItem.personal_fit := inject_Z fit_score;
      RecommendationItem.growth_value := inject_Z growth_score;
      RecommendationItem.estimated_time := "30-45分钟";
      RecommendationItem.deadline := Some deadline;
      RecommendationItem.urgency_level := Some urgency_level;
      RecommendationItem.reasons := [
        "距离DDL还有" ++ pretty days_to_deadline ++ "天";
        "已选课程需要完成";
        if opt_str_truthy (CourseSelection.shushi_name selection)
        then "塾师: " ++ get_default (CourseSelection.shushi_name selection) ""
        else "" ];
      RecommendationItem.source_id := Some (pretty (CourseSelection.course_id selection));
      RecommendationItem.source_type := Some "course_selection";
      RecommendationItem.created_at := created |}) ;;
    ret (recommendations ++ [rec])%list
  else ret recommendations.

(** The body of the loop over the catalogue. *)
Definition course_popular_step (self : RecommendationEngine)
    (selected_course_ids : gset Z)
    (course : Course.t) (recommendations : list RecommendationItem.t)
    : prog World (list RecommendationItem.t) :=
  course_id <- getitem "id" (Course.id course) ;;
  let finish_selections_num := get_default (Course.finish_selections_num course) 0 in
  if negb (bool_decide (course_id ∈ selected_course_ids))
     && (5 <=? finish_selections_num) then
    let urgency_score := 30 in
    let importance_score := 60 + Z.min (finish_selections_num * 2) 30 in
    let fit_score := 50 in
    let growth_score := 80 in
    let total_score :=
      _calculate_total_score self (inject_Z urgency_score) (inject_Z importance_score)
        (inject_Z fit_score) (inject_Z growth_score) in
    if Qle_bool 60 total_score then
      course_title <- getitem "title" (Course.title course) ;;
      rec <- RecommendationItem_new (fun created => {|
        RecommendationItem.id := "course_popular_" ++ pretty course_id;
        RecommendationItem.type := COURSE_POPULAR;
        RecommendationItem.title := "学习热门课程《" ++ course_title ++ "》";
        RecommendationItem.description := ellipsis 100 (get_default (Course.desc course) "");
        RecommendationItem.action_text := "立即选课";
        RecommendationItem.action_url := "/course/" ++ pretty course_id;
        RecommendationItem.score := total_score;
        RecommendationItem.urgency := inject_Z urgency_score;
        RecommendationItem.importance := inject_Z importance_score;
        RecommendationItem.personal_fit := inject_Z fit_score;
        RecommendationItem.growth_value := inject_Z growth_score;
        RecommendationItem.estimated_time := "1-2周";
        RecommendationItem.deadline := None;
        RecommendationItem.urgency_level := Some LOW;
        RecommendationItem.reasons := [
          "已有" ++ pretty finish_selections_num ++ "人完成";
          "热门推荐课程";
          "导师: " ++ get_default (Course.director_name course) "未知" ];
        RecommendationItem.source_id := Some (pretty course_id);
        RecommendationItem.source_type := Some "course_popular";
        RecommendationItem.created_at := created |}) ;;
      ret (recommendations ++ [rec])%list
    else ret recommendations
  else ret recommendations.

(** [{s.course_id for s in selections}]. *)
Definition course_ids (selections : list CourseSelection.t) : gset Z :=
  list_to_set (map CourseSelection.course_id selections).

Definition _recommend_courses (self : RecommendationEngine) (user_data : UserData)
    : prog World (list RecommendationItem.t) :=
  let recommendations := [] in
  recommendations <-
    for_each (course_urgent_step self) (selections user_data) recommendations ;;
  let selected_course_ids := course_ids (selections user_data) in
  recommendations <-
    for_each (course_popular_step self selected_course_ids) (all_courses user_data)
      recommendations ;;
  ret recommendations.

(** *** Project recommendations *)

(** [project.bonus or 0]: [None] and [0.0] are both false. *)
Definition bonus_or_0 (project : InnoProject.t) : Q :=
  match InnoProject.bonus project with
  | Some b => if Qeq_bool b 0 then 0%Q else b
  | None => 0%Q
  end.

(** The same expression inside an f-string: the integer [0] prints as
    ["0"], a float as [str] prints it. *)
Definition bonus_or_0_str (project : InnoProject.t) : string :=
  match InnoProject.bonus project with
  | Some b => if Qeq_bool b 0 then "0" else float_str rt b
  | None => "0"
  end.

Definition _calculate_project_fit_score (project : InnoProject.t) (user_data : UserData)
    : Z :=
  let base_score := 50 in
  let bonus := bonus_or_0 project in
  let base_score :=
    if Qlt_le_dec 200 bonus then base_score + 20
    else if Qlt_le_dec 100 bonus then base_score + 10
    else base_score in
  let base_score :=
    if Qle_bool (InnoProject.planed_hour project) 10 then base_score + 15
    else base_score in
  Z.min base_score 95.

(** [len(project.desc)] raises on [None]. *)
Definition project_description (project : InnoProject.t) : prog World string :=
  match InnoProject.desc project with
  | Some d => ret (ellipsis 100 d)
  | None => raise (Exn TypeError "object of type 'NoneType' has no len()")
  end.

(** The body of the loop over the open projects. *)
Definition project_step (self : RecommendationEngine) (user_data : UserData)
    (project : InnoProject.t) (recommendations : list RecommendationItem.t)
    : prog World (list RecommendationItem.t) :=
  match InnoProject.taker_id project with
  | Some _ => ret recommendations
  | None =>
      now <- datetime_now_utc ;;
      let deadline := assume_utc (InnoProject.deadline project) in
      delta <- lift_res (datetime_sub deadline now) ;;
      let days_to_deadline := timedelta_days delta in
      let urgency_score := _calculate_urgency_score days_to_deadline "PROJECT" in
      let importance_score := py_min (60 + bonus_or_0 project / 10)%Q 90 in
      let fit_score := _calculate_project_fit_score project user_data in
      let growth_score := py_min (60 + InnoProject.planed_hour project * 2)%Q 90 in
      let total_score :=
        _calculate_total_score self (inject_Z urgency_score) importance_score
          (inject_Z fit_score) growth_score in
      if Qle_bool 50 total_score then
        description <- project_description project ;;
        rec <- RecommendationItem_new (fun created => {|
          RecommendationItem.id := "task_claim_" ++ pretty (InnoProject.id project);
          RecommendationItem.type := TASK_CLAIM;
          RecommendationItem.title := "认领任务「" ++ InnoProject.title project ++ "」";
          RecommendationItem.description := description;
          RecommendationItem.action_text := "立即认领";
          RecommendationItem.action_url := "/inno/task/" ++ pretty (InnoProject.id project);
          RecommendationItem.score := total_score;
          RecommendationItem.urgency := inject_Z urgency_score;
          RecommendationItem.importance := importance_score;
          RecommendationItem.personal_fit := inject_Z fit_score;
          RecommendationItem.growth_value := growth_score;
          RecommendationItem.estimated_time :=
            float_str rt (InnoProject.planed_hour project) ++ "小时";
          RecommendationItem.deadline := Some deadline;
          RecommendationItem.urgency_level :=
            Some (_get_urgency_level settings (days_to_deadline * 24));
          RecommendationItem.reasons := [
            "奖励: " ++ bonus_or_0_str project ++ "鲸币";
            "发布者: " ++ InnoProject.publisher project;
            "预计工时: " ++ float_str rt (InnoProject.planed_hour project) ++ "小时";
            "无人认领的任务" ];
          RecommendationItem.source_id := Some (pretty (InnoProject.id project));
          RecommendationItem.source_type := Some "project_task";
          RecommendationItem.created_at := created |}) ;;
        ret (recommendations ++ [rec])%list
      else ret recommendations
  end.

Definition _recommend_projects (self : RecommendationEngine) (user_data : UserData)
    : prog World (list RecommendationItem.t) :=
  for_each (project_step self user_data) (projects user_data) [].

(** *** System recommendations *)

(** The time strings of the provider carry no zone: one is appended
    unless the string holds a ["+"] or a ["Z"]. *)
Definition with_utc_suffix (s : string) : string :=
  if negb (py_contains "+" s) && negb (py_contains "Z" s) then s ++ "+00:00" else s.

Definition goal_talk (self : RecommendationEngine) (user_data : UserData)
    (recommendations : list RecommendationItem.t)
    : prog World (list RecommendationItem.t) :=
  match goal user_data with
  | None => ret recommendations
  | Some goal =>
      start_time_str <- getitem "start_time" (Goal.start_time goal) ;;
      let start_time_str := with_utc_suffix start_time_str in
      start_time <- lift_res (fromisoformat rt start_time_str) ;;
      now <- datetime_now_utc ;;
      let start_time := assume_utc start_time in
      delta <- lift_res (datetime_sub now start_time) ;;
      let days_since_start := timedelta_days delta in
      if 21 <? days_since_start then
        let urgency_score := Z.min (50 + days_since_start) 90 in
        let importance_score := 75 in
        let fit_score := 100 in
        let growth_score := 85 in
        let total_score :=
          _calculate_total_score self (inject_Z urgency_score) (inject_Z importance_score)
            (inject_Z fit_score) (inject_Z growth_score) in
        goal_id <- getitem "id" (Goal.id goal) ;;
        content <- getitem "content" (Goal.content goal) ;;
        rec <- RecommendationItem_new (fun created => {|
          RecommendationItem.id := "goal_talk_" ++ pretty goal_id;
          RecommendationItem.type := GOAL_TALK;
          RecommendationItem.title :=
            "预约目标面谈（距上次" ++ pretty days_since_start ++ "天）";
          RecommendationItem.description := "当前目标: " ++ py_prefix 50 content ++ "...";
          RecommendationItem.action_text := "立即预约";
          RecommendationItem.action_url := "/user/goaltalk/new";
          RecommendationItem.score := total_score;
          RecommendationItem.urgency := inject_Z urgency_score;
          RecommendationItem.importance := inject_Z importance_score;
          RecommendationItem.personal_fit := inject_Z fit_score;
          RecommendationItem.growth_value := inject_Z growth_score;
          RecommendationItem.estimated_time := "60分钟";
          RecommendationItem.deadline := None;
          RecommendationItem.urgency_level := Some MEDIUM;
          RecommendationItem.reasons := [
            "距离上次目标制定已" ++ pretty days_since_start ++ "天";
            "定期复盘有助于目标达成";
            "个性化指导" ];
          RecommendationItem.source_id := Some (pretty goal_id);
          RecommendationItem.source_type := Some "goal_management";
          RecommendationItem.created_at := created |}) ;;
        ret (recommendations ++ [rec])%list
      else ret recommendations
  end.

(** The body of the loop that keeps the reports of the last 30 days. *)
Definition recent_report_step (thirty_days_ago : datetime)
    (r : Report.t) (recent_reports : list Report.t) : prog World (list Report.t) :=
  report_time_str <- getitem "report_time" (Report.report_time r) ;;
  let report_time_str := with_utc_suffix report_time_str in
  report_time <- lift_res (fromisoformat rt report_time_str) ;;
  let report_time := assume_utc report_time in
  is_recent <- lift_res (datetime_gt report_time thirty_days_ago) ;;
  if is_recent then ret (recent_reports ++ [r])%list else ret recent_reports.

(** [sum(r.get("time_reported", 0) for r in recent_reports)]. *)
Definition sum_time_reported (recent_reports : list Report.t) : Q :=
  fold_left (fun acc r => (acc + get_default (Report.time_reported r) 0)%Q)
    recent_reports 0%Q.

Definition report_time_reminder (self : RecommendationEngine) (user_data : UserData)
    (recommendations : list RecommendationItem.t)
    : prog World (list RecommendationItem.t) :=
  match reports user_data with
  | [] => ret recommendations
  | _ =>
      now <- datetime_now_utc ;;
      let thirty_days_ago := datetime_minus now (timedelta_of_days 30) in
      recent_reports <- for_each (recent_report_step thirty_days_ago) (reports user_data) [] ;;
      let recent_hours := sum_time_reported recent_reports in
      if Qlt_le_dec recent_hours 10 then
        let urgency_score := 60 in
        let importance_score := 70 in
        let fit_score := 90 in
        let growth_score := 50 in
        let total_score :=
          _calculate_total_score self (inject_Z urgency_score) (inject_Z importance_score)
            (inject_Z fit_score) (inject_Z growth_score) in
        rec <- RecommendationItem_new (fun created => {|
          RecommendationItem.id := "report_time_reminder";
          RecommendationItem.type := REPORT_TIME;
          RecommendationItem.title := "补充学时申报记录";
          RecommendationItem.description :=
            "最近30天仅申报" ++ float_format_1f rt recent_hours ++ "小时，建议补充学习记录";
          RecommendationItem.action_text := "去申报";
          RecommendationItem.action_url := "/user/reports/new";
          RecommendationItem.score := total_score;
          RecommendationItem.urgency := inject_Z urgency_score;
          RecommendationItem.importance := inject_Z importance_score;
          RecommendationItem.personal_fit := inject_Z fit_score;
          RecommendationItem.growth_value := inject_Z growth_score;
          RecommendationItem.estimated_time := "10-15分钟";
          RecommendationItem.deadline := None;
          RecommendationItem.urgency_level := Some MEDIUM;
          RecommendationItem.reasons := [
            "最近30天仅申报" ++ float_format_1f rt recent_hours ++ "小时";
            "学时记录有助于学习规划";
            "完善学习档案" ];
          RecommendationItem.source_id := Some "time_report";
          RecommendationItem.source_type := Some "system_reminder";
          RecommendationItem.created_at := created |}) ;;
        ret (recommendations ++ [rec])%list
      else ret recommendations
  end.

Definition _recommend_system_actions (self : RecommendationEngine) (user_data : UserData)
    : prog World (list RecommendationItem.t) :=
  let recommendations := [] in
  recommendations <- goal_talk self user_data recommendations ;;
  recommendations <- report_time_reminder self user_data recommendations ;;
  ret recommendations.

(** *** Fetching the user's data *)

Definition _get_mock_user_data (user_id : Z) (token : string) : prog World UserData :=
  d1 <- datetime_now ;;
  d2 <- datetime_now ;;
  let mock_selections := [
    {| CourseSelection.sele_id := 1;
       CourseSelection.user_id := user_id;
       CourseSelection.user_name := "测试用户";
       CourseSelection.course_title := "Python编程基础";
       CourseSelection.course_id := 101;
       CourseSelection.chapter_title := "第5课：循环与条件语句";
       CourseSelection.chapter_id := 105;
       CourseSelection.current_serial := 5;
       CourseSelection.deadline := datetime_plus d1 (timedelta_of_days 2);
       CourseSelection.url := "/course/python-101#lesson-5";
       CourseSelection.shushi_id := Some 1;
       CourseSelection.shushi_name := Some "张老师" |};
    {| CourseSelection.sele_id := 2;
       CourseSelection.user_id := user_id;
       CourseSelection.user_name := "测试用户";
       CourseSelection.course_title := "数据结构与算法";
       CourseSelection.course_id := 102;
       CourseSelection.chapter_title := "第3课：树与图";
       CourseSelection.chapter_id := 203;
       CourseSelection.current_serial := 3;
       CourseSelection.deadline := datetime_plus d2 (timedelta_of_days 7);
       CourseSelection.url := "/course/algorithm-101#lesson-3";
       CourseSelection.shushi_id := Some 2;
       CourseSelection.shushi_name := Some "李老师" |} ] in
  let mock_courses := [
    {| Course.id := Some 103;
       Course.title := Some "Vue.js前端开发";
       Course.desc := Some "从零开始学习Vue.js框架，掌握现代前端开发技巧";
       Course.director_name := Some "王老师";
       Course.finish_selections_num := Some 12 |};
    {| Course.id := Some 104;
       Course.title := Some "机器学习入门";
       Course.desc := Some "系统学习机器学习的基本概念和常用算法";
       Course.director_name := Some "陈老师";
       Course.finish_selections_num := Some 8 |} ] in
  d3 <- datetime_now ;;
  d4 <- datetime_now ;;
  d5 <- datetime_now ;;
  d6 <- datetime_now ;;
  let mock_projects := [
    {| InnoProject.id := 201;
       InnoProject.task_serial := "TASK-001";
       InnoProject.title := "官网首页优化";
       InnoProject.publisher := "产品经理";
       InnoProject.taker := None;
       InnoProject.taker_id := None;
       InnoProject.status := Some "待认领";
       InnoProject.deadline := datetime_plus d3 (timedelta_of_days 10);
       InnoProject.planed_hour := 15;
       InnoProject.bonus := Some 300%Q;
       InnoProject.task_text := Some "优化官网首页的加载速度和用户体验";
       InnoProject.desc :=
         Some "需要优化官网首页的性能，提升用户访问体验，包括图片压缩、代码优化等工作。";
       InnoProject.create_time := datetime_minus d4 (timedelta_of_days 3) |};
    {| InnoProject.id := 202;
       InnoProject.task_serial := "TASK-002";
       InnoProject.title := "用户反馈系统开发";
       InnoProject.publisher := "技术经理";
       InnoProject.taker := None;
       InnoProject.taker_id := None;
       InnoProject.status := Some "待认领";
       InnoProject.deadline := datetime_plus d5 (timedelta_of_days 5);
       InnoProject.planed_hour := 25;
       InnoProject.bonus := Some 500%Q;
       InnoProject.task_text := Some "开发一个用户反馈收集系统";
       InnoProject.desc :=
         Some "开发一个完整的用户反馈系统，包括反馈提交、分类、处理和回复功能。";
       InnoProject.create_time := datetime_minus d6 (timedelta_of_days 1) |} ] in
  d7 <- datetime_now ;;
  d8 <- datetime_now ;;
  let mock_goal :=
    {| Goal.id := Some 1;
       Goal.user_id := Some user_id;
       Goal.content := Some "掌握全栈开发技能，成为一名优秀的软件开发工程师";
       Goal.start_time := Some (isoformat rt (datetime_minus d7 (timedelta_of_days 25)));
       Goal.target_date := Some (isoformat rt (datetime_plus d8 (timedelta_of_days 180))) |} in
  d9 <- datetime_now ;;
  d10 <- datetime_now ;;
  let mock_reports := [
    {| Report.id := Some 1;
       Report.user_id := Some user_id;
       Report.report_time := Some (isoformat rt (datetime_minus d9 (timedelta_of_days 5)));
       Report.time_reported := Some 2.5%Q;
       Report.activity := Some "Python编程学习" |};
    {| Report.id := Some 2;
       Report.user_id := Some user_id;
       Report.report_time := Some (isoformat rt (datetime_minus d10 (timedelta_of_days 15)));
       Report.time_reported := Some 3.0%Q;
       Report.activity := Some "算法题目练习" |} ] in
  log_warning "⚠️  正在使用模拟数据生成推荐，不是真实用户数据！" ;;;
  log_info "要使用真实API，请设置环境变量USE_MOCK_DATA=false" ;;;
  ret {| selections := mock_selections;
         all_courses := mock_courses;
         projects := mock_projects;
         goal := Some mock_goal;
         reports := mock_reports;
         user_id := user_id;
         token := token |}.

(** [r if not isinstance(r, Exception) else dflt]. *)
Definition value_or {A} (r : res A) (dflt : A) : A :=
  match r with
  | Ok v => v
  | Raise _ => dflt
  end.

(** One turn of the loop that logs the failed calls. *)
Definition log_api_failure {A} (i : Z) (result : res A) : prog World unit :=
  match result with
  | Ok _ => ret tt
  | Raise e => log_error ("API调用" ++ pretty i ++ "失败: " ++ exn_str e)
  end.

Definition _fetch_user_data (self : RecommendationEngine) (user_id : Z) (token : string)
    : prog World UserData :=
  if use_mock_data settings then
    log_warning "当前使用模拟数据模式，设置USE_MOCK_DATA=false使用真实API" ;;;
    _get_mock_user_data user_id token
  else
    log_info ("从真实自塾API获取用户" ++ pretty user_id ++ "数据") ;;;
    try_except
      (results <- lift_res (api_gather user_id token) ;;
       log_api_failure 0 (results_0 results) ;;;
       log_api_failure 1 (results_1 results) ;;;
       log_api_failure 2 (results_2 results) ;;;
       log_api_failure 3 (results_3 results) ;;;
       log_api_failure 4 (results_4 results) ;;;
       ret {| selections := value_or (results_0 results) [];
              all_courses := value_or (results_1 results) [];
              projects := value_or (results_2 results) [];
              goal := value_or (results_3 results) None;
              reports := value_or (results_4 results) [];
              user_id := user_id;
              token := token |})
      (fun e =>
         log_error ("获取用户数据失败: " ++ exn_str e) ;;;
         log_warning "获取真实数据失败，降级使用模拟数据" ;;;
         _get_mock_user_data user_id token).

(** *** The orchestration *)

(** The block under [try]. *)
Definition generate_recommendations_try (self : RecommendationEngine)
    (user_id : Z) (token : string) : prog World (list RecommendationItem.t) :=
  user_data <- _fetch_user_data self user_id token ;;
  course_recs <- _recommend_courses self user_data ;;
  project_recs <- _recommend_projects self user_data ;;
  system_recs <- _recommend_system_actions self user_data ;;
  let all_recommendations := (course_recs ++ project_recs ++ system_recs)%list in
  let top3 := _select_top3_with_diversity all_recommendations in
  log_info ("为用户" ++ pretty user_id ++ "生成了"
            ++ pretty (Z.of_nat (length top3)) ++ "个推荐") ;;;
  ret top3.

(** The handler under [except Exception as e]. *)
Definition generate_recommendations_except (user_id : Z) (e : exn)
    : prog World (list RecommendationItem.t) :=
  log_error ("生成推荐失败: 用户" ++ pretty user_id ++ ", 错误: " ++ exn_str e) ;;;
  ret [].

Definition generate_recommendations (self : RecommendationEngine)
    (user_id : Z) (token : string) : prog World (list RecommendationItem.t) :=
  try_except
    (generate_recommendations_try self user_id token)
    (generate_recommendations_except user_id).

End Engine.

(** ** The cache store ([app/services/cache_service.py]) *)

(** The methods the service calls on [self.redis], whatever object that
    is: the client of the networked store or the in-process fallback.
    [redis_delete] stands for the call [delete( *keys )] with the keys spread
    as positional arguments. *)
Class RedisClient (B : Type) := {
  redis_get : string -> prog B (option string);
  redis_set : string -> string -> prog B unit;
  redis_setex : string -> Z -> string -> prog B unit;
  redis_delete : list string -> prog B Z;
  redis_exists : string -> prog B Z;
  redis_keys : string -> prog B (list string)
}.

(** *** The in-process fallback *)

Record InMemoryCache := { cache : gmap string string }.

Definition InMemoryCache_get (key : string) : prog InMemoryCache (option string) :=
  fun self => (Ok (cache self !! key), self).

Definition InMemoryCache_set (key value : string) : prog InMemoryCache unit :=
  fun self => (Ok tt, {| cache := <[key := value]> (cache self) |}).

(** The time to live is dropped. *)
Definition InMemoryCache_setex (key : string) (ttl : Z) (value : string)
    : prog InMemoryCache unit :=
  fun self => (Ok tt, {| cache := <[key := value]> (cache self) |}).

(** [delete(self, key)] takes one key: a call with any other number of
    positional arguments is a [TypeError]. *)
Definition InMemoryCache_delete (keys : list string) : prog InMemoryCache Z :=
  fun self =>
    match keys with
    | [key] =>
        match cache self !! key with
        | Some _ => (Ok 1, {| cache := delete key (cache self) |})
        | None => (Ok 0, self)
        end
    | _ =>
        (Raise (Exn TypeError
                  "InMemoryCache.delete() takes 2 positional arguments"), self)
    end.

Definition InMemoryCache_exists (key : string) : prog InMemoryCache Z :=
  fun self =>
    match cache self !! key with
    | Some _ => (Ok 1, self)
    | None => (Ok 0, self)
    end.

(** The pattern is ignored: all keys are returned.  (A Python dictionary
    lists its keys in insertion order, [map_to_list] in the order of the
    map; no caller depends on the order.) *)
Definition InMemoryCache_keys (pattern : string) : prog InMemoryCache (list string) :=
  fun self => (Ok (map_to_list (cache self)).*1, self).

#[global] Instance InMemoryCache_client : RedisClient InMemoryCache := {
  redis_get := InMemoryCache_get;
  redis_set := InMemoryCache_set;
  redis_setex := InMemoryCache_setex;
  redis_delete := InMemoryCache_delete;
  redis_exists := InMemoryCache_exists;
  redis_keys := InMemoryCache_keys
}.

(** *** The service *)

(** What [self.redis] refers to once it is set. *)
Inductive Backend (R : Type) :=
| RealRedis (r : R)
| Fallback (c : InMemoryCache).
Arguments RealRedis {R} r.
Arguments Fallback {R} c.

Record CacheService (R : Type) := {
  redis_url : string;
  redis : option (Backend R);
  prefix : string
}.
Arguments redis_url {R} _.
Arguments redis {R} _.
Arguments prefix {R} _.

(** The service object together with what its methods touch outside it:
    the connection attempts made so far and the log. *)
Record CacheState (R : Type) := {
  service : CacheService R;
  attempts : nat;
  cache_log : list LogRecord
}.
Arguments service {R} _.
Arguments attempts {R} _.
Arguments cache_log {R} _.

(** Method calls on the object [self.redis] refers to: the object is
    shared, so what a call does to it is seen by every later call. *)
Definition run_backend {R A} (on_real : prog R A) (on_fallback : prog InMemoryCache A)
    : prog (Backend R) A :=
  fun b =>
    match b with
    | RealRedis r => let '(a, r') := on_real r in (a, RealRedis r')
    | Fallback c => let '(a, c') := on_fallback c in (a, Fallback c')
    end.

#[global] Instance Backend_client {R} `{RedisClient R} : RedisClient (Backend R) := {
  redis_get key := run_backend (redis_get key) (redis_get key);
  redis_set key value := run_backend (redis_set key value) (redis_set key value);
  redis_setex key ttl value :=
    run_backend (redis_setex key ttl value) (redis_setex key ttl value);
  redis_delete keys := run_backend (redis_delete keys) (redis_delete keys);
  redis_exists key := run_backend (redis_exists key) (redis_exists key);
  redis_keys pattern := run_backend (redis_keys pattern) (redis_keys pattern)
}.

Section Cache.

Context {R : Type} `{RedisClient R}.
(* the outcome of the n-th call of [redis.from_url] on a URL *)
Variable from_url : nat -> string -> res R.
Variable settings : Settings.
(* the values [json] encodes, [None] being Python's [None], with
   [json.dumps(value, ensure_ascii=False, default=str)] and [json.loads] *)
Variable Value : Type.
Variable json_dumps : option Value -> res string.
Variable json_loads : string -> res (option Value).

Definition CacheService_init : CacheService R :=
  let redis_url :=
    "redis://" ++ redis_host settings ++ ":" ++ pretty (redis_port settings)
    ++ "/" ++ pretty (redis_db settings) in
  let redis_url :=
    if str_truthy (redis_password settings)
    then "redis://:" ++ redis_password settings ++ "@" ++ redis_host settings ++ ":"
         ++ pretty (redis_port settings) ++ "/" ++ pretty (redis_db settings)
    else redis_url in
  {| redis_url := redis_url; redis := None; prefix := cache_prefix settings |}.

(** The state in which a process starts: a fresh service, no connection
    attempted, nothing logged. *)
Definition CacheState_init : CacheState R :=
  {| service := CacheService_init; attempts := 0; cache_log := [] |}.

Definition CacheState_log (r : LogRecord) (st : CacheState R) : CacheState R :=
  {| service := service st; attempts := attempts st; cache_log := (cache_log st ++ [r])%list |}.

Definition cache_logger : LogLevel -> string -> prog (CacheState R) unit :=
  logger CacheState_log.

(** [self.redis = b]. *)
Definition set_redis (b : Backend R) : prog (CacheState R) unit :=
  fun st =>
    (Ok tt,
     {| service := {| redis_url := redis_url (service st);
                      redis := Some b;
                      prefix := prefix (service st) |};
        attempts := attempts st;
        cache_log := cache_log st |}).

(** [await redis.from_url(self.redis_url, ...)]: one connection attempt. *)
Definition connect : prog (CacheState R) R :=
  fun st =>
    (from_url (attempts st) (redis_url (service st)),
     {| service := service st; attempts := S (attempts st); cache_log := cache_log st |}).

(** [InMemoryCache()]: the constructor logs the degradation. *)
Definition degradation_warning : string := "使用内存缓存作为Redis降级方案".

Definition InMemoryCache_init : prog (CacheState R) InMemoryCache :=
  cache_logger WARNING degradation_warning ;;;
  ret {| cache := ∅ |}.

(** A method call on the object [self.redis] refers to. *)
Definition on_redis {A} (call : prog (Backend R) A) : prog (CacheState R) A :=
  fun st =>
    match redis (service st) with
    | Some b =>
        let '(a, b') := call b in
        (a, {| service := {| redis_url := redis_url (service st);
                             redis := Some b';
                             prefix := prefix (service st) |};
               attempts := attempts st;
               cache_log := cache_log st |})
    | None =>
        (Raise (Exn AttributeError "'NoneType' object has no attribute"), st)
    end.

(** [_get_redis] returns [self.redis]; here it leaves the object in
    [self.redis], where [on_redis] finds it. *)
Definition _get_redis : prog (CacheState R) unit :=
  st <- get_state ;;
  match redis (service st) with
  | Some _ => ret tt
  | None =>
      try_except
        (r <- connect ;;
         set_redis (RealRedis r) ;;;
         cache_logger INFO "Redis连接成功")
        (fun e =>
           cache_logger ERROR ("Redis连接失败: " ++ exn_str e) ;;;
           c <- InMemoryCache_init ;;
           set_redis (Fallback c))
  end.

Definition _make_key (self : CacheService R) (key : string) : string :=
  prefix self ++ ":" ++ key.

Definition make_key (key : string) : prog (CacheState R) string :=
  st <- get_state ;; ret (_make_key (service st) key).

Definition CacheService_get (key : string) : prog (CacheState R) (option Value) :=
  try_except
    (_get_redis ;;;
     cache_key <- make_key key ;;
     data <- on_redis (redis_get cache_key) ;;
     if opt_str_truthy data then lift_res (json_loads (get_default data ""))
     else ret None)
    (fun e =>
       cache_logger ERROR ("获取缓存失败: key=" ++ key ++ ", 错误=" ++ exn_str e) ;;;
       ret None).

(** [if ttl:] on an optional integer. *)
Definition ttl_truthy (ttl : option Z) : bool :=
  match ttl with
  | Some t => negb (t =? 0)
  | None => false
  end.

Definition CacheService_set (key : string) (value : option Value) (ttl : option Z)
    : prog (CacheState R) bool :=
  try_except
    (_get_redis ;;;
     cache_key <- make_key key ;;
     data <- lift_res (json_dumps value) ;;
     (if ttl_truthy ttl
      then on_redis (redis_setex cache_key (get_default ttl 0) data)
      else on_redis (redis_set cache_key data)) ;;;
     cache_logger DEBUG ("缓存设置成功: key=" ++ key) ;;;
     ret true)
    (fun e =>
       cache_logger ERROR ("设置缓存失败: key=" ++ key ++ ", 错误=" ++ exn_str e) ;;;
       ret false).

Definition CacheService_delete (key : string) : prog (CacheState R) bool :=
  try_except
    (_get_redis ;;;
     cache_key <- make_key key ;;
     result <- on_redis (redis_delete [cache_key]) ;;
     cache_logger DEBUG ("缓存删除: key=" ++ key ++ ", 结果=" ++ pretty result) ;;;
     ret (0 <? result))
    (fun e =>
       cache_logger ERROR ("删除缓存失败: key=" ++ key ++ ", 错误=" ++ exn_str e) ;;;
       ret false).

Definition CacheService_exists (key : string) : prog (CacheState R) bool :=
  try_except
    (_get_redis ;;;
     cache_key <- make_key key ;;
     result <- on_redis (redis_exists cache_key) ;;
     ret (0 <? result))
    (fun e =>
       cache_logger ERROR ("检查缓存失败: key=" ++ key ++ ", 错误=" ++ exn_str e) ;;;
       ret false).

Definition CacheService_clear_pattern (pattern : string) : prog (CacheState R) Z :=
  try_except
    (_get_redis ;;;
     cache_pattern <- make_key pattern ;;
     keys <- on_redis (redis_keys cache_pattern) ;;
     match keys with
     | [] => ret 0
     | _ =>
         result <- on_redis (redis_delete keys) ;;
         cache_logger INFO ("清除缓存: 模式=" ++ pattern ++ ", 数量=" ++ pretty result) ;;;
         ret result
     end)
    (fun e =>
       cache_logger ERROR ("清除缓存失败: pattern=" ++ pattern ++ ", 错误=" ++ exn_str e) ;;;
       ret 0).

(** *** The cache sweep ([app/services/performance.py]) *)

Definition _cleanup_expired_cache : prog (CacheState R) unit :=
  cache_logger INFO "开始清理过期缓存" ;;;
  try_except
    (let pattern := "recommendations:*" in
     cleared_count <- CacheService_clear_pattern pattern ;;
     cache_logger INFO ("清理缓存完成: " ++ pretty cleared_count ++ " 个键"))
    (fun e => cache_logger ERROR ("清理缓存失败: " ++ exn_str e)).

(** *** Sequences of calls on one service *)

(** The calls a client of the service can make, to state what a run of
    several calls does. *)
Inductive CacheCall :=
| CallGet (key : string)
| CallSet (key : string) (value : option Value) (ttl : option Z)
| CallDelete (key : string)
| CallExists (key : string)
| CallClearPattern (pattern : string)
| CallCleanup.

Definition run_call (c : CacheCall) : prog (CacheState R) unit :=
  match c with
  | CallGet key => CacheService_get key ;;; ret tt
  | CallSet key value ttl => CacheService_set key value ttl ;;; ret tt
  | CallDelete key => CacheService_delete key ;;; ret tt
  | CallExists key => CacheService_exists key ;;; ret tt
  | CallClearPattern pattern => CacheService_clear_pattern pattern ;;; ret tt
  | CallCleanup => _cleanup_expired_cache
  end.

Definition run_calls (calls : list CacheCall) : prog (CacheState R) unit :=
  for_each (fun c _ => run_call c) calls tt.

(** The number of degradation warnings in a log. *)
Definition is_degradation_signal (r : LogRecord) : bool :=
  match level r with
  | WARNING => String.eqb (message r) degradation_warning
  | _ => false
  end.

Definition degradation_signals (l : list LogRecord) : nat :=
  length (List.filter is_degradation_signal l).

(** The fallback map of a service, when it runs degraded. *)
Definition fallback_of (st : CacheState R) : option (gmap string string) :=
  match redis (service st) with
  | Some (Fallback c) => Some (cache c)
  | _ => None
  end.

End Cache.

Arguments CallGet {Value} key.
Arguments CallSet {Value} key value ttl.
Arguments CallDelete {Value} key.
Arguments CallExists {Value} key.
Arguments CallClearPattern {Value} pattern.
Arguments CallCleanup {Value}.

(** ** Specification-side definitions *)

(** The urgency curves as the specification tabulates them: rows of
    (bound in days, score), the first row whose bound is not exceeded
    giving the score. *)
Definition course_urgency_curve : list (Z * Z) := [(1, 95); (3, 85); (7, 70); (14, 50)].

Definition project_urgency_curve : list (Z * Z) := [(3, 90); (7, 75); (14, 60)].

Fixpoint curve_lookup (curve : list (Z * Z)) (otherwise days : Z) : Z :=
  match curve with
  | [] => otherwise
  | (bound, value) :: rows => if days <=? bound then value else curve_lookup rows otherwise days
  end.

Definition urgency_baseline : Z := 25.

Definition urgency_spec (days : Z) (task_type : string) : Z :=
  if decide (task_type = "COURSE") then curve_lookup course_urgency_curve 30 days
  else if decide (task_type = "PROJECT") then curve_lookup project_urgency_curve 40 days
  else urgency_baseline.

(** A weight configuration and a sub-score as the specification
    constrains them. *)
Definition weights_sum (self : RecommendationEngine) : Q :=
  (w_urgency (algorithm_weights self) + w_importance (algorithm_weights self)
   + w_personal_fit (algorithm_weights self) + w_growth_value (algorithm_weights self))%Q.

Definition weights_nonnegative (self : RecommendationEngine) : Prop :=
  (0 <= w_urgency (algorithm_weights self))%Q
  /\ (0 <= w_importance (algorithm_weights self))%Q
  /\ (0 <= w_personal_fit (algorithm_weights self))%Q
  /\ (0 <= w_growth_value (algorithm_weights self))%Q.

Definition subscore (x : Q) : Prop := (0 <= x /\ x <= 100)%Q.

(** The whole days left to a deadline at the k-th reading of the clock,
    as both deadline loops compute them. *)
Definition days_to_deadline (rt : Runtime) (k : nat) (d : datetime) : Z :=
  timedelta_days (utc_instant (assume_utc d) - clock rt k).

(** The reading of the clock a turn of a loop takes for its [now]: the
    number of readings taken when the loop, started in the world [w] with
    [acc], has run over the elements [earlier] that come before the turn's
    element. *)
Definition turn_reading {A S} (body : A -> S -> prog World S) (earlier : list A)
    (acc : S) (w : World) : nat :=
  reads (for_each body earlier acc w).2.

(** A deadline strictly between 24 and 48 hours ahead of the k-th reading
    of the clock. *)
Definition in_second_day (rt : Runtime) (k : nat) (d : datetime) : Prop :=
  24 * microseconds_per_hour < utc_instant d - clock rt k < 48 * microseconds_per_hour.

(** The total score of a course-urgent candidate with a given number of
    days left, and of a course-popular candidate with a given number of
    completions. *)
Definition course_urgent_score (self : RecommendationEngine) (days : Z) : Q :=
  _calculate_total_score self (inject_Z (_calculate_urgency_score days "COURSE"))
    (inject_Z 85) (inject_Z 90) (inject_Z 70).

Definition course_popular_score (self : RecommendationEngine) (finish : Z) : Q :=
  _calculate_total_score self (inject_Z 30) (inject_Z (60 + Z.min (finish * 2) 30))
    (inject_Z 50) (inject_Z 80).

(** The candidate a selection gives rise to, by the fields the
    specification speaks of. *)
Definition is_course_urgent (settings : Settings) (self : RecommendationEngine)
    (selection : CourseSelection.t) (days : Z) (rec : RecommendationItem.t) : Prop :=
  RecommendationItem.id rec = "course_urgent_" ++ pretty (CourseSelection.sele_id selection)
  /\ RecommendationItem.type rec = COURSE_URGENT
  /\ RecommendationItem.score rec = course_urgent_score self days
  /\ RecommendationItem.urgency rec = inject_Z (_calculate_urgency_score days "COURSE")
  /\ RecommendationItem.importance rec = inject_Z 85
  /\ RecommendationItem.personal_fit rec = inject_Z 90
  /\ RecommendationItem.growth_value rec = inject_Z 70
  /\ RecommendationItem.deadline rec = Some (assume_utc (CourseSelection.deadline selection))
  /\ RecommendationItem.urgency_level rec = Some (_get_urgency_level settings (days * 24)).

(** The candidate a catalogue course gives rise to. *)
Definition is_course_popular (self : RecommendationEngine)
    (course_id finish : Z) (rec : RecommendationItem.t) : Prop :=
  RecommendationItem.id rec = "course_popular_" ++ pretty course_id
  /\ RecommendationItem.type rec = COURSE_POPULAR
  /\ RecommendationItem.score rec = course_popular_score self finish
  /\ RecommendationItem.urgency rec = inject_Z 30
  /\ RecommendationItem.importance rec = inject_Z (60 + Z.min (finish * 2) 30)
  /\ RecommendationItem.personal_fit rec = inject_Z 50
  /\ RecommendationItem.growth_value rec = inject_Z 80
  /\ RecommendationItem.deadline rec = None
  /\ RecommendationItem.urgency_level rec = Some LOW.

(** The candidate an open project gives rise to. *)
Definition is_task_claim (settings : Settings) (project : InnoProject.t) (days : Z)
    (rec : RecommendationItem.t) : Prop :=
  RecommendationItem.id rec = "task_claim_" ++ pretty (InnoProject.id project)
  /\ RecommendationItem.type rec = TASK_CLAIM
  /\ (50 <= RecommendationItem.score rec)%Q
  /\ RecommendationItem.deadline rec = Some (assume_utc (InnoProject.deadline project))
  /\ RecommendationItem.urgency_level rec = Some (_get_urgency_level settings (days * 24)).

(** The emission rules of the course generator, on the list [recs] it
    returned from the world [w]: (1) every selection whose deadline is at most
    3 whole days away when its turn of the loop reads the clock has its
    course-urgent candidate, with no condition on its score; (2) every
    course-popular candidate comes from a catalogue course the user has not
    selected, with at least 5 completions, and has a total score of at least
    60. *)
Definition course_emission_rules (rt : Runtime) (settings : Settings)
    (self : RecommendationEngine) (user_data : UserData) (w : World)
    (recs : list RecommendationItem.t) : Prop :=
  (forall earlier selection later,
     selections user_data = (earlier ++ selection :: later)%list ->
     let days :=
       days_to_deadline rt
         (turn_reading (course_urgent_step rt settings self) earlier [] w)
         (CourseSelection.deadline selection) in
     days <= 3 ->
     exists rec, rec ∈ recs /\ is_course_urgent settings self selection days rec)
  /\ (forall rec,
        rec ∈ recs -> RecommendationItem.type rec = COURSE_POPULAR ->
        (60 <= RecommendationItem.score rec)%Q
        /\ exists course cid,
             course ∈ all_courses user_data
             /\ Course.id course = Some cid
             /\ (cid ∉ course_ids (selections user_data))
             /\ 5 <= get_default (Course.finish_selections_num course) 0
             /\ RecommendationItem.id rec = "course_popular_" ++ pretty cid).

(** A catalogue whose entries carry the keys the engine indexes. *)
Definition catalog_well_formed (all_courses : list Course.t) : Prop :=
  Forall (fun course => is_Some (Course.id course) /\ is_Some (Course.title course))
    all_courses.

(** The error pydantic raises on a score field out of bounds. *)
Definition validation_error : exn :=
  Exn ValidationError "validation error for RecommendationItem".

(** A runtime to run the engine on: a clock that stands still at the
    epoch, local time at UTC, no date parsing, floats printed as nothing. *)
Definition still_runtime : Runtime :=
  {| clock := fun _ => 0;
     local_utcoffset := 0;
     fromisoformat := fun _ => Raise (Exn ValueError "Invalid isoformat string");
     isoformat := fun _ => "";
     float_str := fun _ => "";
     float_format_1f := fun _ => "" |}.

(** A selection in the manner of the tests, with a given deadline. *)
Definition sample_selection (deadline : datetime) : CourseSelection.t :=
  {| CourseSelection.sele_id := 1;
     CourseSelection.user_id := 51;
     CourseSelection.user_name := "测试用户";
     CourseSelection.course_title := "自塾Python";
     CourseSelection.course_id := 5;
     CourseSelection.chapter_title := "第5课";
     CourseSelection.chapter_id := 50;
     CourseSelection.current_serial := 5;
     CourseSelection.deadline := deadline;
     CourseSelection.url := "https://test.com/course/5";
     CourseSelection.shushi_id := None;
     CourseSelection.shushi_name := None |}.

(** The catalogue course and the project of the tests. *)
Definition sample_course : Course.t :=
  {| Course.id := Some 6;
     Course.title := Some "自塾FastAPI";
     Course.desc := Some "FastAPI教程";
     Course.director_name := Some "黎伟";
     Course.finish_selections_num := Some 8 |}.

Definition sample_project (deadline : datetime) : InnoProject.t :=
  {| InnoProject.id := 88;
     InnoProject.task_serial := "B035";
     InnoProject.title := "开发什么值得做智能体";
     InnoProject.publisher := "稳新";
     InnoProject.taker := None;
     InnoProject.taker_id := None;
     InnoProject.status := Some "发布";
     InnoProject.deadline := deadline;
     InnoProject.planed_hour := 20;
     InnoProject.bonus := Some 400%Q;
     InnoProject.task_text := None;
     InnoProject.desc := Some "开发推荐智能体";
     InnoProject.create_time := {| wall := 0; tzinfo := None |} |}.

Definition sample_user_data (selections : list CourseSelection.t)
    (all_courses : list Course.t) (projects : list InnoProject.t) : UserData :=
  {| selections := selections;
     all_courses := all_courses;
     projects := projects;
     goal := None;
     reports := [];
     user_id := 51;
     token := "test_token" |}.

Definition empty_world : World := {| reads := 0; log := [] |}.

(** A deadline 36 hours after the epoch, where [still_runtime] stands, and
    a user with one selection due then. *)
Definition second_day_deadline : datetime :=
  {| wall := 36 * microseconds_per_hour; tzinfo := None |}.

Definition second_day_user_data : UserData :=
  sample_user_data [sample_selection second_day_deadline] [] [].

(** A deadline 60 hours after the epoch: two whole days left. *)
Definition third_day_deadline : datetime :=
  {| wall := 60 * microseconds_per_hour; tzinfo := None |}.

Definition third_day_user_data : UserData :=
  sample_user_data [sample_selection third_day_deadline] [] [].

(** The items a run returned, none if it raised. *)
Definition returned_items {St} (r : res (list RecommendationItem.t) * St)
    : list RecommendationItem.t :=
  match r.1 with
  | Ok recs => recs
  | Raise _ => []
  end.

(** How a slot of the gathered results shows in the user's data: the value
    fetched, or the default when the fetch failed. *)
Definition value_or_default {A} (result : res A) (dflt got : A) : Prop :=
  match result with
  | Ok v => got = v
  | Raise _ => got = dflt
  end.

(** An upstream provider all of whose fetches fail, and one that delivers
    a catalogue entry without its ["id"]. *)
Definition upstream_down : exn := Exn UpstreamError "All connection attempts failed".

Definition api_all_fail (user_id : Z) (token : string) : res Gathered :=
  Ok {| results_0 := Raise upstream_down;
        results_1 := Raise upstream_down;
        results_2 := Raise upstream_down;
        results_3 := Raise upstream_down;
        results_4 := Raise upstream_down |}.

Definition course_without_id : Course.t :=
  {| Course.id := None;
     Course.title := Some "自塾FastAPI";
     Course.desc := None;
     Course.director_name := None;
     Course.finish_selections_num := Some 8 |}.

Definition api_malformed_catalog (user_id : Z) (token : string) : res Gathered :=
  Ok {| results_0 := Ok [];
        results_1 := Ok [course_without_id];
        results_2 := Ok [];
        results_3 := Ok None;
        results_4 := Ok [] |}.

(** A clock that advances by one microsecond at every reading, and the
    fixture of [test_recommend_courses]: a deadline set to two days after a
    first reading of the clock, the generator reading the clock after it. *)
Definition ticking_runtime : Runtime :=
  {| clock := fun k => Z.of_nat k;
     local_utcoffset := 0;
     fromisoformat := fun _ => Raise (Exn ValueError "Invalid isoformat string");
     isoformat := fun _ => "";
     float_str := fun _ => "";
     float_format_1f := fun _ => "" |}.

Definition fixture_user_data : UserData :=
  sample_user_data
    [sample_selection {| wall := 0 + timedelta_of_days 2; tzinfo := None |}]
    [sample_course] [].

Definition after_fixture : World := {| reads := 1; log := [] |}.

(** An engine that weighs importance only. *)
Definition importance_engine : RecommendationEngine :=
  {| algorithm_weights :=
       {| w_urgency := 0; w_importance := 1; w_personal_fit := 0; w_growth_value := 0 |} |}.

(** The engine built from the default settings. *)
Definition default_engine : RecommendationEngine := RecommendationEngine_init default_settings.

(** An engine whose weights sum to one with a negative weight on the
    urgency, and a user whose catalogue holds an entry without its ["id"]
    beside a selection due 36 hours after the epoch. *)
Definition skewed_engine : RecommendationEngine :=
  {| algorithm_weights :=
       {| w_urgency := -3; w_importance := 0; w_personal_fit := 0; w_growth_value := 4 |} |}.

Definition broken_catalog_user_data : UserData :=
  sample_user_data [sample_selection second_day_deadline] [course_without_id] [].

(** A user with one open project, the project of the tests, due 36 hours
    after the epoch. *)
Definition project_user_data : UserData :=
  sample_user_data [] [] [sample_project second_day_deadline].

(** Descending order of score, and a list in that order. *)
Definition score_desc (a b : RecommendationItem.t) : Prop :=
  (RecommendationItem.score b <= RecommendationItem.score a)%Q.

Definition sorted_desc (l : list RecommendationItem.t) : Prop :=
  StronglySorted score_desc l.

#[global] Instance score_desc_dec a b : Decision (score_desc a b).
Proof.
  unfold score_desc.
  destruct (Qlt_le_dec (RecommendationItem.score a) (RecommendationItem.score b)) as [Hlt | Hle].
  - right. apply Qlt_not_le, Hlt.
  - left. exact Hle.
Defined.

(** The top-level categories of a list of items. *)
Definition categories (l : list RecommendationItem.t) : gset string :=
  list_to_set (rec_category <$> l).

(** At least three distinct categories among the candidates of positive
    score. *)
Definition three_positive_categories (pool : list RecommendationItem.t) : Prop :=
  exists a b c,
    a ∈ pool /\ b ∈ pool /\ c ∈ pool
    /\ (0 < RecommendationItem.score a)%Q
    /\ (0 < RecommendationItem.score b)%Q
    /\ (0 < RecommendationItem.score c)%Q
    /\ rec_category a <> rec_category b
    /\ rec_category a <> rec_category c
    /\ rec_category b <> rec_category c.

(** Items in the manner of [tests/test_recommendation_engine.py]: all
    fields but the identifier, the type and the score are fixed. *)
Definition sample_item (id : string) (type : RecommendationType) (score : Q)
    : RecommendationItem.t :=
  {| RecommendationItem.id := id;
     RecommendationItem.type := type;
     RecommendationItem.title := "";
     RecommendationItem.description := "";
     RecommendationItem.action_text := "";
     RecommendationItem.action_url := "";
     RecommendationItem.score := score;
     RecommendationItem.urgency := 90;
     RecommendationItem.importance := 80;
     RecommendationItem.personal_fit := 85;
     RecommendationItem.growth_value := 70;
     RecommendationItem.estimated_time := "30min";
     RecommendationItem.deadline := None;
     RecommendationItem.urgency_level := None;
     RecommendationItem.reasons := [];
     RecommendationItem.source_id := None;
     RecommendationItem.source_type := None;
     RecommendationItem.created_at := {| wall := 0; tzinfo := None |} |}.

(** The pool of [test_select_top3_with_diversity]. *)
Definition test_pool : list RecommendationItem.t :=
  [ sample_item "1" COURSE_URGENT 95;
    sample_item "2" COURSE_POPULAR 85;
    sample_item "3" TASK_CLAIM 92;
    sample_item "4" GOAL_TALK 88 ].

(** Two courses and one task: the fill pass is needed. *)
Definition two_category_pool : list RecommendationItem.t :=
  [ sample_item "1" COURSE_URGENT 95;
    sample_item "2" COURSE_POPULAR 90;
    sample_item "3" TASK_CLAIM 50 ].

(** What the first loop maintains: the selected items have pairwise
    distinct categories, and [used_types] is the set of these. *)
Definition diverse (selected : list RecommendationItem.t) (used_types : gset string) : Prop :=
  NoDup (rec_category <$> selected) /\ used_types = categories selected.

(** *** The cache store *)

(** The entry of the fallback map under a key, if the service runs
    degraded and holds one. *)
Definition cached {R} (st : CacheState R) (cache_key : string) : option string :=
  fallback_of st ≫= fun m => m !! cache_key.

(** A service that runs on its fallback, after [n] connection attempts
    and [k] degradation signals. *)
Definition degraded {R} (n k : nat) (st : CacheState R) : Prop :=
  is_Some (fallback_of st)
  /\ attempts st = n
  /\ degradation_signals (cache_log st) = k.

(** A service not yet connected, whose next connection attempt fails. *)
Definition unconnected {R} (from_url : nat -> string -> res R) (n k : nat)
    (st : CacheState R) : Prop :=
  redis (service st) = None
  /\ attempts st = n
  /\ degradation_signals (cache_log st) = k
  /\ is_exception (from_url n (redis_url (service st))) = true.

(** A store that cannot be reached: there is no client to hold, and every
    connection attempt is refused. *)
#[global] Instance no_client : RedisClient Empty_set := {
  redis_get _ r := match r with end;
  redis_set _ _ r := match r with end;
  redis_setex _ _ _ r := match r with end;
  redis_delete _ r := match r with end;
  redis_exists _ r := match r with end;
  redis_keys _ r := match r with end
}.

Definition connection_refused (n : nat) (url : string) : res Empty_set :=
  Raise (Exn ConnectionError "Connection refused").

(** A stand-in for [json] on values that are a text or [None], enough to
    run the service: a text is stored behind the letter s. *)
Definition text_dumps (value : option string) : res string :=
  Ok match value with
     | Some s => String "s" s
     | None => "null"
     end.

Definition text_loads (data : string) : res (option string) :=
  if String.eqb data "null" then Ok None
  else match data with
       | String "s" s => Ok (Some s)
       | _ => Raise (Exn ValueError "Expecting value")
       end.

(** The state of a fresh service with the default settings, and a run of
    calls on it while the store cannot be reached. *)
Definition fresh_cache : CacheState Empty_set := CacheState_init default_settings.

Definition run_unreachable (calls : list (CacheCall string)) : CacheState Empty_set :=
  (run_calls connection_refused string text_dumps text_loads calls fresh_cache).2.

(** *** The scorer in binary64

    The same weighted sum on IEEE 754 doubles, as Python computes it, to
    set against the exact arithmetic of the model on concrete inputs. *)
Definition total_score_binary64 (w_u w_i w_f w_g urgency importance fit growth : float)
    : float :=
  let total :=
    (urgency * w_u + importance * w_i + fit * w_f + growth * w_g)%float in
  if PrimFloat.ltb 100 total then 100%float else total.

(** *** A model of the networked store

    The store is not code of the repository.  To run the service on its
    primary path, this models the Redis commands the client issues: GET, SET,
    SETEX, DEL, EXISTS and KEYS, on entries that carry an optional instant of
    expiry in seconds.  Nothing moves the time of the store; patterns are
    matched with [*] and [?] only. *)
Record RedisServer := {
  entries : gmap string (string * option Z);
  server_now : Z
}.

Definition live (s : RedisServer) (e : string * option Z) : bool :=
  match e.2 with
  | Some expiry => server_now s <? expiry
  | None => true
  end.

Definition server_lookup (s : RedisServer) (key : string) : option string :=
  match entries s !! key with
  | Some e => if live s e then Some e.1 else None
  | None => None
  end.

Definition server_store (key : string) (e : string * option Z) (s : RedisServer)
    : RedisServer :=
  {| entries := <[key := e]> (entries s); server_now := server_now s |}.

Fixpoint glob_match (pattern s : string) : bool :=
  match pattern with
  | EmptyString => match s with EmptyString => true | _ => false end
  | String "*" pattern' =>
      (fix star (s : string) : bool :=
         glob_match pattern' s
         || match s with
            | EmptyString => false
            | String _ s' => star s'
            end) s
  | String "?" pattern' =>
      match s with
      | EmptyString => false
      | String _ s' => glob_match pattern' s'
      end
  | String c pattern' =>
      match s with
      | EmptyString => false
      | String d s' => Ascii.eqb c d && glob_match pattern' s'
      end
  end.

(** DEL removes the keys that exist and returns their number. *)
Definition server_del (keys : list string) (s : RedisServer) : Z * RedisServer :=
  fold_left
    (fun acc key =>
       match server_lookup acc.2 key with
       | Some _ =>
           (acc.1 + 1,
            {| entries := delete key (entries acc.2); server_now := server_now acc.2 |})
       | None => acc
       end)
    keys (0, s).

Definition server_keys (pattern : string) (s : RedisServer) : list string :=
  (List.filter (fun kv => live s kv.2 && glob_match pattern kv.1)
     (map_to_list (entries s))).*1.

#[global] Instance RedisServer_client : RedisClient RedisServer := {
  redis_get key s := (Ok (server_lookup s key), s);
  redis_set key value s := (Ok tt, server_store key (value, None) s);
  redis_setex key ttl value s :=
    (Ok tt, server_store key (value, Some (server_now s + ttl)) s);
  redis_delete keys s := let '(n, s') := server_del keys s in (Ok n, s');
  redis_exists key s := (Ok (if server_lookup s key is Some _ then 1 else 0), s);
  redis_keys pattern s := (Ok (server_keys pattern s), s)
}.

Definition connection_accepted (n : nat) (url : string) : res RedisServer :=
  Ok {| entries := ∅; server_now := 0 |}.

(** A run of calls on a fresh service while the store can be reached, and
    what the store then holds under a key. *)
Definition run_reachable (calls : list (CacheCall string)) : CacheState RedisServer :=
  (run_calls connection_accepted string text_dumps text_loads calls
     (CacheState_init default_settings)).2.

Definition stored (st : CacheState RedisServer) (cache_key : string) : option string :=
  match redis (service st) with
  | Some (RealRedis s) => server_lookup s cache_key
  | _ => None
  end.

(** ** Further definitions for the properties of the scorer and the selector *)

(** The levels in the order of their urgency. *)
Definition urgency_rank (u : UrgencyLevel) : Z :=
  match u with
  | CRITICAL => 3
  | HIGH => 2
  | MEDIUM => 1
  | LOW => 0
  end.

(** The weighted sum before the clamp. *)
Definition weighted_sum (self : RecommendationEngine) (urgency importance fit growth : Q) : Q :=
  (urgency * w_urgency (algorithm_weights self) +
   importance * w_importance (algorithm_weights self) +
   fit * w_personal_fit (algorithm_weights self) +
   growth * w_growth_value (algorithm_weights self))%Q.

(** No item of the list is [==] to an earlier one. *)
Definition pairwise_unequal (l : list RecommendationItem.t) : Prop :=
  ForallOrdPairs (fun earlier later => RecommendationItem_eqb later earlier = false) l.

(** ** Further definitions for the properties of the cache store *)

(** A service that holds a client of the networked store, after [n]
    connection attempts and [k] degradation signals. *)
Definition connected {R} (n k : nat) (st : CacheState R) : Prop :=
  (exists r, redis (service st) = Some (RealRedis r))
  /\ attempts st = n
  /\ degradation_signals (cache_log st) = k.

(** A service not yet connected, whose next connection attempt succeeds. *)
Definition reachable {R} (from_url : nat -> string -> res R) (n k : nat)
    (st : CacheState R) : Prop :=
  redis (service st) = None
  /\ attempts st = n
  /\ degradation_signals (cache_log st) = k
  /\ is_exception (from_url n (redis_url (service st))) = false.

(** The client a connected service holds. *)
Definition client_of {R} (st : CacheState R) : option R :=
  match redis (service st) with
  | Some (RealRedis r) => Some r
  | _ => None
  end.

(** A client all of whose commands fail, as when the store has gone away
    after the connection was made. *)
Inductive LostConnection := lost_connection.

Definition connection_lost {A} : prog LostConnection A :=
  raise (Exn ConnectionError "Connection closed by server").

#[global] Instance LostConnection_client : RedisClient LostConnection := {
  redis_get _ := connection_lost;
  redis_set _ _ := connection_lost;
  redis_setex _ _ _ := connection_lost;
  redis_delete _ := connection_lost;
  redis_exists _ := connection_lost;
  redis_keys _ := connection_lost
}.

Definition connection_then_lost (n : nat) (url : string) : res LostConnection :=
  Ok lost_connection.

(** A service on its fallback that holds one entry, and a service that
    holds a client whose store has gone away. *)
Definition one_entry_cache : CacheState Empty_set :=
  {| service := {| redis_url := "redis://localhost:6379/0";
                   redis :=
                     Some (Fallback
                             {| cache := {[ "what_to_do:recommendations:user:51" := "stop3" ]} |});
                   prefix := "what_to_do" |};
     attempts := 1;
     cache_log := [] |}.

Definition lost_cache : CacheState LostConnection :=
  {| service := {| redis_url := "redis://localhost:6379/0";
                   redis := Some (RealRedis lost_connection);
                   prefix := "what_to_do" |};
     attempts := 1;
     cache_log := [] |}.

(** ** The performance monitor ([app/services/performance.py]) *)

(** The dictionary [self.metrics]. *)
Record Metrics := {
  api_calls : Z;
  cache_hits : Z;
  cache_misses : Z;
  avg_response_time : Q;
  error_count : Z
}.

(** [__init__] and [reset_metrics] both install the same dictionary. *)
Definition PerformanceMonitor_init : Metrics :=
  {| api_calls := 0; cache_hits := 0; cache_misses := 0;
     avg_response_time := 0; error_count := 0 |}.

Definition reset_metrics (self : Metrics) : Metrics :=
  {| api_calls := 0; cache_hits := 0; cache_misses := 0;
     avg_response_time := 0; error_count := 0 |}.

(** How a call on the monitor ends: the only exception in reach is the
    division by a call count of zero. *)
Inductive MonitorOutcome := Returned | ZeroDivisionError.

(** [record_api_call]: the counters are updated before the division, and
    stay updated if the division raises. *)
Definition record_api_call (self : Metrics) (response_time : Q) (cache_hit error : bool)
    : MonitorOutcome * Metrics :=
  let self :=
    {| api_calls := api_calls self + 1;
       cache_hits := cache_hits self;
       cache_misses := cache_misses self;
       avg_response_time := avg_response_time self;
       error_count := error_count self |} in
  let self :=
    if cache_hit then
      {| api_calls := api_calls self;
         cache_hits := cache_hits self + 1;
         cache_misses := cache_misses self;
         avg_response_time := avg_response_time self;
         error_count := error_count self |}
    else
      {| api_calls := api_calls self;
         cache_hits := cache_hits self;
         cache_misses := cache_misses self + 1;
         avg_response_time := avg_response_time self;
         error_count := error_count self |} in
  let self :=
    if error then
      {| api_calls := api_calls self;
         cache_hits := cache_hits self;
         cache_misses := cache_misses self;
         avg_response_time := avg_response_time self;
         error_count := error_count self + 1 |}
    else self in
  let current_avg := avg_response_time self in
  let call_count := api_calls self in
  if call_count =? 0 then (ZeroDivisionError, self)
  else
    (Returned,
     {| api_calls := api_calls self;
        cache_hits := cache_hits self;
        cache_misses := cache_misses self;
        avg_response_time :=
          ((current_avg * inject_Z (call_count - 1) + response_time)
           / inject_Z call_count)%Q;
        error_count := error_count self |}).

(** The two rates [get_performance_stats] computes before it formats
    them: [cache_hit_rate], and the error rate of the last entry. *)
Definition cache_hit_rate (self : Metrics) : Q :=
  if 0 <? api_calls self
  then (inject_Z (cache_hits self) / inject_Z (api_calls self) * 100)%Q
  else 0%Q.

Definition error_rate (self : Metrics) : Q :=
  (inject_Z (error_count self) / inject_Z (Z.max (api_calls self) 1) * 100)%Q.

Module PerformanceStats.
Record t := {
  total_api_calls : Z;
  cache_hit_rate : string;
  cache_hits : Z;
  cache_misses : Z;
  avg_response_time : string;
  error_count : Z;
  error_rate : string
}.
End PerformanceStats.

Section Monitor.

(* [format(x, '.2f')] and [format(x, '.3f')] of a float *)
Variable float_format_2f : Q -> string.
Variable float_format_3f : Q -> string.

Definition get_performance_stats (self : Metrics) : PerformanceStats.t :=
  {| PerformanceStats.total_api_calls := api_calls self;
     PerformanceStats.cache_hit_rate := float_format_2f (cache_hit_rate self) ++ "%";
     PerformanceStats.cache_hits := cache_hits self;
     PerformanceStats.cache_misses := cache_misses self;
     PerformanceStats.avg_response_time := float_format_3f (avg_response_time self) ++ "s";
     PerformanceStats.error_count := error_count self;
     PerformanceStats.error_rate := float_format_2f (error_rate self) ++ "%" |}.

End Monitor.

(** One request as the monitor sees it, and a run of requests recorded
    one after the other on the same monitor, up to the first that raises. *)
Record ApiCall := {
  call_response_time : Q;
  call_cache_hit : bool;
  call_error : bool
}.

Fixpoint record_api_calls (self : Metrics) (calls : list ApiCall) : MonitorOutcome * Metrics :=
  match calls with
  | [] => (Returned, self)
  | c :: rest =>
      match record_api_call self (call_response_time c) (call_cache_hit c) (call_error c) with
      | (Returned, self') => record_api_calls self' rest
      | (ZeroDivisionError, self') => (ZeroDivisionError, self')
      end
  end.

(** The number of calls with a flag, and the sum of the response times. *)
Definition count_calls (flag : ApiCall -> bool) (calls : list ApiCall) : Z :=
  Z.of_nat (length (List.filter flag calls)).

Definition total_response_time (calls : list ApiCall) : Q :=
  fold_right (fun c acc => (call_response_time c + acc)%Q) 0%Q calls.

(** ** The request dependencies ([app/api/recommendations.py]) *)

(** [fastapi.HTTPException]: it is not caught as an error of the service
    but becomes the response. *)
Record HTTPException := { status_code : Z; detail : string }.

(** [s[n:]] for [0 <= n]: the text after the first [n] code points. *)
Fixpoint py_suffix (n : nat) (s : string) : string :=
  match s with
  | EmptyString => EmptyString
  | String c rest =>
      if utf8_continuation c then py_suffix n rest
      else match n with
           | O => s
           | S n' => py_suffix n' rest
           end
  end.

(** [extract_token]: the header is [None] when the request has none. *)
Definition extract_token (authorization : option string) : HTTPException + string :=
  if negb (opt_str_truthy authorization) then
    inl {| status_code := 401; detail := "缺少Authorization header" |}
  else
    let authorization := get_default authorization "" in
    if negb (String.prefix "Bearer " authorization) then
      inl {| status_code := 401; detail := "Invalid authorization format" |}
    else inr (py_suffix 7 authorization).

(** [extract_user_id]: the header is not read. *)
Definition extract_user_id (authorization : option string) : Z := 51.

(** A text that starts at a code point, as the encoding of a [str] does,
    not in the middle of one. *)
Definition utf8_boundary (s : string) : bool :=
  match s with
  | EmptyString => true
  | String c _ => negb (utf8_continuation c)
  end.

(** ** Further definitions for the properties of the generators *)

(** The total score of a project candidate with a given number of days
    left. *)
Definition project_score (self : RecommendationEngine) (project : InnoProject.t)
    (user_data : UserData) (days : Z) : Q :=
  _calculate_total_score self
    (inject_Z (_calculate_urgency_score days "PROJECT"))
    (py_min (60 + bonus_or_0 project / 10)%Q 90)
    (inject_Z (_calculate_project_fit_score project user_data))
    (py_min (60 + InnoProject.planed_hour project * 2)%Q 90).

(** The candidate an open project gives rise to, with its scores. *)
Definition is_project_candidate (settings : Settings) (self : RecommendationEngine)
    (user_data : UserData) (project : InnoProject.t) (days : Z)
    (rec : RecommendationItem.t) : Prop :=
  RecommendationItem.id rec = "task_claim_" ++ pretty (InnoProject.id project)
  /\ RecommendationItem.type rec = TASK_CLAIM
  /\ RecommendationItem.score rec = project_score self project user_data days
  /\ RecommendationItem.urgency rec = inject_Z (_calculate_urgency_score days "PROJECT")
  /\ RecommendationItem.importance rec = py_min (60 + bonus_or_0 project / 10)%Q 90
  /\ RecommendationItem.personal_fit rec
     = inject_Z (_calculate_project_fit_score project user_data)
  /\ RecommendationItem.growth_value rec
     = py_min (60 + InnoProject.planed_hour project * 2)%Q 90
  /\ RecommendationItem.deadline rec = Some (assume_utc (InnoProject.deadline project))
  /\ RecommendationItem.urgency_level rec = Some (_get_urgency_level settings (days * 24)).

(** An open project is one nobody has taken. *)
Definition is_open (project : InnoProject.t) : bool :=
  match InnoProject.taker_id project with
  | Some _ => false
  | None => true
  end.

(** An open project the generator can describe and score: it has a
    description, and neither its bonus nor its planned hours are negative. *)
Definition project_well_formed (project : InnoProject.t) : Prop :=
  is_Some (InnoProject.desc project)
  /\ (0 <= bonus_or_0 project)%Q
  /\ (0 <= InnoProject.planed_hour project)%Q.

(** The whole days since a datetime at the k-th reading of the clock, as
    the goal block computes them. *)
Definition days_since (rt : Runtime) (k : nat) (d : datetime) : Z :=
  timedelta_days (clock rt k - utc_instant (assume_utc d)).

(** The start of a goal and the instant of a report, when the key is
    there and [fromisoformat] accepts the text with its zone suffix. *)
Definition goal_start (rt : Runtime) (g : Goal.t) : option datetime :=
  match Goal.start_time g with
  | Some s =>
      match fromisoformat rt (with_utc_suffix s) with
      | Ok d => Some d
      | Raise _ => None
      end
  | None => None
  end.

Definition report_instant (rt : Runtime) (r : Report.t) : option Z :=
  match Report.report_time r with
  | Some s =>
      match fromisoformat rt (with_utc_suffix s) with
      | Ok d => Some (utc_instant (assume_utc d))
      | Raise _ => None
      end
  | None => None
  end.

(** A goal the goal block can read. *)
Definition goal_well_formed (rt : Runtime) (g : Goal.t) : Prop :=
  is_Some (goal_start rt g) /\ is_Some (Goal.id g) /\ is_Some (Goal.content g).

(** The reports of the last 30 days before an instant, and their hours. *)
Definition is_recent_report (rt : Runtime) (now_us : Z) (r : Report.t) : bool :=
  match report_instant rt r with
  | Some t => now_us - timedelta_of_days 30 <? t
  | None => false
  end.

Definition recent_hours (rt : Runtime) (now_us : Z) (reports : list Report.t) : Q :=
  sum_time_reported (List.filter (is_recent_report rt now_us) reports).

(** The goal-talk candidate and the report reminder, with their scores. *)
Definition is_goal_talk (self : RecommendationEngine) (goal_id days : Z)
    (rec : RecommendationItem.t) : Prop :=
  RecommendationItem.id rec = "goal_talk_" ++ pretty goal_id
  /\ RecommendationItem.type rec = GOAL_TALK
  /\ RecommendationItem.score rec
     = _calculate_total_score self (inject_Z (Z.min (50 + days) 90)) (inject_Z 75)
         (inject_Z 100) (inject_Z 85)
  /\ RecommendationItem.urgency rec = inject_Z (Z.min (50 + days) 90)
  /\ RecommendationItem.importance rec = inject_Z 75
  /\ RecommendationItem.personal_fit rec = inject_Z 100
  /\ RecommendationItem.growth_value rec = inject_Z 85
  /\ RecommendationItem.deadline rec = None
  /\ RecommendationItem.urgency_level rec = Some MEDIUM.

Definition is_report_reminder (self : RecommendationEngine) (rec : RecommendationItem.t)
    : Prop :=
  RecommendationItem.id rec = "report_time_reminder"
  /\ RecommendationItem.type rec = REPORT_TIME
  /\ RecommendationItem.score rec
     = _calculate_total_score self (inject_Z 60) (inject_Z 70) (inject_Z 90) (inject_Z 50)
  /\ RecommendationItem.urgency rec = inject_Z 60
  /\ RecommendationItem.importance rec = inject_Z 70
  /\ RecommendationItem.personal_fit rec = inject_Z 90
  /\ RecommendationItem.growth_value rec = inject_Z 50
  /\ RecommendationItem.deadline rec = None
  /\ RecommendationItem.urgency_level rec = Some MEDIUM.

(** The five score fields of an item lie in [0, 100]. *)
Definition scores_in_range (rec : RecommendationItem.t) : Prop :=
  subscore (RecommendationItem.score rec)
  /\ subscore (RecommendationItem.urgency rec)
  /\ subscore (RecommendationItem.importance rec)
  /\ subscore (RecommendationItem.personal_fit rec)
  /\ subscore (RecommendationItem.growth_value rec).

(** The reading of the clock at which the report block of
    [_recommend_system_actions] takes its [now]: the readings taken when the
    goal block before it is done. *)
Definition report_reading (rt : Runtime) (self : RecommendationEngine)
    (user_data : UserData) (w : World) : nat :=
  reads (goal_talk rt self user_data [] w).2.


(** A runtime thirty days after the epoch, whose [fromisoformat] reads
    every text as the epoch, and a user whose goal and whose one report of 12
    hours date from the epoch. *)
Definition month_later_runtime : Runtime :=
  {| clock := fun _ => timedelta_of_days 30;
     local_utcoffset := 0;
     fromisoformat := fun _ => Ok {| wall := 0; tzinfo := None |};
     isoformat := fun _ => "";
     float_str := fun _ => "";
     float_format_1f := fun _ => "" |}.

Definition sample_goal : Goal.t :=
  {| Goal.id := Some 1;
     Goal.user_id := Some 51;
     Goal.content := Some "掌握全栈开发技能";
     Goal.start_time := Some "1970-01-01T00:00:00";
     Goal.target_date := None |}.

Definition sample_report : Report.t :=
  {| Report.id := Some 1;
     Report.user_id := Some 51;
     Report.report_time := Some "1970-01-01T00:00:00";
     Report.time_reported := Some 12%Q;
     Report.activity := Some "Python编程学习" |}.

Definition system_user_data : UserData :=
  {| selections := [];
     all_courses := [];
     projects := [];
     goal := Some sample_goal;
     reports := [sample_report];
     user_id := 51;
     token := "test_token" |}.

(** A clock that advances by one microsecond at every reading and stands,
    at its first reading, one microsecond before thirty days after the epoch;
    [fromisoformat] reads every text as the epoch. *)
Definition month_ticking_runtime : Runtime :=
  {| clock := fun k => timedelta_of_days 30 - 1 + Z.of_nat k;
     local_utcoffset := 0;
     fromisoformat := fun _ => Ok {| wall := 0; tzinfo := None |};
     isoformat := fun _ => "";
     float_str := fun _ => "";
     float_format_1f := fun _ => "" |}.







(** ** The client of the provider ([app/services/zishu_api.py]) *)

(** The JSON objects of the two lists the client turns into models.  A
    field read with [item[key]] or with [item.get(key)] is [None] when the key
    is absent; a field read with [item.get(key, dflt)] is [None] when the key
    is absent and [Some None] when it is there with the value [null]. *)
Module RawSelection.
Record t := {
  sele_id : option Z;
  user_id : option Z;
  user_name : option string;
  course_title : option string;
  course_id : option Z;
  chapter_title : option string;
  chapter_id : option Z;
  current_serial : option Z;
  deadline : option string;
  url : option string;
  shushi_id : option Z;
  shushi_name : option string
}.
End RawSelection.

Module RawProject.
Record t := {
  id : option Z;
  task_serial : option string;
  title : option string;
  publisher : option string;
  taker : option string;
  taker_id : option Z;
  status : option (option string);
  deadline : option string;
  planed_hour : option Q;
  bonus : option Q;
  task_text : option string;
  desc : option (option string);
  create_time : option string
}.
End RawProject.

(** [s.endswith(suffix)]: some tail of [s] is the suffix. *)
Fixpoint py_endswith (suffix s : string) : bool :=
  String.eqb s suffix
  || match s with
     | EmptyString => false
     | String _ rest => py_endswith suffix rest
     end.

(** [s.replace(old, new)] for a one-character [old]: every occurrence is
    replaced. *)
Fixpoint py_replace (old : ascii) (new s : string) : string :=
  match s with
  | EmptyString => EmptyString
  | String c rest =>
      if Ascii.eqb c old then new ++ py_replace old new rest
      else String c (py_replace old new rest)
  end.

(** How both loops give a deadline its zone. *)
Definition deadline_with_zone (deadline_str : string) : string :=
  if py_endswith "Z" deadline_str then py_replace "Z" "+00:00" deadline_str
  else if negb (py_contains "+" deadline_str) && negb (py_contains "Z" deadline_str)
       then deadline_str ++ "+00:00"
       else deadline_str.

(** [item.get(key, dflt)]. *)
Definition get_or {A} (v : option (option A)) (dflt : option A) : option A :=
  match v with
  | Some a => a
  | None => dflt
  end.

Section Client.

Variable rt : Runtime.
(* [_make_request] on the four endpoints whose answer the client reads,
   with the answer decoded: it returns the JSON value or raises *)
Variable request_selections : string -> prog World (list RawSelection.t).
Variable request_projects : prog World (list RawProject.t).
Variable request_goal : Z -> prog World (option Goal.t).
Variable request_reports : Z -> prog World (list Report.t).

(** The block under [try] in the loop of [get_user_selections], up to the
    model it builds. *)
Definition parse_selection (item : RawSelection.t) : prog World CourseSelection.t :=
  deadline_str <- getitem "deadline" (RawSelection.deadline item) ;;
  let deadline_str := deadline_with_zone deadline_str in
  sele_id <- getitem "sele_id" (RawSelection.sele_id item) ;;
  user_id <- getitem "user_id" (RawSelection.user_id item) ;;
  user_name <- getitem "user_name" (RawSelection.user_name item) ;;
  course_title <- getitem "course_title" (RawSelection.course_title item) ;;
  course_id <- getitem "course_id" (RawSelection.course_id item) ;;
  chapter_title <- getitem "chapter_title" (RawSelection.chapter_title item) ;;
  chapter_id <- getitem "chapter_id" (RawSelection.chapter_id item) ;;
  current_serial <- getitem "current_serial" (RawSelection.current_serial item) ;;
  deadline <- lift_res (fromisoformat rt deadline_str) ;;
  url <- getitem "url" (RawSelection.url item) ;;
  ret {| CourseSelection.sele_id := sele_id;
         CourseSelection.user_id := user_id;
         CourseSelection.user_name := user_name;
         CourseSelection.course_title := course_title;
         CourseSelection.course_id := course_id;
         CourseSelection.chapter_title := chapter_title;
         CourseSelection.chapter_id := chapter_id;
         CourseSelection.current_serial := current_serial;
         CourseSelection.deadline := deadline;
         CourseSelection.url := url;
         CourseSelection.shushi_id := RawSelection.shushi_id item;
         CourseSelection.shushi_name := RawSelection.shushi_name item |}.

(** One turn of the loop: an item that cannot be read is logged and
    skipped. *)
Definition selection_step (item : RawSelection.t) (selections : list CourseSelection.t)
    : prog World (list CourseSelection.t) :=
  try_except
    (selection <- parse_selection item ;;
     ret (selections ++ [selection])%list)
    (fun e =>
       log_warning ("解析选课数据失败: "
                    ++ get_default (RawSelection.course_title item) "Unknown"
                    ++ ", 错误: " ++ exn_str e) ;;;
       ret selections).

Definition get_user_selections (token : string) : prog World (list CourseSelection.t) :=
  data <- request_selections token ;;
  for_each selection_step data [].

Definition parse_project (item : RawProject.t) : prog World InnoProject.t :=
  deadline_str <- getitem "deadline" (RawProject.deadline item) ;;
  let deadline_str := deadline_with_zone deadline_str in
  create_time_str <- getitem "create_time" (RawProject.create_time item) ;;
  let create_time_str := with_utc_suffix create_time_str in
  id <- getitem "id" (RawProject.id item) ;;
  task_serial <- getitem "task_serial" (RawProject.task_serial item) ;;
  title <- getitem "title" (RawProject.title item) ;;
  publisher <- getitem "publisher" (RawProject.publisher item) ;;
  deadline <- lift_res (fromisoformat rt deadline_str) ;;
  planed_hour <- getitem "planed_hour" (RawProject.planed_hour item) ;;
  create_time <- lift_res (fromisoformat rt create_time_str) ;;
  ret {| InnoProject.id := id;
         InnoProject.task_serial := task_serial;
         InnoProject.title := title;
         InnoProject.publisher := publisher;
         InnoProject.taker := RawProject.taker item;
         InnoProject.taker_id := RawProject.taker_id item;
         InnoProject.status := get_or (RawProject.status item) (Some "待认领");
         InnoProject.deadline := deadline;
         InnoProject.planed_hour := planed_hour;
         InnoProject.bonus :=
           Some (match RawProject.bonus item with
                 | Some b => if Qeq_bool b 0 then 0%Q else b
                 | None => 0%Q
                 end);
         InnoProject.task_text := RawProject.task_text item;
         InnoProject.desc := get_or (RawProject.desc item) (Some "");
         InnoProject.create_time := create_time |}.

Definition project_parse_step (item : RawProject.t) (projects : list InnoProject.t)
    : prog World (list InnoProject.t) :=
  try_except
    (project <- parse_project item ;;
     ret (projects ++ [project])%list)
    (fun e =>
       log_warning ("解析项目数据失败: "
                    ++ get_default (RawProject.title item) "Unknown"
                    ++ ", 错误: " ++ exn_str e) ;;;
       ret projects).

Definition get_current_projects : prog World (list InnoProject.t) :=
  data <- request_projects ;;
  for_each project_parse_step data [].

(** The bare [except:] of the two remaining fetches. *)
Definition get_user_goal (user_id : Z) : prog World (option Goal.t) :=
  try_except (request_goal user_id) (fun _ => ret None).

Definition get_user_reports (user_id : Z) : prog World (list Report.t) :=
  try_except (request_reports user_id) (fun _ => ret []).

End Client.

(** A computation that touches nothing: it returns or raises the same in
    every state and leaves the state as it is. *)
Definition stateless {A} (m : prog World A) : Prop :=
  forall w, m w = ((m empty_world).1, w).

(** What the client makes of an item, if it can read it. *)
Definition parsed_selection (rt : Runtime) (item : RawSelection.t)
    : option CourseSelection.t :=
  match (parse_selection rt item empty_world).1 with
  | Ok selection => Some selection
  | Raise _ => None
  end.

Definition parsed_project (rt : Runtime) (item : RawProject.t) : option InnoProject.t :=
  match (parse_project rt item empty_world).1 with
  | Ok project => Some project
  | Raise _ => None
  end.

(** An item with the ten keys the model requires and a deadline that
    [fromisoformat] accepts once it has its zone. *)
Definition selection_readable (rt : Runtime) (item : RawSelection.t) : Prop :=
  is_Some (RawSelection.sele_id item) /\ is_Some (RawSelection.user_id item)
  /\ is_Some (RawSelection.user_name item) /\ is_Some (RawSelection.course_title item)
  /\ is_Some (RawSelection.course_id item) /\ is_Some (RawSelection.chapter_title item)
  /\ is_Some (RawSelection.chapter_id item) /\ is_Some (RawSelection.current_serial item)
  /\ is_Some (RawSelection.url item)
  /\ exists deadline_str,
       RawSelection.deadline item = Some deadline_str
       /\ is_exception (fromisoformat rt (deadline_with_zone deadline_str)) = false.

Definition project_readable (rt : Runtime) (item : RawProject.t) : Prop :=
  is_Some (RawProject.id item) /\ is_Some (RawProject.task_serial item)
  /\ is_Some (RawProject.title item) /\ is_Some (RawProject.publisher item)
  /\ is_Some (RawProject.planed_hour item)
  /\ (exists deadline_str,
        RawProject.deadline item = Some deadline_str
        /\ is_exception (fromisoformat rt (deadline_with_zone deadline_str)) = false)
  /\ (exists create_time_str,
        RawProject.create_time item = Some create_time_str
        /\ is_exception (fromisoformat rt (with_utc_suffix create_time_str)) = false).

(** The number of warnings in a log. *)
Definition warnings (l : list LogRecord) : nat :=
  length (List.filter (fun r => match level r with WARNING => true | _ => false end) l).

(** ** Python values that go through the cache *)

Set Warnings "-register-all".

(** What the callers of the cache store hand to [json.dumps] and get back
    from [json.loads].  At the top level Python's [None] is the [None] of
    [option PyValue]; [PyNone] is a [None] inside a list or a dictionary. *)
Inductive PyValue :=
| PyNone
| PyBool (b : bool)
| PyInt (z : Z)
| PyFloat (q : Q)
| PyStr (s : string)
| PyDatetime (d : datetime)
| PyList (l : list PyValue)
| PyDict (items : list (string * PyValue)).

(** [bool(v)]. *)
Definition py_truthy (v : option PyValue) : bool :=
  match v with
  | None | Some PyNone => false
  | Some (PyBool b) => b
  | Some (PyInt z) => negb (z =? 0)
  | Some (PyFloat q) => negb (Qeq_bool q 0)
  | Some (PyStr s) => str_truthy s
  | Some (PyDatetime _) => true
  | Some (PyList l) => match l with [] => false | _ => true end
  | Some (PyDict items) => match items with [] => false | _ => true end
  end.

(** ** The services that hold an engine and a cache store *)

(** [PrecomputeService] and the module of the recommendation routes each
    hold a [RecommendationEngine] and a [CacheService] of their own.  What a
    method of such a holder touches: the clock and the log on the side of the
    engine, and the state of its cache service. *)
Record ServiceState (R : Type) := {
  engine_world : World;
  cache_state : CacheState R
}.
Arguments engine_world {R} _.
Arguments cache_state {R} _.

Definition on_world {R A} (m : prog World A) : prog (ServiceState R) A :=
  fun s =>
    let '(a, w) := m (engine_world s) in
    (a, {| engine_world := w; cache_state := cache_state s |}).

Definition on_cache {R A} (m : prog (CacheState R) A) : prog (ServiceState R) A :=
  fun s =>
    let '(a, st) := m (cache_state s) in
    (a, {| engine_world := engine_world s; cache_state := st |}).

(** [timedelta(hours=h)]. *)
Definition timedelta_of_hours (h : Z) : Z := h * microseconds_per_hour.

(** The entries of the list of users of [PrecomputeService]; every entry
    carries both keys. *)
Record UserInfo := { info_user_id : Z; info_token : string }.

Definition _get_active_user_ids : list UserInfo :=
  [ {| info_user_id := 51; info_token := "" |};
    {| info_user_id := 1; info_token := "" |};
    {| info_user_id := 74; info_token := "" |};
    {| info_user_id := 2; info_token := "" |};
    {| info_user_id := 7; info_token := "" |} ].

(** [enumerate(l)]. *)
Definition enumerate {A} (l : list A) : list (Z * A) :=
  imap (fun i x => (Z.of_nat i, x)) l.

(** The response models of the routes ([app/models/schemas.py]). *)
Module RecommendationResponse.
Record t := {
  recommendations : list RecommendationItem.t;
  user_id : option Z;
  last_updated : datetime;
  next_refresh : option datetime;
  algorithm_version : string
}.
End RecommendationResponse.

Module APIResponse.
Record t := {
  code : Z;
  message : string;
  data : option PyValue;
  timestamp : datetime
}.
End APIResponse.

Definition py_option {A} (f : A -> PyValue) (v : option A) : PyValue :=
  match v with
  | Some a => f a
  | None => PyNone
  end.

Section Service.

Context {R : Type} `{RedisClient R}.
Variable rt : Runtime.
Variable settings : Settings.
Variable api_gather : Z -> string -> res Gathered.
Variable from_url : nat -> string -> res R.
Variable json_dumps : option PyValue -> res string.
Variable json_loads : string -> res (option PyValue).
(* [rec.dict()] of pydantic on a recommendation *)
Variable item_dict : RecommendationItem.t -> PyValue.

(** Both holders build their engine from the settings. *)
Definition service_engine : RecommendationEngine := RecommendationEngine_init settings.

Definition recommendations_key (user_id : Z) : string :=
  "recommendations:user:" ++ pretty user_id.

(** *** The scheduler ([app/services/performance.py]) *)

(** The dictionary both jobs write. *)
Definition cache_data_of (recommendations : list RecommendationItem.t) (user_id : Z)
    (d1 d2 : datetime) : PyValue :=
  PyDict [ ("recommendations", PyList (item_dict <$> recommendations));
           ("user_id", PyInt user_id);
           ("last_updated", PyStr (isoformat rt d1));
           ("next_refresh", PyStr (isoformat rt (datetime_plus d2 (timedelta_of_hours 2))));
           ("algorithm_version", PyStr "1.0") ].

(** One turn of the loop of [_precompute_all_users].  The count is
    raised after [set] has returned, whatever [set] answered; what follows in
    the block (the progress line, the pause) does not raise. *)
Definition precompute_step (total_users : Z) (entry : Z * UserInfo) (success_count : Z)
    : prog (ServiceState R) Z :=
  let '(i, user_info) := entry in
  let user_id := info_user_id user_info in
  try_except
    (let token := info_token user_info in
     recommendations <-
       on_world (generate_recommendations rt settings api_gather service_engine user_id token) ;;
     let cache_key := recommendations_key user_id in
     d1 <- on_world (datetime_now rt) ;;
     d2 <- on_world (datetime_now rt) ;;
     let cache_data := cache_data_of recommendations user_id d1 d2 in
     on_cache (CacheService_set from_url PyValue json_dumps cache_key (Some cache_data)
                 (Some 7200)) ;;;
     let success_count := success_count + 1 in
     (if i mod 10 =? 0
      then on_world (log_info ("预计算进度: " ++ pretty i ++ "/" ++ pretty total_users))
      else ret tt) ;;;
     ret success_count)
    (fun e =>
       on_world (log_error ("用户" ++ pretty user_id ++ "预计算失败: " ++ exn_str e)) ;;;
       ret success_count).

Definition _precompute_all_users : prog (ServiceState R) unit :=
  on_world (log_info "开始预计算所有用户推荐") ;;;
  try_except
    (let active_user_ids := _get_active_user_ids in
     let total_users := Z.of_nat (length active_user_ids) in
     let success_count := 0 in
     success_count <-
       for_each (precompute_step total_users) (enumerate active_user_ids) success_count ;;
     on_world (log_info ("预计算完成: 成功 " ++ pretty success_count
                         ++ "/" ++ pretty total_users)))
    (fun e => on_world (log_error ("预计算所有用户失败: " ++ exn_str e))).

(** *** The recommendation routes ([app/api/recommendations.py]) *)

(** [APIResponse(...)]: [timestamp] defaults to [datetime.now()]. *)
Definition APIResponse_new (code : Z) (message : string) (data : option PyValue)
    : prog World APIResponse.t :=
  timestamp <- datetime_now rt ;;
  ret {| APIResponse.code := code;
         APIResponse.message := message;
         APIResponse.data := data;
         APIResponse.timestamp := timestamp |}.

(** [response_data.dict()]. *)
Definition RecommendationResponse_dict (r : RecommendationResponse.t) : PyValue :=
  PyDict [ ("recommendations", PyList (item_dict <$> RecommendationResponse.recommendations r));
           ("user_id", py_option PyInt (RecommendationResponse.user_id r));
           ("last_updated", PyDatetime (RecommendationResponse.last_updated r));
           ("next_refresh", py_option PyDatetime (RecommendationResponse.next_refresh r));
           ("algorithm_version", PyStr (RecommendationResponse.algorithm_version r)) ].

(** The answer of a route: the response, or the [HTTPException] raised.
    With the response of [get_top3_recommendations] comes whether it set
    [request.state.cache_hit]. *)
Definition get_top3_recommendations (refresh : bool) (user_id : Z) (token : string)
    : prog (ServiceState R) (HTTPException + APIResponse.t * bool) :=
  try_except
    (let cache_key := recommendations_key user_id in
     from_cache <-
       (if negb refresh then
          cached_data <- on_cache (CacheService_get from_url PyValue json_loads cache_key) ;;
          if py_truthy cached_data then
            on_world (log_info ("从缓存返回用户" ++ pretty user_id ++ "的推荐")) ;;;
            response <- on_world (APIResponse_new 200 "success" cached_data) ;;
            ret (Some response)
          else ret None
        else ret None) ;;
     match from_cache with
     | Some response => ret (inr (response, true))
     | None =>
         on_world (log_info ("为用户" ++ pretty user_id ++ "生成新推荐")) ;;;
         recommendations <-
           on_world (generate_recommendations rt settings api_gather service_engine
                       user_id token) ;;
         d1 <- on_world (datetime_now rt) ;;
         d2 <- on_world (datetime_now rt) ;;
         let response_data :=
           {| RecommendationResponse.recommendations := recommendations;
              RecommendationResponse.user_id := Some user_id;
              RecommendationResponse.last_updated := d1;
              RecommendationResponse.next_refresh :=
                Some (datetime_plus d2 (timedelta_of_hours 2));
              RecommendationResponse.algorithm_version := "1.0" |} in
         on_cache (CacheService_set from_url PyValue json_dumps cache_key
                     (Some (RecommendationResponse_dict response_data)) (Some 7200)) ;;;
         on_world (log_info ("成功为用户" ++ pretty user_id ++ "生成"
                             ++ pretty (Z.of_nat (length recommendations)) ++ "个推荐")) ;;;
         response <-
           on_world (APIResponse_new 200 "success"
                       (Some (RecommendationResponse_dict response_data))) ;;
         ret (inr (response, false))
     end)
    (fun e =>
       on_world (log_error ("获取推荐失败: 用户" ++ pretty user_id
                            ++ ", 错误: " ++ exn_str e)) ;;;
       ret (inl {| status_code := 500; detail := "服务内部错误" |})).

Definition submit_feedback (recommendation_id feedback_type : string) (user_id : Z)
    : prog (ServiceState R) (HTTPException + APIResponse.t) :=
  try_except
    (timestamp <- on_world (datetime_now rt) ;;
     let feedback_data :=
       PyDict [ ("user_id", PyInt user_id);
                ("recommendation_id", PyStr recommendation_id);
                ("feedback_type", PyStr feedback_type);
                ("timestamp", PyStr (isoformat rt timestamp)) ] in
     on_world (log_info ("用户" ++ pretty user_id ++ "对推荐" ++ recommendation_id
                         ++ "提交了" ++ feedback_type ++ "反馈")) ;;;
     (if String.eqb feedback_type "complete" then
        let cache_key := recommendations_key user_id in
        on_cache (CacheService_delete from_url cache_key) ;;;
        on_world (log_info ("用户" ++ pretty user_id ++ "完成任务，已清除推荐缓存"))
      else ret tt) ;;;
     response <-
       on_world (APIResponse_new 200 "反馈提交成功"
                   (Some (PyDict [("feedback_recorded", PyBool true)]))) ;;
     ret (inr response))
    (fun e =>
       on_world (log_error ("提交反馈失败: " ++ exn_str e)) ;;;
       ret (inl {| status_code := 500; detail := "反馈提交失败" |})).

End Service.

(** * Properties *)

(** ** Strings *)

Example py_split_type :
  py_split "_" "COURSE_URGENT" = ["COURSE"; "URGENT"]
  /\ py_split "_" "a__b_" = ["a"; ""; "b"; ""]
  /\ py_split "_" "" = [""].
Proof. repeat split. Qed.

Example rec_category_values :
  (fun t => rec_category (sample_item "x" t 1)) <$>
    [COURSE_URGENT; COURSE_POPULAR; TASK_CLAIM; GOAL_TALK; REPORT_TIME;
     PROFILE_COMPLETE; EXAM_PUBLISH; COURSE_PUBLISH]
  = ["COURSE"; "COURSE"; "TASK"; "GOAL"; "REPORT"; "PROFILE"; "EXAM"; "COURSE"].
Proof. reflexivity. Qed.

Example py_len_code_points :
  py_len "立即学习" = 4 /\ String.length "立即学习" = 12%nat
  /\ py_prefix 2 "立即学习" = "立即" /\ py_prefix 3 "abcde" = "abc"
  /\ ellipsis 3 "立即学习" = "立即学..." /\ ellipsis 4 "立即学习" = "立即学习".
Proof. repeat split. Qed.

Example with_utc_suffix_cases :
  with_utc_suffix "2024-05-01T10:00:00" = "2024-05-01T10:00:00+00:00"
  /\ with_utc_suffix "2024-05-01T10:00:00+08:00" = "2024-05-01T10:00:00+08:00"
  /\ with_utc_suffix "2024-05-01T10:00:00Z" = "2024-05-01T10:00:00Z".
Proof. repeat split. Qed.

(** ** The assertions of the repository's tests on the scorer *)

Example test_calculate_urgency_score :
  90 <= _calculate_urgency_score 1 "COURSE"
  /\ 80 <= _calculate_urgency_score 3 "COURSE"
  /\ 60 <= _calculate_urgency_score 7 "COURSE"
  /\ _calculate_urgency_score 30 "COURSE" <= 40
  /\ 85 <= _calculate_urgency_score 2 "PROJECT"
  /\ 70 <= _calculate_urgency_score 5 "PROJECT".
Proof. vm_compute. repeat split; congruence. Qed.

Example test_calculate_total_score :
  (_calculate_total_score default_engine 90 80 85 70
   == 90 * 0.35 + 80 * 0.30 + 85 * 0.25 + 70 * 0.10)%Q
  /\ (_calculate_total_score default_engine 90 80 85 70 <= 100)%Q.
Proof. split; vm_compute; congruence. Qed.

(** ** The scorer *)

Lemma py_min_le_r (a b : Q) : (py_min a b <= b)%Q.
Proof. unfold py_min. destruct (Qlt_le_dec b a); lra. Qed.

Lemma py_min_le_l (a b : Q) : (py_min a b <= a)%Q.
Proof. unfold py_min. destruct (Qlt_le_dec b a); lra. Qed.

Lemma py_min_glb (a b c : Q) : (c <= a)%Q -> (c <= b)%Q -> (c <= py_min a b)%Q.
Proof. unfold py_min. destruct (Qlt_le_dec b a); lra. Qed.

Lemma py_min_id (a b : Q) : (a <= b)%Q -> py_min a b = a.
Proof.
  intros Hab. unfold py_min. destruct (Qlt_le_dec b a) as [Hlt | _]; [lra | reflexivity].
Qed.

(** The clamp alone bounds the total from above, whatever the weights. *)
Lemma total_score_le_100 self u i f g : (_calculate_total_score self u i f g <= 100)%Q.
Proof. unfold _calculate_total_score. apply py_min_le_r. Qed.

Lemma total_score_nonneg self u i f g :
  weights_nonnegative self ->
  (0 <= u)%Q -> (0 <= i)%Q -> (0 <= f)%Q -> (0 <= g)%Q ->
  (0 <= _calculate_total_score self u i f g)%Q.
Proof.
  intros (Hu & Hi & Hf & Hg) Hu' Hi' Hf' Hg'.
  unfold _calculate_total_score.
  apply py_min_glb; [| lra].
  pose proof (Qmult_le_0_compat _ _ Hu' Hu).
  pose proof (Qmult_le_0_compat _ _ Hi' Hi).
  pose proof (Qmult_le_0_compat _ _ Hf' Hf).
  pose proof (Qmult_le_0_compat _ _ Hg' Hg).
  lra.
Qed.

(** With weights that are non-negative and sum to one the clamp is idle:
    the weighted sum itself is at most 100. *)
Lemma weighted_sum_le_100 self u i f g :
  weights_nonnegative self -> (weights_sum self == 1)%Q ->
  subscore u -> subscore i -> subscore f -> subscore g ->
  (u * w_urgency (algorithm_weights self) + i * w_importance (algorithm_weights self)
   + f * w_personal_fit (algorithm_weights self)
   + g * w_growth_value (algorithm_weights self) <= 100)%Q.
Proof.
  unfold weights_sum, subscore.
  intros (Hu & Hi & Hf & Hg) Hsum [_ Hu'] [_ Hi'] [_ Hf'] [_ Hg'].
  nra.
Qed.

(** C4, as the specification states it, fails: the weights 2, -1, 0, 0
    sum to one, the sub-scores 0, 100, 0, 0 lie in [0, 100], and the total
    score is -100. *)
Lemma total_score_negative_weight :
  let self := {| algorithm_weights :=
                   {| w_urgency := 2; w_importance := -1;
                      w_personal_fit := 0; w_growth_value := 0 |} |} in
  (weights_sum self == 1)%Q
  /\ subscore 0 /\ subscore 100
  /\ (_calculate_total_score self 0 100 0 0 == -100)%Q
  /\ ~ (0 <= _calculate_total_score self 0 100 0 0)%Q.
Proof.
  cbv zeta. repeat split; vm_compute; congruence.
Qed.

(** C4, amended: for every configuration of four non-negative weights that
    sum to 1.0 and every four sub-scores in [0, 100], the total score lies
    in [0, 100]. *)
Theorem total_score_in_range self u i f g :
  weights_nonnegative self -> (weights_sum self == 1)%Q ->
  subscore u -> subscore i -> subscore f -> subscore g ->
  subscore (_calculate_total_score self u i f g).
Proof.
  intros Hnn _ [Hu _] [Hi _] [Hf _] [Hg _]. split.
  - by apply total_score_nonneg.
  - apply total_score_le_100.
Qed.

Lemma total_score_in_range_witness :
  subscore (_calculate_total_score default_engine 85 85 90 70).
Proof.
  apply total_score_in_range.
  - vm_compute. repeat split; congruence.
  - vm_compute. reflexivity.
  - vm_compute. split; congruence.
  - vm_compute. split; congruence.
  - vm_compute. split; congruence.
  - vm_compute. split; congruence.
Defined.

(** C5: the urgency sub-score is the piecewise function of whole days the
    specification tabulates: for courses at most 1 day gives 95, at most 3
    gives 85, at most 7 gives 70, at most 14 gives 50, more gives 30; for
    projects at most 3 gives 90, at most 7 gives 75, at most 14 gives 60,
    more gives 40; every other task type gets the fixed baseline 25, the
    least value the function takes. *)
Theorem urgency_score_is_curve (days_left : Z) (task_type : string) :
  _calculate_urgency_score days_left task_type = urgency_spec days_left task_type
  /\ urgency_baseline <= _calculate_urgency_score days_left task_type.
Proof.
  unfold _calculate_urgency_score, urgency_spec, urgency_baseline.
  destruct (String.eqb_spec task_type "COURSE") as [-> | Hc].
  - rewrite decide_True by done. cbn [curve_lookup course_urgency_curve].
    repeat case_match; split; lia.
  - rewrite decide_False by done.
    destruct (String.eqb_spec task_type "PROJECT") as [-> | Hp].
    + rewrite decide_True by done. cbn [curve_lookup project_urgency_curve].
      repeat case_match; split; lia.
    + rewrite decide_False by done. split; [reflexivity | lia].
Qed.

(** ** The Diversity Selector *)

Example select_test_pool :
  RecommendationItem.id <$> _select_top3_with_diversity test_pool = ["1"; "3"; "4"].
Proof. vm_compute. reflexivity. Qed.

Example select_two_category_pool :
  RecommendationItem.id <$> _select_top3_with_diversity two_category_pool = ["1"; "3"; "2"].
Proof. vm_compute. reflexivity. Qed.

Section Selector.

Implicit Types (x rec : RecommendationItem.t) (l sel pool : list RecommendationItem.t).
Implicit Types (used : gset string).

Lemma insert_by_score_perm x l : insert_by_score x l ≡ₚ x :: l.
Proof.
  induction l as [| y l IH]; simpl; [done |].
  destruct (Qlt_le_dec _ _); [| done].
  by rewrite IH, Permutation_swap.
Qed.

Lemma sorted_by_score_perm l : sorted_by_score l ≡ₚ l.
Proof.
  induction l as [| x l IH]; simpl; [done |].
  change (foldr insert_by_score [] l) with (sorted_by_score l).
  by rewrite insert_by_score_perm, IH.
Qed.

Lemma insert_by_score_sorted x l : sorted_desc l -> sorted_desc (insert_by_score x l).
Proof.
  unfold sorted_desc. induction 1 as [| y l Hl IH Hy]; simpl.
  - repeat constructor.
  - destruct (Qlt_le_dec _ _) as [Hlt | Hle].
    + constructor; [done |].
      rewrite insert_by_score_perm. constructor; [| done].
      unfold score_desc. lra.
    + constructor; [by constructor |].
      constructor; [done |].
      eapply Forall_impl; [exact Hy |].
      unfold score_desc. intros z Hz. lra.
Qed.

Lemma sorted_by_score_sorted l : sorted_desc (sorted_by_score l).
Proof.
  induction l as [| x l IH]; simpl; [constructor |].
  by apply insert_by_score_sorted.
Qed.

(** Stability: the items of one score keep their order. *)
Lemma insert_by_score_filter (s : Q) x l :
  List.filter (fun y => Qeq_bool (RecommendationItem.score y) s) (insert_by_score x l)
  = List.filter (fun y => Qeq_bool (RecommendationItem.score y) s) (x :: l).
Proof.
  induction l as [| y l IH]; [done |].
  simpl insert_by_score. destruct (Qlt_le_dec _ _) as [Hlt | Hle]; [| done].
  simpl in *. rewrite IH.
  destruct (Qeq_bool (RecommendationItem.score x) s) eqn:Ex; [| done].
  destruct (Qeq_bool (RecommendationItem.score y) s) eqn:Ey; [| done].
  apply Qeq_bool_iff in Ex, Ey. lra.
Qed.

Lemma sorted_by_score_stable (s : Q) l :
  List.filter (fun y => Qeq_bool (RecommendationItem.score y) s) (sorted_by_score l)
  = List.filter (fun y => Qeq_bool (RecommendationItem.score y) s) l.
Proof.
  induction l as [| x l IH]; [done |].
  simpl sorted_by_score. rewrite insert_by_score_filter. simpl. by rewrite IH.
Qed.

Lemma sorted_desc_sublist l1 l2 : l1 `sublist_of` l2 -> sorted_desc l2 -> sorted_desc l1.
Proof.
  unfold sorted_desc. induction 1 as [| x l1 l2 Hsub IH | x l1 l2 Hsub IH]; intros Hs.
  - constructor.
  - apply StronglySorted_inv in Hs as [Hs Hx]. constructor; [by apply IH |].
    rewrite Forall_forall in *. intros y Hy. apply Hx. by eapply elem_of_sublist.
  - apply StronglySorted_inv in Hs as [Hs _]. by apply IH.
Qed.

Lemma diversity_loop_picks l sel used :
  exists picks, (diversity_loop l sel used).1 = (sel ++ picks)%list /\ picks `sublist_of` l.
Proof.
  revert sel used. induction l as [| rec l IH]; intros sel used; cbn [diversity_loop].
  - exists []. split; [by rewrite app_nil_r | apply sublist_nil_l].
  - destruct (3 <=? length sel)%nat.
    { exists []. split; [by rewrite app_nil_r | apply sublist_nil_l]. }
    destruct (decide _).
    + destruct (IH sel used) as (picks & -> & Hsub).
      exists picks. split; [done | by constructor].
    + destruct (IH (sel ++ [rec])%list (used ∪ {[rec_category rec]})) as (picks & -> & Hsub).
      exists (rec :: picks). split; [by rewrite <- app_assoc | by constructor].
Qed.

Lemma fill_loop_picks l sel :
  exists picks, fill_loop l sel = (sel ++ picks)%list /\ picks `sublist_of` l.
Proof.
  revert sel. induction l as [| rec l IH]; intros sel; cbn [fill_loop].
  - exists []. split; [by rewrite app_nil_r | apply sublist_nil_l].
  - destruct (3 <=? length sel)%nat.
    { exists []. split; [by rewrite app_nil_r | apply sublist_nil_l]. }
    destruct (item_in rec sel).
    + destruct (IH sel) as (picks & -> & Hsub).
      exists picks. split; [done | by constructor].
    + destruct (IH (sel ++ [rec])%list) as (picks & -> & Hsub).
      exists (rec :: picks). split; [by rewrite <- app_assoc | by constructor].
Qed.

Lemma diversity_loop_length_le l sel used :
  (length sel <= 3)%nat -> (length (diversity_loop l sel used).1 <= 3)%nat.
Proof.
  revert sel used. induction l as [| rec l IH]; intros sel used Hle; cbn [diversity_loop]; [done |].
  destruct (Nat.leb_spec 3 (length sel)); [done |].
  destruct (decide _); apply IH; [done |].
  rewrite length_app. simpl. lia.
Qed.

Lemma fill_loop_length_le l sel :
  (length sel <= 3)%nat -> (length (fill_loop l sel) <= 3)%nat.
Proof.
  revert sel. induction l as [| rec l IH]; intros sel Hle; cbn [fill_loop]; [done |].
  destruct (Nat.leb_spec 3 (length sel)); [done |].
  destruct (item_in rec sel); apply IH; [done |].
  rewrite length_app. simpl. lia.
Qed.

Lemma fill_loop_full l sel : (3 <= length sel)%nat -> fill_loop l sel = sel.
Proof.
  intros Hle. destruct l as [| rec l]; cbn [fill_loop]; [done |].
  by destruct (Nat.leb_spec 3 (length sel)); [| lia].
Qed.

Lemma diverse_nil : diverse [] ∅.
Proof. split; [constructor | done]. Qed.

Lemma diverse_snoc sel used rec :
  diverse sel used -> rec_category rec ∉ used ->
  diverse (sel ++ [rec]) (used ∪ {[rec_category rec]}).
Proof.
  intros [Hnd ->] Hnot. unfold diverse, categories in *. rewrite fmap_app. split.
  - apply NoDup_app. split_and!; [done | | apply NoDup_singleton].
    intros c Hc Hc'. apply list_elem_of_singleton in Hc' as ->.
    apply Hnot. by apply elem_of_list_to_set.
  - rewrite list_to_set_app_L. simpl. by rewrite (right_id_L ∅ (∪)).
Qed.

Lemma diverse_size sel used : diverse sel used -> size used = length sel.
Proof.
  intros [Hnd ->]. unfold categories. rewrite size_list_to_set by done.
  by rewrite length_fmap.
Qed.

Lemma diversity_loop_diverse l sel used :
  diverse sel used -> diverse (diversity_loop l sel used).1 (diversity_loop l sel used).2.
Proof.
  revert sel used. induction l as [| rec l IH]; intros sel used Hd; cbn [diversity_loop]; [done |].
  destruct (3 <=? length sel)%nat; [done |].
  destruct (decide _); apply IH; [done |].
  by apply diverse_snoc.
Qed.

Lemma diversity_loop_length l sel used :
  diverse sel used -> (length sel <= 3)%nat ->
  length (diversity_loop l sel used).1 = (3 `min` size (used ∪ categories l))%nat.
Proof.
  revert sel used. induction l as [| rec l IH]; intros sel used Hd Hle; cbn [diversity_loop].
  - unfold categories. cbn [fst fmap list_fmap list_to_set foldr].
    rewrite (right_id_L ∅ (∪)), (diverse_size _ _ Hd). lia.
  - pose proof (diverse_size _ _ Hd) as Hsize.
    destruct (Nat.leb_spec 3 (length sel)) as [Hfull | Hroom].
    + cbn [fst]. assert (size used <= size (used ∪ categories (rec :: l)))%nat
        by (apply subseteq_size; set_solver).
      lia.
    + destruct (decide _) as [Hin | Hnot].
      * rewrite IH by done. f_equal. f_equal. unfold categories. simpl. set_solver.
      * rewrite IH.
        -- f_equal. f_equal. unfold categories. simpl. set_solver.
        -- by apply diverse_snoc.
        -- rewrite length_app. simpl. lia.
Qed.

Lemma three_positive_categories_size pool :
  three_positive_categories pool -> (3 <= size (categories pool))%nat.
Proof.
  intros (a & b & c & Ha & Hb & Hc & _ & _ & _ & Hab & Hac & Hbc).
  assert (size (list_to_set [rec_category a; rec_category b; rec_category c] : gset string) = 3%nat)
    as <-.
  { rewrite size_list_to_set; [done |].
    repeat constructor; set_solver. }
  apply subseteq_size. unfold categories.
  intros x Hx. apply elem_of_list_to_set in Hx. apply elem_of_list_to_set.
  apply list_elem_of_fmap.
  set_solver.
Qed.

End Selector.

Lemma categories_perm (l1 l2 : list RecommendationItem.t) :
  l1 ≡ₚ l2 -> categories l1 = categories l2.
Proof.
  intros Hp. unfold categories. apply leibniz_equiv. by rewrite Hp.
Qed.

Lemma select_top3_length (pool : list RecommendationItem.t) :
  (length (_select_top3_with_diversity pool) <= 3)%nat.
Proof.
  unfold _select_top3_with_diversity. destruct pool; [simpl; lia |].
  rewrite length_take. lia.
Qed.

(** C1: for every candidate pool, empty or not, the selector returns at
    most 3 items; and if at least 3 distinct top-level categories exist
    among the candidates of positive score, it returns 3 items of 3
    distinct top-level categories. *)
Theorem select_top3_diverse (pool : list RecommendationItem.t) :
  (length (_select_top3_with_diversity pool) <= 3)%nat
  /\ (three_positive_categories pool ->
      length (_select_top3_with_diversity pool) = 3%nat
      /\ NoDup (rec_category <$> _select_top3_with_diversity pool)).
Proof.
  split; [apply select_top3_length |].
  intros Hthree. apply three_positive_categories_size in Hthree.
  unfold _select_top3_with_diversity.
  destruct pool as [| x pool]; [by vm_compute in Hthree; lia |].
  set (sorted_recs := sorted_by_score (x :: pool)).
  set (selected := (diversity_loop sorted_recs [] ∅).1).
  assert (length selected = 3%nat) as Hlen.
  { unfold selected.
    rewrite diversity_loop_length; [| apply diverse_nil | simpl; lia].
    rewrite (left_id_L ∅ (∪)).
    rewrite (categories_perm sorted_recs (x :: pool)) by apply sorted_by_score_perm.
    lia. }
  rewrite fill_loop_full by lia.
  rewrite take_ge by lia.
  split; [done |].
  apply (diversity_loop_diverse sorted_recs [] ∅ diverse_nil).
Qed.

Lemma select_top3_diverse_witness :
  length (_select_top3_with_diversity test_pool) = 3%nat
  /\ NoDup (rec_category <$> _select_top3_with_diversity test_pool).
Proof.
  apply (select_top3_diverse test_pool).
  exists (sample_item "1" COURSE_URGENT 95), (sample_item "3" TASK_CLAIM 92),
         (sample_item "4" GOAL_TALK 88).
  unfold test_pool.
  split_and!; [set_solver | set_solver | set_solver | done | done | done
              | vm_compute; congruence | vm_compute; congruence | vm_compute; congruence].
Defined.

(** C9, as stated, fails: from two courses of scores 95 and 90 and one task
    of score 50 the selector returns the items of scores 95, 50, 90, in
    that order. *)
Lemma select_top3_not_sorted :
  RecommendationItem.score <$> _select_top3_with_diversity two_category_pool
    = [95%Q; 50%Q; 90%Q]
  /\ ~ sorted_desc (_select_top3_with_diversity two_category_pool).
Proof.
  split; [vm_compute; reflexivity |].
  intros Hs.
  assert (_select_top3_with_diversity two_category_pool
          = [sample_item "1" COURSE_URGENT 95; sample_item "3" TASK_CLAIM 50;
             sample_item "2" COURSE_POPULAR 90]) as E
    by (vm_compute; reflexivity).
  rewrite E in Hs.
  apply StronglySorted_inv in Hs as [Hs _].
  apply StronglySorted_inv in Hs as [_ Hc].
  apply Forall_inv in Hc. vm_compute in Hc. by apply Hc.
Qed.

(** C9, amended: for every candidate pool the result has at most 3 items
    and consists of the picks of the diversity pass, which are sorted by
    score descending and of pairwise distinct categories, followed by the
    picks of the fill pass, which are sorted by score descending as well;
    the result as a whole need not be sorted. *)
Theorem select_top3_two_sorted_runs (pool : list RecommendationItem.t) :
  let diverse_picks := (diversity_loop (sorted_by_score pool) [] ∅).1 in
  exists fill_picks,
    _select_top3_with_diversity pool = (diverse_picks ++ fill_picks)%list
    /\ (length (_select_top3_with_diversity pool) <= 3)%nat
    /\ sorted_desc diverse_picks
    /\ NoDup (rec_category <$> diverse_picks)
    /\ sorted_desc fill_picks
    /\ fill_picks `sublist_of` sorted_by_score pool.
Proof.
  intros diverse_picks.
  pose proof (sorted_by_score_sorted pool) as Hsorted.
  assert (sorted_desc diverse_picks /\ NoDup (rec_category <$> diverse_picks)
          /\ (length diverse_picks <= 3)%nat) as (Hdiv & Hnd & Hlen).
  { unfold diverse_picks. split_and!.
    - destruct (diversity_loop_picks (sorted_by_score pool) [] ∅) as (picks & -> & Hsub).
      by apply (sorted_desc_sublist picks (sorted_by_score pool)).
    - apply (diversity_loop_diverse _ [] ∅ diverse_nil).
    - apply diversity_loop_length_le. simpl. lia. }
  destruct (fill_loop_picks (sorted_by_score pool) diverse_picks) as (fill & Hfill & Hsub).
  exists fill. split_and!; try done.
  - unfold _select_top3_with_diversity. destruct pool as [| x pool].
    + unfold diverse_picks in *. simpl in *. by rewrite <- Hfill.
    + fold diverse_picks. rewrite take_ge; [done |].
      by apply fill_loop_length_le.
  - apply select_top3_length.
  - by apply (sorted_desc_sublist fill (sorted_by_score pool)).
Qed.

(** ** Reasoning about computations *)

Section Prog.

Context {St : Type}.

Lemma bind_unfold {A B} (m : prog St A) (k : A -> prog St B) (w : St) :
  bind m k w = match m w with
               | (Ok a, w') => k a w'
               | (Raise e, w') => (Raise e, w')
               end.
Proof. reflexivity. Qed.

Lemma bind_Ok {A B} (m : prog St A) (k : A -> prog St B) (w w' : St) (a : A) :
  m w = (Ok a, w') -> bind m k w = k a w'.
Proof. intros Hm. by rewrite bind_unfold, Hm. Qed.

Lemma bind_Raise {A B} (m : prog St A) (k : A -> prog St B) (w w' : St) (e : exn) :
  m w = (Raise e, w') -> bind m k w = (Raise e, w').
Proof. intros Hm. by rewrite bind_unfold, Hm. Qed.

Lemma bind_Ok_inv {A B} (m : prog St A) (k : A -> prog St B) (w w' : St) (b : B) :
  bind m k w = (Ok b, w') -> exists a w1, m w = (Ok a, w1) /\ k a w1 = (Ok b, w').
Proof.
  rewrite bind_unfold. destruct (m w) as [[a | e] w1]; [eauto | discriminate].
Qed.

(** A handler that returns makes the whole [try] return. *)
Lemma try_except_returns {A} (m : prog St A) (h : exn -> prog St A) (w : St) :
  (forall e w1, exists a w', h e w1 = (Ok a, w')) ->
  exists a w', try_except m h w = (Ok a, w').
Proof.
  intros Hh. unfold try_except. destruct (m w) as [[a | e] w1]; eauto.
Qed.

Section ForEach.

Context {A X : Type} (body : A -> list X -> prog St (list X)).

Lemma for_each_cons x l acc w :
  for_each body (x :: l) acc w = bind (body x acc) (for_each body l) w.
Proof. reflexivity. Qed.

(** A loop whose body returns on every element returns. *)
Lemma for_each_returns (l : list A) :
  (forall x acc w, x ∈ l -> exists acc' w', body x acc w = (Ok acc', w')) ->
  forall acc w, exists acc' w', for_each body l acc w = (Ok acc', w').
Proof.
  induction l as [| x l IH]; intros Hbody acc w.
  - by exists acc, w.
  - destruct (Hbody x acc w) as (acc1 & w1 & Hx); [left |].
    rewrite for_each_cons, (bind_Ok _ _ _ _ _ Hx).
    apply IH. intros y acc2 w2 Hy. apply Hbody. by right.
Qed.

(** A property of all items that every turn preserves holds at the end. *)
Lemma for_each_Forall (P : X -> Prop) (l : list A) :
  (forall x acc w acc' w',
     x ∈ l -> body x acc w = (Ok acc', w') -> Forall P acc -> Forall P acc') ->
  forall acc w acc' w',
    for_each body l acc w = (Ok acc', w') -> Forall P acc -> Forall P acc'.
Proof.
  induction l as [| x l IH]; intros Hbody acc w acc' w' Hrun Hacc.
  - by injection Hrun as <- _.
  - rewrite for_each_cons in Hrun.
    apply bind_Ok_inv in Hrun as (acc1 & w1 & Hx & Hrest).
    eapply IH; [| exact Hrest |].
    + intros y ? ? ? ? Hy. apply Hbody. by right.
    + eapply Hbody; [left | exact Hx | exact Hacc].
Qed.

(** A loop whose body only appends only appends. *)
Lemma for_each_extends (l : list A) :
  (forall x acc w acc' w',
     x ∈ l -> body x acc w = (Ok acc', w') -> exists ext, acc' = (acc ++ ext)%list) ->
  forall acc w acc' w',
    for_each body l acc w = (Ok acc', w') -> exists ext, acc' = (acc ++ ext)%list.
Proof.
  induction l as [| x l IH]; intros Hbody acc w acc' w' Hrun.
  - injection Hrun as <- _. exists []. by rewrite app_nil_r.
  - rewrite for_each_cons in Hrun.
    apply bind_Ok_inv in Hrun as (acc1 & w1 & Hx & Hrest).
    apply Hbody in Hx as [ext1 ->]; [| left].
    apply IH in Hrest as [ext2 ->].
    + exists (ext1 ++ ext2)%list. by rewrite app_assoc.
    + intros y ? ? ? ? Hy. apply Hbody. by right.
Qed.

(** What the turn of one element appends is there at the end. *)
Lemma for_each_emits (Q : X -> Prop) (l : list A) (x : A) :
  x ∈ l ->
  (forall y acc w acc' w',
     y ∈ l -> body y acc w = (Ok acc', w') -> exists ext, acc' = (acc ++ ext)%list) ->
  (forall acc w acc' w', body x acc w = (Ok acc', w') -> Exists Q acc') ->
  forall acc w acc' w',
    for_each body l acc w = (Ok acc', w') -> Exists Q acc'.
Proof.
  intros Hx Hext Hemit. induction l as [| y l IH]; intros acc w acc' w' Hrun.
  - by apply elem_of_nil in Hx.
  - rewrite for_each_cons in Hrun.
    apply bind_Ok_inv in Hrun as (acc1 & w1 & Hy & Hrest).
    apply elem_of_cons in Hx as [<- | Hx].
    + apply Hemit in Hy.
      apply for_each_extends in Hrest as [ext ->].
      * apply Exists_app. by left.
      * intros z ? ? ? ? Hz. apply Hext. by right.
    + eapply IH; [done | | exact Hrest].
      intros z ? ? ? ? Hz. apply Hext. by right.
Qed.

(** A loop over two lists in a row. *)
Lemma for_each_app (l1 l2 : list A) acc w :
  for_each body (l1 ++ l2) acc w = bind (for_each body l1 acc) (for_each body l2) w.
Proof.
  revert acc w. induction l1 as [| x l1 IH]; intros acc w; [reflexivity |].
  cbn [app for_each]. rewrite !bind_unfold.
  destruct (body x acc w) as [[acc1 | e] w1]; [| reflexivity].
  rewrite IH. by rewrite bind_unfold.
Qed.

(** The turn of one element in a loop that returns: the loop reaches it,
    the turn returns, and the rest of the loop returns. *)
Lemma for_each_turn (earlier : list A) (x : A) (later : list A) acc w acc' w' :
  for_each body (earlier ++ x :: later) acc w = (Ok acc', w') ->
  exists acc1 w1 acc2 w2,
    for_each body earlier acc w = (Ok acc1, w1)
    /\ body x acc1 w1 = (Ok acc2, w2)
    /\ for_each body later acc2 w2 = (Ok acc', w').
Proof.
  rewrite for_each_app. intros Hrun.
  apply bind_Ok_inv in Hrun as (acc1 & w1 & Hpre & Hrun).
  rewrite for_each_cons in Hrun.
  apply bind_Ok_inv in Hrun as (acc2 & w2 & Hturn & Hpost).
  by exists acc1, w1, acc2, w2.
Qed.

(** The loop after the turn of one more element. *)
Lemma for_each_snoc (l : list A) (x : A) acc w acc1 w1 :
  for_each body l acc w = (Ok acc1, w1) ->
  for_each body (l ++ [x]) acc w = body x acc1 w1.
Proof.
  intros Hpre. rewrite for_each_app, (bind_Ok _ _ _ _ _ Hpre), for_each_cons, bind_unfold.
  by destruct (body x acc1 w1) as [[acc2 | e] w2].
Qed.

End ForEach.

End Prog.

(** ** The generators *)

Section Generators.

Variable rt : Runtime.
Variable settings : Settings.
Variable self : RecommendationEngine.

Lemma RecommendationItem_new_run fields w :
  RecommendationItem_new rt fields w =
    let r := fields {| wall := clock rt (reads w) + local_utcoffset rt; tzinfo := None |} in
    (if scores_valid r then Ok r else Raise validation_error, tick w).
Proof.
  unfold RecommendationItem_new, bind, datetime_now. cbv zeta.
  destruct (scores_valid _); reflexivity.
Qed.

(** Constructing an item and appending it. *)
Lemma append_new_run fields (recs : list RecommendationItem.t) w :
  bind (RecommendationItem_new rt fields) (fun rec => ret (recs ++ [rec])%list) w =
    let r := fields {| wall := clock rt (reads w) + local_utcoffset rt; tzinfo := None |} in
    (if scores_valid r then Ok (recs ++ [r])%list else Raise validation_error, tick w).
Proof.
  rewrite bind_unfold, RecommendationItem_new_run. cbv zeta.
  by destruct (scores_valid _).
Qed.

Lemma datetime_sub_aware d now_us :
  datetime_sub (assume_utc d) {| wall := now_us; tzinfo := Some 0 |}
  = Ok (utc_instant (assume_utc d) - now_us).
Proof.
  unfold assume_utc, datetime_sub, utc_instant, replace_tzinfo_utc.
  destruct (tzinfo d) as [off |] eqn:E; simpl; rewrite ?E; f_equal; lia.
Qed.

Lemma in_0_100_iff x : in_0_100 x = true <-> subscore x.
Proof.
  unfold in_0_100, subscore. rewrite andb_true_iff, !Qle_bool_iff. done.
Qed.

Lemma urgency_score_subscore days task_type :
  subscore (inject_Z (_calculate_urgency_score days task_type)).
Proof.
  unfold _calculate_urgency_score, subscore.
  repeat case_match; split; by vm_compute.
Qed.

(** *** The loop over the selections *)

Lemma course_urgent_step_run selection recs w :
  let days := days_to_deadline rt (reads w) (CourseSelection.deadline selection) in
  (3 < days /\ course_urgent_step rt settings self selection recs w = (Ok recs, tick w))
  \/ (days <= 3 /\ exists rec,
        is_course_urgent settings self selection days rec
        /\ course_urgent_step rt settings self selection recs w
           = (if scores_valid rec then Ok (recs ++ [rec])%list else Raise validation_error,
              tick (tick w))).
Proof.
  intros days.
  assert (forall w0 : World,
            lift_res (datetime_sub (assume_utc (CourseSelection.deadline selection))
                        {| wall := clock rt (reads w); tzinfo := Some 0 |}) w0
            = (Ok (utc_instant (assume_utc (CourseSelection.deadline selection))
                   - clock rt (reads w)), w0)) as Hsub
    by (intros w0; unfold lift_res; by rewrite datetime_sub_aware).
  destruct (Z.leb_spec days 3) as [Hdue | Hlate]; [right | left]; (split; [done |]).
  - eexists. split; [| unfold course_urgent_step].
    2: { rewrite bind_unfold. unfold datetime_now_utc at 1.
         rewrite (bind_Ok _ _ _ _ _ (Hsub _)).
         fold (days_to_deadline rt (reads w) (CourseSelection.deadline selection)).
         fold days. destruct (Z.leb_spec days 3); [| lia].
         rewrite append_new_run. reflexivity. }
    by repeat split.
  - unfold course_urgent_step.
    rewrite bind_unfold. unfold datetime_now_utc at 1.
    rewrite (bind_Ok _ _ _ _ _ (Hsub _)).
    fold (days_to_deadline rt (reads w) (CourseSelection.deadline selection)).
    fold days. by destruct (Z.leb_spec days 3); [lia |].
Qed.

(** What a turn of the loop over the selections leaves behind when it
    returns. *)
Lemma course_urgent_step_inv selection recs w recs' w' :
  course_urgent_step rt settings self selection recs w = (Ok recs', w') ->
  let days := days_to_deadline rt (reads w) (CourseSelection.deadline selection) in
  (3 < days /\ recs' = recs)
  \/ (days <= 3 /\ exists rec, is_course_urgent settings self selection days rec
                               /\ recs' = (recs ++ [rec])%list).
Proof.
  intros Hrun days.
  destruct (course_urgent_step_run selection recs w) as [[Hlate E] | (Hdue & rec & Hrec & E)];
    rewrite E in Hrun.
  - left. split; [done |]. by injection Hrun as <- _.
  - right. split; [done |]. exists rec. split; [done |].
    destruct (scores_valid rec); [by injection Hrun as <- _ | discriminate].
Qed.

(** *** The loop over the catalogue *)

Lemma course_popular_step_run selected course recs w :
  match Course.id course with
  | None => course_popular_step rt self selected course recs w
            = (Raise (Exn KeyError "'id'"), w)
  | Some cid =>
      let finish := get_default (Course.finish_selections_num course) 0 in
      if negb (bool_decide (cid ∈ selected)) && (5 <=? finish)
         && Qle_bool 60 (course_popular_score self finish)
      then match Course.title course with
           | None => course_popular_step rt self selected course recs w
                     = (Raise (Exn KeyError "'title'"), w)
           | Some _ =>
               exists rec,
                 is_course_popular self cid finish rec
                 /\ course_popular_step rt self selected course recs w
                    = (if scores_valid rec then Ok (recs ++ [rec])%list
                       else Raise validation_error, tick w)
           end
      else course_popular_step rt self selected course recs w = (Ok recs, w)
  end.
Proof.
  unfold course_popular_step.
  destruct (Course.id course) as [cid |]; [| reflexivity].
  cbv zeta. cbn [getitem]. rewrite (bind_Ok _ _ w w cid) by reflexivity.
  fold (course_popular_score self (get_default (Course.finish_selections_num course) 0)).
  destruct (negb (bool_decide (cid ∈ selected))
            && (5 <=? get_default (Course.finish_selections_num course) 0));
    [| reflexivity].
  cbn [andb].
  destruct (Qle_bool 60 _); [| reflexivity].
  destruct (Course.title course) as [title |]; [| reflexivity].
  cbn [getitem]. rewrite (bind_Ok _ _ w w title) by reflexivity.
  eexists. split; [| rewrite append_new_run; reflexivity].
  by repeat split.
Qed.

Lemma course_popular_step_inv selected course recs w recs' w' :
  course_popular_step rt self selected course recs w = (Ok recs', w') ->
  recs' = recs
  \/ exists cid rec,
       Course.id course = Some cid
       /\ (cid ∉ selected)
       /\ 5 <= get_default (Course.finish_selections_num course) 0
       /\ (60 <= course_popular_score self
                   (get_default (Course.finish_selections_num course) 0%Z))%Q
       /\ is_course_popular self cid (get_default (Course.finish_selections_num course) 0) rec
       /\ recs' = (recs ++ [rec])%list.
Proof.
  intros Hrun. pose proof (course_popular_step_run selected course recs w) as Hcases.
  destruct (Course.id course) as [cid |]; [| by rewrite Hcases in Hrun].
  cbv zeta in Hcases.
  destruct (negb (bool_decide (cid ∈ selected))) eqn:Hsel;
    [| cbn [andb] in Hcases; rewrite Hcases in Hrun; left; by injection Hrun as <- _].
  destruct (Z.leb_spec 5 (get_default (Course.finish_selections_num course) 0)) as [Hfin | Hfin];
    [| cbn [andb] in Hcases; rewrite Hcases in Hrun; left; by injection Hrun as <- _].
  destruct (Qle_bool 60 _) eqn:Hscore;
    [| cbn [andb] in Hcases; rewrite Hcases in Hrun; left; by injection Hrun as <- _].
  cbn [andb] in Hcases.
  destruct (Course.title course); [| by rewrite Hcases in Hrun].
  destruct Hcases as (rec & Hrec & E). rewrite E in Hrun.
  destruct (scores_valid rec); [| discriminate].
  injection Hrun as <- _. right. exists cid, rec. split_and!; try done.
  - apply negb_true_iff, bool_decide_eq_false in Hsel. done.
  - by apply Qle_bool_iff.
Qed.

(** *** The loop over the projects *)

Lemma project_step_inv user_data project recs w recs' w' :
  project_step rt settings self user_data project recs w = (Ok recs', w') ->
  recs' = recs
  \/ exists rec,
       is_task_claim settings project
         (days_to_deadline rt (reads w) (InnoProject.deadline project)) rec
       /\ recs' = (recs ++ [rec])%list.
Proof.
  unfold project_step. destruct (InnoProject.taker_id project).
  { intros Hrun. left. by injection Hrun as <- _. }
  rewrite bind_unfold. unfold datetime_now_utc at 1.
  rewrite bind_unfold. unfold lift_res. rewrite datetime_sub_aware.
  fold (days_to_deadline rt (reads w) (InnoProject.deadline project)). cbv zeta.
  destruct (Qle_bool 50 _) eqn:Hscore; [| intros Hrun; left; by injection Hrun as <- _].
  unfold project_description. destruct (InnoProject.desc project) as [d |].
  - rewrite (bind_Ok _ _ (tick w) (tick w) (ellipsis 100 d)) by reflexivity.
    rewrite append_new_run. cbv zeta.
    destruct (scores_valid _); [| discriminate].
    intros Hrun. injection Hrun as <- _. right. eexists. split; [| reflexivity].
    repeat split. by apply Qle_bool_iff.
  - rewrite (bind_Raise _ _ (tick w) (tick w)
               (Exn TypeError "object of type 'NoneType' has no len()")) by reflexivity.
    discriminate.
Qed.

End Generators.

Section GeneratorProperties.

Variable rt : Runtime.
Variable settings : Settings.
Variable self : RecommendationEngine.

Lemma subscore_inject_Z (z : Z) : 0 <= z <= 100 -> subscore (inject_Z z).
Proof.
  intros [H0 H100]. unfold subscore.
  split; [change 0%Q with (inject_Z 0) | change 100%Q with (inject_Z 100)];
    by rewrite <- Zle_Qle.
Qed.

Lemma scores_valid_intro (rec : RecommendationItem.t) :
  subscore (RecommendationItem.score rec) ->
  subscore (RecommendationItem.urgency rec) ->
  subscore (RecommendationItem.importance rec) ->
  subscore (RecommendationItem.personal_fit rec) ->
  subscore (RecommendationItem.growth_value rec) ->
  scores_valid rec = true.
Proof.
  intros. unfold scores_valid. rewrite !andb_true_iff, !in_0_100_iff. done.
Qed.

Lemma total_score_subscore u i f g :
  weights_nonnegative self ->
  (0 <= u)%Q -> (0 <= i)%Q -> (0 <= f)%Q -> (0 <= g)%Q ->
  subscore (_calculate_total_score self u i f g).
Proof.
  intros. split; [by apply total_score_nonneg | apply total_score_le_100].
Qed.

Lemma course_urgent_valid selection days rec :
  weights_nonnegative self ->
  is_course_urgent settings self selection days rec -> scores_valid rec = true.
Proof.
  intros Hw (_ & _ & Hs & Hu & Hi & Hf & Hg & _).
  apply scores_valid_intro; rewrite ?Hs, ?Hu, ?Hi, ?Hf, ?Hg.
  - unfold course_urgent_score.
    apply total_score_subscore; [done | apply urgency_score_subscore | done ..].
  - apply urgency_score_subscore.
  - by apply subscore_inject_Z.
  - by apply subscore_inject_Z.
  - by apply subscore_inject_Z.
Qed.

Lemma course_popular_valid cid finish rec :
  weights_nonnegative self -> 5 <= finish ->
  is_course_popular self cid finish rec -> scores_valid rec = true.
Proof.
  intros Hw Hfin (_ & _ & Hs & Hu & Hi & Hf & Hg & _).
  assert (0 <= 60 + Z.min (finish * 2) 30 <= 100) as Himp by lia.
  apply scores_valid_intro; rewrite ?Hs, ?Hu, ?Hi, ?Hf, ?Hg;
    try (by apply subscore_inject_Z).
  unfold course_popular_score.
  apply total_score_subscore; [done | | | |];
    by apply subscore_inject_Z.
Qed.

(** *** Whole days and hours left *)

Lemma timedelta_days_second_day (delta : Z) :
  24 * microseconds_per_hour < delta < 48 * microseconds_per_hour ->
  timedelta_days delta = 1.
Proof.
  unfold timedelta_days, microseconds_per_hour, microseconds_per_day. intros Hd.
  symmetry. apply (Z.div_unique delta _ 1 (delta - 86400000000)); lia.
Qed.

Lemma second_day_level (d : datetime) (k : nat) :
  urgency_critical settings = 24 ->
  in_second_day rt k (assume_utc d) ->
  days_to_deadline rt k d = 1
  /\ _get_urgency_level settings (1 * 24) = CRITICAL.
Proof.
  intros Hcrit Hd. unfold days_to_deadline.
  rewrite (timedelta_days_second_day _ Hd).
  split; [done |]. unfold _get_urgency_level. by rewrite Hcrit.
Qed.

(** The reading a turn takes, once the loop is known to reach it. *)
Lemma turn_reading_reached {A S} (body : A -> S -> prog World S) (earlier : list A)
    (acc : S) (w : World) (r : res S) (w1 : World) :
  for_each body earlier acc w = (r, w1) -> turn_reading body earlier acc w = reads w1.
Proof. intros Hpre. unfold turn_reading. by rewrite Hpre. Qed.

(** *** What the course generator emits *)

Lemma course_urgent_step_extends selection recs w recs' w' :
  course_urgent_step rt settings self selection recs w = (Ok recs', w') ->
  exists ext, recs' = (recs ++ ext)%list.
Proof.
  intros Hrun. apply course_urgent_step_inv in Hrun as [[_ ->] | (_ & rec & _ & ->)].
  - exists []. by rewrite app_nil_r.
  - by exists [rec].
Qed.

Lemma course_popular_step_extends selected course recs w recs' w' :
  course_popular_step rt self selected course recs w = (Ok recs', w') ->
  exists ext, recs' = (recs ++ ext)%list.
Proof.
  intros Hrun.
  apply course_popular_step_inv in Hrun as [-> | (cid & rec & _ & _ & _ & _ & _ & ->)].
  - exists []. by rewrite app_nil_r.
  - by exists [rec].
Qed.

Lemma project_step_extends user_data project recs w recs' w' :
  project_step rt settings self user_data project recs w = (Ok recs', w') ->
  exists ext, recs' = (recs ++ ext)%list.
Proof.
  intros Hrun. apply project_step_inv in Hrun as [-> | (rec & _ & ->)].
  - exists []. by rewrite app_nil_r.
  - by exists [rec].
Qed.

Lemma course_urgent_step_returns selection recs w :
  weights_nonnegative self ->
  exists recs' w', course_urgent_step rt settings self selection recs w = (Ok recs', w').
Proof.
  intros Hw.
  destruct (course_urgent_step_run rt settings self selection recs w)
    as [[_ E] | (_ & rec & Hrec & E)]; rewrite E; [by eauto |].
  rewrite (course_urgent_valid _ _ _ Hw Hrec). by eauto.
Qed.

Lemma course_popular_step_returns selected course recs w :
  weights_nonnegative self ->
  is_Some (Course.id course) -> is_Some (Course.title course) ->
  exists recs' w', course_popular_step rt self selected course recs w = (Ok recs', w').
Proof.
  intros Hw [cid Hid] [title Htitle].
  pose proof (course_popular_step_run rt self selected course recs w) as Hcases.
  rewrite Hid, Htitle in Hcases. cbv zeta in Hcases.
  destruct (negb (bool_decide (cid ∈ selected))); [| rewrite Hcases; by eauto].
  destruct (Z.leb_spec 5 (get_default (Course.finish_selections_num course) 0));
    [| rewrite Hcases; by eauto].
  destruct (Qle_bool 60 _); [| rewrite Hcases; by eauto].
  destruct Hcases as (rec & Hrec & ->).
  rewrite (course_popular_valid _ _ _ Hw ltac:(done) Hrec). by eauto.
Qed.

Lemma recommend_courses_inv user_data w recs w' :
  _recommend_courses rt settings self user_data w = (Ok recs, w') ->
  exists recs1 w1,
    for_each (course_urgent_step rt settings self) (selections user_data) [] w
      = (Ok recs1, w1)
    /\ for_each (course_popular_step rt self (course_ids (selections user_data)))
         (all_courses user_data) recs1 w1 = (Ok recs, w').
Proof.
  unfold _recommend_courses. intros Hrun.
  apply bind_Ok_inv in Hrun as (recs1 & w1 & H1 & Hrun).
  apply bind_Ok_inv in Hrun as (recs2 & w2 & H2 & Hrun).
  injection Hrun as <- <-. eauto.
Qed.

(** What the course generator has emitted, whatever the weights, once it
    returns. *)
Lemma course_generator_emitted user_data w recs w' :
  _recommend_courses rt settings self user_data w = (Ok recs, w') ->
  course_emission_rules rt settings self user_data w recs.
Proof.
  intros Hrun. apply recommend_courses_inv in Hrun as (recs1 & w1 & H1 & H2).
  unfold course_emission_rules. split.
  - intros earlier selection later Hsplit. cbv zeta.
    rewrite Hsplit in H1.
    apply for_each_turn in H1 as (acc1 & wk & acc2 & wk' & Hpre & Hturn & Hpost).
    rewrite (turn_reading_reached _ _ _ _ _ _ Hpre). intros Hdue.
    apply course_urgent_step_inv in Hturn as [[Hlate _] | (_ & rec & Hrec & ->)]; [lia |].
    apply (for_each_extends (course_urgent_step rt settings self)) in Hpost
      as [ext1 ->]; [| intros; by eapply course_urgent_step_extends].
    apply (for_each_extends
             (course_popular_step rt self (course_ids (selections user_data)))) in H2
      as [ext2 ->]; [| intros; by eapply course_popular_step_extends].
    exists rec. split; [| exact Hrec]. rewrite !elem_of_app, list_elem_of_singleton. tauto.
  - pose (P := fun rec : RecommendationItem.t =>
            RecommendationItem.type rec = COURSE_POPULAR ->
            (60 <= RecommendationItem.score rec)%Q
            /\ exists course cid,
                 course ∈ all_courses user_data
                 /\ Course.id course = Some cid
                 /\ (cid ∉ course_ids (selections user_data))
                 /\ 5 <= get_default (Course.finish_selections_num course) 0
                 /\ RecommendationItem.id rec = "course_popular_" ++ pretty cid).
    assert (Forall P recs1) as HP1.
    { apply (for_each_Forall (course_urgent_step rt settings self) P
               (selections user_data)) with (acc := []) (w := w) (w' := w1);
        [| exact H1 | constructor].
      intros selection acc w0 acc' w0' Hc Hstep Hacc.
      apply course_urgent_step_inv in Hstep as [[_ ->] | (_ & r & Hr & ->)]; [done |].
      apply Forall_app. split; [done |]. constructor; [| constructor].
      destruct Hr as (_ & Hty & _). unfold P. rewrite Hty. discriminate. }
    assert (Forall P recs) as HP.
    { apply (for_each_Forall
               (course_popular_step rt self (course_ids (selections user_data))) P
               (all_courses user_data)) with (acc := recs1) (w := w1) (w' := w');
        [| exact H2 | exact HP1].
      intros course acc w0 acc' w0' Hc Hstep Hacc.
      apply course_popular_step_inv in Hstep
        as [-> | (cid & r & Hid & Hsel & Hfin & Hscore & Hr & ->)]; [done |].
      apply Forall_app. split; [done |]. constructor; [| constructor].
      intros _. destruct Hr as (Hrid & _ & Hrs & _). rewrite Hrs.
      split; [done |]. by exists course, cid. }
    intros rec Hin. by apply (proj1 (Forall_forall P recs) HP).
Qed.

(** C6, amended: whenever the course generator returns, in what it returns
    (1) every selection whose deadline is at most 3 whole days away when its
    turn of the loop reads the clock has its course-urgent candidate, with no
    threshold on its total score; (2) every course-popular candidate comes
    from a catalogue course the user has not selected, with at least 5
    completions, and has a total score of at least 60.  The generator returns
    when the weights are non-negative and every catalogue entry carries its
    ["id"] and ["title"]. *)
Theorem course_generator_emission user_data w :
  (forall recs w',
     _recommend_courses rt settings self user_data w = (Ok recs, w') ->
     course_emission_rules rt settings self user_data w recs)
  /\ (weights_nonnegative self ->
      catalog_well_formed (all_courses user_data) ->
      exists recs w', _recommend_courses rt settings self user_data w = (Ok recs, w')).
Proof.
  split; [intros recs w'; apply course_generator_emitted |].
  intros Hw Hcat.
  destruct (for_each_returns (course_urgent_step rt settings self) (selections user_data))
    with (acc := @nil RecommendationItem.t) (w := w) as (recs1 & w1 & H1).
  { intros. by apply course_urgent_step_returns. }
  destruct (for_each_returns
              (course_popular_step rt self (course_ids (selections user_data)))
              (all_courses user_data))
    with (acc := recs1) (w := w1) as (recs & w' & H2).
  { intros course acc w0 Hin.
    unfold catalog_well_formed in Hcat. rewrite Forall_forall in Hcat.
    destruct (Hcat course Hin). by apply course_popular_step_returns. }
  exists recs, w'. unfold _recommend_courses.
  rewrite (bind_Ok _ _ _ _ _ H1), (bind_Ok _ _ _ _ _ H2). reflexivity.
Qed.

(** *** Hours left, in whole days *)

(** C10: the hours handed to [_get_urgency_level] are the whole days to the
    deadline times 24.  So, with the critical threshold at its default of 24
    hours: when the turn of a selection reads the clock and the deadline lies
    strictly between 24 and 48 hours ahead of that reading, the hours are 24
    and the candidate of the selection, which is in what the course generator
    returns, is critical, not high; and when the turn of an open project
    reads the clock with its deadline between 24 and 48 hours ahead, the
    hours are 24 and the turn either appends nothing or appends a candidate,
    which is in what the project generator returns and is critical, not
    high. *)
Theorem second_day_deadline_is_critical user_data w recs w' :
  urgency_critical settings = 24 ->
  (_recommend_courses rt settings self user_data w = (Ok recs, w') ->
   forall earlier selection later,
     selections user_data = (earlier ++ selection :: later)%list ->
     let k := turn_reading (course_urgent_step rt settings self) earlier [] w in
     in_second_day rt k (assume_utc (CourseSelection.deadline selection)) ->
     days_to_deadline rt k (CourseSelection.deadline selection) * 24 = 24
     /\ exists rec,
          rec ∈ recs
          /\ is_course_urgent settings self selection 1 rec
          /\ RecommendationItem.urgency_level rec = Some CRITICAL
          /\ RecommendationItem.urgency_level rec <> Some HIGH)
  /\ (_recommend_projects rt settings self user_data w = (Ok recs, w') ->
      forall earlier project later,
        projects user_data = (earlier ++ project :: later)%list ->
        InnoProject.taker_id project = None ->
        let k := turn_reading (project_step rt settings self user_data) earlier [] w in
        in_second_day rt k (assume_utc (InnoProject.deadline project)) ->
        days_to_deadline rt k (InnoProject.deadline project) * 24 = 24
        /\ ((for_each (project_step rt settings self user_data)
               (earlier ++ [project]) [] w).1
            = (for_each (project_step rt settings self user_data) earlier [] w).1
            \/ exists rec,
                 rec ∈ recs
                 /\ is_task_claim settings project 1 rec
                 /\ RecommendationItem.urgency_level rec = Some CRITICAL
                 /\ RecommendationItem.urgency_level rec <> Some HIGH)).
Proof.
  intros Hcrit. split.
  - intros Hrun earlier selection later Hsplit. cbv zeta.
    apply recommend_courses_inv in Hrun as (recs1 & w1 & H1 & H2).
    rewrite Hsplit in H1.
    apply for_each_turn in H1 as (acc1 & wk & acc2 & wk' & Hpre & Hturn & Hpost).
    rewrite (turn_reading_reached _ _ _ _ _ _ Hpre).
    set (k := reads wk). assert (k = reads wk) as Hk by done. intros Hsecond.
    destruct (second_day_level (CourseSelection.deadline selection) k Hcrit Hsecond)
      as [Hday Hlevel].
    split; [by rewrite Hday |].
    apply course_urgent_step_inv in Hturn as [[Hlate _] | (_ & rec & Hrec & ->)];
      rewrite <- Hk, Hday in *; [lia |].
    apply (for_each_extends (course_urgent_step rt settings self)) in Hpost
      as [ext1 ->]; [| intros; by eapply course_urgent_step_extends].
    apply (for_each_extends
             (course_popular_step rt self (course_ids (selections user_data)))) in H2
      as [ext2 ->]; [| intros; by eapply course_popular_step_extends].
    assert (RecommendationItem.urgency_level rec = Some CRITICAL) as Hlv.
    { destruct Hrec as (_ & _ & _ & _ & _ & _ & _ & _ & ->). by rewrite Hlevel. }
    exists rec. split_and!; [| exact Hrec | exact Hlv | by rewrite Hlv].
    rewrite !elem_of_app, list_elem_of_singleton. tauto.
  - intros Hrun earlier project later Hsplit Hopen. cbv zeta.
    unfold _recommend_projects in Hrun. rewrite Hsplit in Hrun.
    apply for_each_turn in Hrun as (acc1 & wk & acc2 & wk' & Hpre & Hturn & Hpost).
    rewrite (turn_reading_reached _ _ _ _ _ _ Hpre).
    set (k := reads wk). assert (k = reads wk) as Hk by done. intros Hsecond.
    destruct (second_day_level (InnoProject.deadline project) k Hcrit Hsecond)
      as [Hday Hlevel].
    split; [by rewrite Hday |].
    rewrite (for_each_snoc _ _ _ _ _ _ _ Hpre), Hpre, Hturn. cbn [fst].
    apply project_step_inv in Hturn as [-> | (rec & Hrec & ->)]; [by left | right].
    rewrite <- Hk, Hday in Hrec.
    apply (for_each_extends (project_step rt settings self user_data)) in Hpost
      as [ext1 ->]; [| intros; by eapply project_step_extends].
    assert (RecommendationItem.urgency_level rec = Some CRITICAL) as Hlv.
    { destruct Hrec as (_ & _ & _ & _ & ->). by rewrite Hlevel. }
    exists rec. split_and!; [| exact Hrec | exact Hlv | by rewrite Hlv].
    rewrite !elem_of_app, list_elem_of_singleton. tauto.
Qed.

End GeneratorProperties.

(** On a clock that advances: the candidate of the selection of the
    repository's fixture, due two days after a first reading of the clock, is
    critical, where the 47 hours left would themselves be high; and so is the
    candidate of a project due 36 hours after the epoch. *)
Lemma second_day_deadline_is_critical_witness :
  (exists rec,
     rec ∈ returned_items (_recommend_courses ticking_runtime default_settings
                             default_engine fixture_user_data after_fixture)
     /\ RecommendationItem.id rec = "course_urgent_1"
     /\ RecommendationItem.urgency_level rec = Some CRITICAL)
  /\ (exists rec,
        rec ∈ returned_items (_recommend_projects ticking_runtime default_settings
                                default_engine project_user_data empty_world)
        /\ RecommendationItem.id rec = "task_claim_88"
        /\ RecommendationItem.urgency_level rec = Some CRITICAL)
  /\ _get_urgency_level default_settings 47 = HIGH.
Proof.
  split; [| split; [| reflexivity]].
  - destruct (_recommend_courses ticking_runtime default_settings default_engine
                fixture_user_data after_fixture) as [[recs | e] w'] eqn:Hrun;
      [| vm_compute in Hrun; discriminate].
    destruct (second_day_deadline_is_critical ticking_runtime default_settings
                default_engine fixture_user_data after_fixture recs w' eq_refl)
      as [Hcourses _].
    destruct (Hcourses Hrun []
                (sample_selection {| wall := 0 + timedelta_of_days 2; tzinfo := None |}) [])
      as (_ & rec & Hin & Hrec & Hlv & _); [reflexivity | vm_compute; by split |].
    exists rec. split_and!; [exact Hin | | exact Hlv]. by destruct Hrec as [-> _].
  - destruct (_recommend_projects ticking_runtime default_settings default_engine
                project_user_data empty_world) as [[recs | e] w'] eqn:Hrun;
      [| vm_compute in Hrun; discriminate].
    destruct (second_day_deadline_is_critical ticking_runtime default_settings
                default_engine project_user_data empty_world recs w' eq_refl)
      as [_ Hprojects].
    destruct (Hprojects Hrun [] (sample_project second_day_deadline) [])
      as (_ & [Hnone | (rec & Hin & Hrec & Hlv & _)]);
      [reflexivity | reflexivity | vm_compute; by split | vm_compute in Hnone; discriminate |].
    exists rec. split_and!; [exact Hin | | exact Hlv]. by destruct Hrec as [-> _].
Defined.

(** C6, as stated, fails.  The candidate of a selection due within three
    days is not emitted whatever its score: with the weights -3, 0, 0, 4 its
    total score is -5, the validation of the item refuses it and the
    generator raises; and with the default weights the selection loses its
    candidate when the catalogue holds an entry without ["id"]. *)
Lemma urgent_candidate_not_emitted :
  days_to_deadline ticking_runtime 0 second_day_deadline = 1
  /\ (course_urgent_score skewed_engine 1 == -5)%Q
  /\ (_recommend_courses ticking_runtime default_settings skewed_engine
        second_day_user_data empty_world).1 = Raise validation_error
  /\ returned_items (_recommend_courses ticking_runtime default_settings skewed_engine
                       second_day_user_data empty_world) = []
  /\ (_recommend_courses ticking_runtime default_settings default_engine
        broken_catalog_user_data empty_world).1 = Raise (Exn KeyError "'id'")
  /\ returned_items (_recommend_courses ticking_runtime default_settings default_engine
                       broken_catalog_user_data empty_world) = [].
Proof.
  split_and!; vm_compute; reflexivity.
Qed.

(** On a clock that advances, the fixture of the repository's course test:
    the generator returns, and the selection due two days after a first
    reading of the clock has its candidate. *)
Lemma course_generator_emission_witness :
  exists recs w' rec,
    _recommend_courses ticking_runtime default_settings default_engine
      fixture_user_data after_fixture = (Ok recs, w')
    /\ rec ∈ recs
    /\ RecommendationItem.type rec = COURSE_URGENT
    /\ RecommendationItem.id rec = "course_urgent_1".
Proof.
  destruct (course_generator_emission ticking_runtime default_settings default_engine
              fixture_user_data after_fixture) as [Hrules Hreturns].
  destruct Hreturns as (recs & w' & Hrun).
  - vm_compute. repeat split; congruence.
  - repeat constructor; by eexists.
  - destruct (Hrules recs w' Hrun) as [Hurgent _].
    destruct (Hurgent []
                (sample_selection {| wall := 0 + timedelta_of_days 2; tzinfo := None |}) [])
      as (rec & Hin & Hid & Hty & _); [reflexivity | vm_compute; congruence |].
    by exists recs, w', rec.
Defined.

(** With the default weights no catalogue course reaches the threshold:
    the total score of a course-popular candidate is at most 58. *)
Lemma course_popular_score_default (finish : Z) :
  (course_popular_score default_engine finish <= 58)%Q.
Proof.
  unfold course_popular_score, _calculate_total_score.
  eapply Qle_trans; [apply py_min_le_l |].
  assert (inject_Z (60 + Z.min (finish * 2) 30) <= 90)%Q as Himp.
  { change 90%Q with (inject_Z 90). rewrite <- Zle_Qle. lia. }
  change (w_urgency (algorithm_weights default_engine)) with 0.35%Q.
  change (w_importance (algorithm_weights default_engine)) with 0.30%Q.
  change (w_personal_fit (algorithm_weights default_engine)) with 0.25%Q.
  change (w_growth_value (algorithm_weights default_engine)) with 0.10%Q.
  change (inject_Z 30) with 30%Q. change (inject_Z 50) with 50%Q.
  change (inject_Z 80) with 80%Q.
  lra.
Qed.

(** ** The scenario of a course due in two days *)

(** C3, as stated, fails: with the default weights the sub-scores 85, 85,
    90 and 70 give 84.75, half a point from 84.25 and outside the tolerance
    of 0.01 the tests of the repository use. *)
Lemma total_score_not_84_25 :
  (_calculate_total_score default_engine 85 85 90 70 == 84.75)%Q
  /\ (Qabs (_calculate_total_score default_engine 85 85 90 70 - 84.25) == 0.5)%Q
  /\ ~ (Qabs (_calculate_total_score default_engine 85 85 90 70 - 84.25) < 0.01)%Q.
Proof. split_and!; vm_compute; congruence. Qed.

(** C3, amended: for a user whose one course selection has two whole days
    left, under the default weights 0.35/0.30/0.25/0.10 and thresholds
    (critical at most 24 h, high at most 72 h), the generator emits one
    candidate, with sub-scores urgency 85, importance 85, fit 90 and growth
    70, total score 84.75 and urgency level high. *)
Theorem course_due_in_two_days (rt : Runtime) (user_data : UserData)
    (selection : CourseSelection.t) (w : World) :
  selections user_data = [selection] ->
  all_courses user_data = [] ->
  days_to_deadline rt (reads w) (CourseSelection.deadline selection) = 2 ->
  exists rec w',
    _recommend_courses rt default_settings default_engine user_data w = (Ok [rec], w')
    /\ (RecommendationItem.urgency rec == 85)%Q
    /\ (RecommendationItem.importance rec == 85)%Q
    /\ (RecommendationItem.personal_fit rec == 90)%Q
    /\ (RecommendationItem.growth_value rec == 70)%Q
    /\ (RecommendationItem.score rec == 84.75)%Q
    /\ RecommendationItem.urgency_level rec = Some HIGH.
Proof.
  intros Hsel Hcat Hdays.
  destruct (course_urgent_step_run rt default_settings default_engine selection [] w)
    as [[Hlate _] | (_ & rec & Hrec & Hstep)]; [lia |].
  assert (scores_valid rec = true) as Hvalid.
  { eapply course_urgent_valid; [| exact Hrec]. vm_compute. repeat split; congruence. }
  rewrite Hvalid in Hstep.
  exists rec, (tick (tick w)). split.
  - unfold _recommend_courses. rewrite Hsel, Hcat. cbn [for_each].
    rewrite (bind_Ok _ _ w (tick (tick w)) [rec]); [reflexivity |].
    by rewrite (bind_Ok _ _ _ _ _ Hstep).
  - rewrite Hdays in Hrec.
    destruct Hrec as (_ & _ & -> & -> & -> & -> & -> & _ & ->).
    split_and!; vm_compute; congruence.
Qed.

Lemma course_due_in_two_days_witness :
  exists rec w',
    _recommend_courses still_runtime default_settings default_engine
      third_day_user_data empty_world = (Ok [rec], w')
    /\ (RecommendationItem.score rec == 84.75)%Q
    /\ RecommendationItem.urgency_level rec = Some HIGH.
Proof.
  destruct (course_due_in_two_days still_runtime third_day_user_data
              (sample_selection third_day_deadline) empty_world)
    as (rec & w' & Hrun & _ & _ & _ & _ & Hscore & Hlevel);
    [reflexivity | reflexivity | vm_compute; reflexivity |].
  by exists rec, w'.
Defined.

(** ** The orchestration *)

Section Orchestration.

Variable rt : Runtime.
Variable settings : Settings.
Variable api_gather : Z -> string -> res Gathered.
Variable self : RecommendationEngine.

Lemma get_mock_user_data_returns user_id token w :
  exists user_data w', _get_mock_user_data rt user_id token w = (Ok user_data, w').
Proof.
  cbv [_get_mock_user_data bind datetime_now log_warning log_info logger ret].
  eexists; eexists. reflexivity.
Qed.

Lemma log_api_failure_returns {A} (i : Z) (result : res A) w :
  exists w', log_api_failure i result w = (Ok tt, w').
Proof. destruct result; eexists; reflexivity. Qed.

(** With the real provider and a gathering that returns, the user's data
    hold each fetched value, or the default where the fetch failed. *)
Lemma fetch_user_data_defaults user_id token results w :
  use_mock_data settings = false ->
  api_gather user_id token = Ok results ->
  exists user_data w',
    _fetch_user_data rt settings api_gather self user_id token w = (Ok user_data, w')
    /\ value_or_default (results_0 results) [] (selections user_data)
    /\ value_or_default (results_1 results) [] (all_courses user_data)
    /\ value_or_default (results_2 results) [] (projects user_data)
    /\ value_or_default (results_3 results) None (goal user_data)
    /\ value_or_default (results_4 results) [] (reports user_data).
Proof.
  intros Hmock Hgather. unfold _fetch_user_data. rewrite Hmock.
  rewrite bind_unfold. cbn [log_info logger].
  unfold try_except. rewrite bind_unfold. unfold lift_res at 1. rewrite Hgather.
  destruct (log_api_failure_returns 0 (results_0 results) (World_log
    {| level := INFO; message := "从真实自塾API获取用户" ++ pretty user_id ++ "数据" |} w))
    as [w0 H0].
  rewrite (bind_Ok _ _ _ _ _ H0).
  destruct (log_api_failure_returns 1 (results_1 results) w0) as [w1 H1].
  rewrite (bind_Ok _ _ _ _ _ H1).
  destruct (log_api_failure_returns 2 (results_2 results) w1) as [w2 H2].
  rewrite (bind_Ok _ _ _ _ _ H2).
  destruct (log_api_failure_returns 3 (results_3 results) w2) as [w3 H3].
  rewrite (bind_Ok _ _ _ _ _ H3).
  destruct (log_api_failure_returns 4 (results_4 results) w3) as [w4 H4].
  rewrite (bind_Ok _ _ _ _ _ H4).
  eexists; eexists. split; [reflexivity |]. cbn [selections all_courses projects goal reports].
  unfold value_or_default, value_or.
  split_and!;
    [ by destruct (results_0 results) | by destruct (results_1 results)
    | by destruct (results_2 results) | by destruct (results_3 results)
    | by destruct (results_4 results) ].
Qed.

(** Fetching never raises: what fails is replaced or the mock data step in. *)
Lemma fetch_user_data_returns user_id token w :
  exists user_data w',
    _fetch_user_data rt settings api_gather self user_id token w = (Ok user_data, w').
Proof.
  destruct (use_mock_data settings) eqn:Hmock.
  - unfold _fetch_user_data. rewrite Hmock. rewrite bind_unfold. cbn [log_warning logger].
    apply get_mock_user_data_returns.
  - destruct (api_gather user_id token) as [results | e] eqn:Hgather.
    + destruct (fetch_user_data_defaults user_id token results w Hmock Hgather)
        as (user_data & w' & Hrun & _). eauto.
    + unfold _fetch_user_data. rewrite Hmock. rewrite bind_unfold. cbn [log_info logger].
      unfold try_except. rewrite bind_unfold. unfold lift_res at 1. rewrite Hgather.
      rewrite bind_unfold. cbn [log_error logger]. rewrite bind_unfold.
      cbn [log_warning logger].
      apply get_mock_user_data_returns.
Qed.

Lemma generate_try_length user_id token w recs w' :
  generate_recommendations_try rt settings api_gather self user_id token w = (Ok recs, w') ->
  (length recs <= 3)%nat.
Proof.
  unfold generate_recommendations_try. intros Hrun.
  apply bind_Ok_inv in Hrun as (user_data & w1 & _ & Hrun).
  apply bind_Ok_inv in Hrun as (course_recs & w2 & _ & Hrun).
  apply bind_Ok_inv in Hrun as (project_recs & w3 & _ & Hrun).
  apply bind_Ok_inv in Hrun as (system_recs & w4 & _ & Hrun).
  cbv zeta in Hrun.
  apply bind_Ok_inv in Hrun as (u & w5 & _ & Hrun).
  injection Hrun as <- _. apply select_top3_length.
Qed.

(** C2: for every user, whatever the upstream provider does and whatever
    happens inside the orchestration, [generate_recommendations] returns a
    list, of at most 3 recommendations, and never raises.  If the block
    under [try] raises, the list is empty and the failure is logged.
    Fetching the user's data never raises either, and with the real
    provider each of the five fetches that failed is replaced by its empty
    or absent default, the others passing through. *)
Theorem generate_recommendations_never_raises user_id token w :
  (exists recs w',
     generate_recommendations rt settings api_gather self user_id token w = (Ok recs, w')
     /\ (length recs <= 3)%nat)
  /\ (forall e w1,
        generate_recommendations_try rt settings api_gather self user_id token w
          = (Raise e, w1) ->
        generate_recommendations rt settings api_gather self user_id token w
          = (Ok [],
             World_log
               {| level := ERROR;
                  message := "生成推荐失败: 用户" ++ pretty user_id
                             ++ ", 错误: " ++ exn_str e |} w1))
  /\ (exists user_data w1,
        _fetch_user_data rt settings api_gather self user_id token w = (Ok user_data, w1))
  /\ (use_mock_data settings = false ->
      forall results, api_gather user_id token = Ok results ->
      exists user_data w1,
        _fetch_user_data rt settings api_gather self user_id token w = (Ok user_data, w1)
        /\ value_or_default (results_0 results) [] (selections user_data)
        /\ value_or_default (results_1 results) [] (all_courses user_data)
        /\ value_or_default (results_2 results) [] (projects user_data)
        /\ value_or_default (results_3 results) None (goal user_data)
        /\ value_or_default (results_4 results) [] (reports user_data)).
Proof.
  split_and!.
  - unfold generate_recommendations, try_except.
    destruct (generate_recommendations_try rt settings api_gather self user_id token w)
      as [[recs | e] w1] eqn:Htry.
    + exists recs, w1. split; [done |]. by eapply generate_try_length.
    + eexists; eexists. split; [reflexivity |]. simpl. lia.
  - intros e w1 Htry. unfold generate_recommendations, try_except. rewrite Htry.
    reflexivity.
  - apply fetch_user_data_returns.
  - intros Hmock results Hgather. by apply fetch_user_data_defaults.
Qed.

End Orchestration.

(** All five fetches failing: every slot becomes its default and the
    recommendations are empty, without an exception having been raised. *)
Lemma generate_recommendations_never_raises_witness :
  (exists user_data w1,
     _fetch_user_data still_runtime default_settings api_all_fail default_engine
       51 "test_token" empty_world = (Ok user_data, w1)
     /\ selections user_data = [] /\ all_courses user_data = []
     /\ projects user_data = [] /\ goal user_data = None /\ reports user_data = [])
  /\ (generate_recommendations still_runtime default_settings api_all_fail default_engine
        51 "test_token" empty_world).1 = Ok [].
Proof.
  split; [| vm_compute; reflexivity].
  destruct (generate_recommendations_never_raises still_runtime default_settings
              api_all_fail default_engine 51 "test_token" empty_world)
    as (_ & _ & _ & Hdefaults).
  destruct (Hdefaults eq_refl _ eq_refl)
    as (user_data & w1 & Hrun & H0 & H1 & H2 & H3 & H4).
  by exists user_data, w1.
Defined.

(** A failure inside the orchestration: the catalogue entry lacks its
    ["id"], the course generator raises [KeyError], and the caller gets the
    empty list. *)
Example generate_recommendations_hard_failure :
  (generate_recommendations_try still_runtime default_settings api_malformed_catalog
     default_engine 51 "test_token" empty_world).1 = Raise (Exn KeyError "'id'")
  /\ (generate_recommendations still_runtime default_settings api_malformed_catalog
        default_engine 51 "test_token" empty_world).1 = Ok [].
Proof. split; vm_compute; reflexivity. Qed.

(** ** The cache store *)

Section After.

Context {St : Type}.

Lemma after_ret {A} (P : St -> Prop) (a : A) : after P (ret a) P.
Proof. by intros st HP. Qed.

Lemma after_raise {A} (P : St -> Prop) (e : exn) : after P (@raise St A e) P.
Proof. by intros st HP. Qed.

Lemma after_lift_res {A} (P : St -> Prop) (r : res A) : after P (lift_res r) P.
Proof. by intros st HP. Qed.

Lemma after_get_state (P : St -> Prop) : after P get_state P.
Proof. by intros st HP. Qed.

Lemma after_bind {A B} (P Q : St -> Prop) (m : prog St A) (k : A -> prog St B) :
  after P m Q -> (forall a, after Q (k a) Q) -> after P (bind m k) Q.
Proof.
  intros Hm Hk st HP. specialize (Hm st HP). rewrite bind_unfold.
  destruct (m st) as [[a | e] st1]; [by apply Hk | done].
Qed.

Lemma after_try_except {A} (P Q : St -> Prop) (m : prog St A) (h : exn -> prog St A) :
  after P m Q -> (forall e, after Q (h e) Q) -> after P (try_except m h) Q.
Proof.
  intros Hm Hh st HP. specialize (Hm st HP). unfold try_except.
  destruct (m st) as [[a | e] st1]; [done | by apply Hh].
Qed.

Lemma after_for_each {A S} (P : St -> Prop) (body : A -> S -> prog St S) (l : list A) :
  (forall x acc, after P (body x acc) P) -> forall acc, after P (for_each body l acc) P.
Proof.
  intros Hbody. induction l as [| x l IH]; intros acc; [apply after_ret |].
  apply after_bind; [apply Hbody | apply IH].
Qed.

End After.

Section CacheProperties.

Context {R : Type} `{RedisClient R}.
Variable from_url : nat -> string -> res R.
Variable Value : Type.
Variable json_dumps : option Value -> res string.
Variable json_loads : string -> res (option Value).

Implicit Types (st : CacheState R) (n k : nat).

Lemma degradation_signals_snoc (l : list LogRecord) (r : LogRecord) :
  degradation_signals (l ++ [r])
  = (degradation_signals l + if is_degradation_signal r then 1 else 0)%nat.
Proof.
  unfold degradation_signals. rewrite List.filter_app, length_app. simpl.
  by destruct (is_degradation_signal r).
Qed.

Lemma fallback_of_Some st :
  is_Some (fallback_of st) -> exists c, redis (service st) = Some (Fallback c).
Proof.
  unfold fallback_of. intros [m Hm].
  destruct (redis (service st)) as [[r | c] |]; try discriminate. by exists c.
Qed.

(** Logging anything but the degradation warning leaves a degraded
    service, and an unconnected one, as they are. *)
Lemma logger_degraded n k lv msg :
  is_degradation_signal {| level := lv; message := msg |} = false ->
  after (degraded n k) (@cache_logger R lv msg) (degraded n k).
Proof.
  intros Hq st (Hf & Hn & Hk). unfold degraded, cache_logger, logger, CacheState_log.
  cbn [snd cache_log attempts]. unfold fallback_of in *. cbn [service].
  rewrite degradation_signals_snoc, Hq. split_and!; [done | done | lia].
Qed.

Lemma logger_unconnected n k lv msg :
  is_degradation_signal {| level := lv; message := msg |} = false ->
  after (unconnected from_url n k) (@cache_logger R lv msg) (unconnected from_url n k).
Proof.
  intros Hq st (Hr & Hn & Hk & Hfail).
  unfold unconnected, cache_logger, logger, CacheState_log.
  cbn [snd cache_log attempts service].
  rewrite degradation_signals_snoc, Hq. split_and!; [done | done | lia | done].
Qed.

(** A call on the fallback leaves the service on its fallback. *)
Lemma on_redis_degraded {A} n k (on_real : prog R A) (on_fallback : prog InMemoryCache A) :
  after (degraded n k) (on_redis (run_backend on_real on_fallback)) (degraded n k).
Proof.
  intros st (Hf & Hn & Hk). destruct (fallback_of_Some st Hf) as [c Hc].
  unfold on_redis. rewrite Hc. cbn [run_backend].
  destruct (on_fallback c) as [a c']. unfold degraded, fallback_of.
  cbn [snd cache_log attempts service redis]. eauto.
Qed.

Lemma make_key_degraded n k key : after (degraded n k) (@make_key R key) (degraded n k).
Proof. by intros st HP. Qed.

(** A degraded service makes no further connection attempt. *)
Lemma get_redis_degraded n k : after (degraded n k) (_get_redis from_url) (degraded n k).
Proof.
  intros st HP. destruct (fallback_of_Some st (proj1 HP)) as [c Hc].
  unfold _get_redis. rewrite bind_unfold. cbn [get_state]. rewrite Hc. exact HP.
Qed.

(** The failed attempt: one attempt more, one signal more, and the
    fallback in place. *)
Lemma get_redis_unconnected n k :
  after (unconnected from_url n k) (_get_redis from_url) (degraded (S n) (S k)).
Proof.
  intros st (Hr & Hn & Hk & Hfail).
  unfold _get_redis. rewrite bind_unfold. cbn [get_state]. rewrite Hr.
  unfold try_except. rewrite bind_unfold. unfold connect at 1. rewrite Hn.
  destruct (from_url n (redis_url (service st))) as [r | e]; [discriminate |].
  unfold degraded, fallback_of, cache_logger, logger, InMemoryCache_init, set_redis,
    cache_logger, logger, CacheState_log, bind, ret.
  cbn [snd cache_log attempts service redis].
  rewrite !degradation_signals_snoc. cbn [is_degradation_signal level message].
  rewrite String.eqb_refl. split_and!; [by eexists | done | lia].
Qed.

(** Every method starts by [_get_redis] and goes on with the object in
    [self.redis]: whatever state [_get_redis] is called in, if it leaves the
    service degraded, the method leaves it so. *)
Ltac after_step :=
  first
    [ apply after_ret
    | apply after_raise
    | apply after_lift_res
    | apply make_key_degraded
    | apply on_redis_degraded
    | apply logger_degraded; reflexivity
    | apply after_bind; [| intros ?]
    | apply after_try_except; [| intros ?]
    | match goal with
      | |- after _ (if ?b then _ else _) _ => destruct b
      | |- after _ (match ?l with [] => _ | _ :: _ => _ end) _ => destruct l
      end ].

Ltac method_after :=
  apply after_try_except;
  [ apply after_bind; [eassumption | intros ?] | intros ? ];
  repeat after_step.

Lemma get_after (P : CacheState R -> Prop) n k key :
  after P (_get_redis from_url) (degraded n k) ->
  after P (CacheService_get from_url Value json_loads key) (degraded n k).
Proof. intros Hget. unfold CacheService_get. method_after. Qed.

Lemma set_after (P : CacheState R -> Prop) n k key value ttl :
  after P (_get_redis from_url) (degraded n k) ->
  after P (CacheService_set from_url Value json_dumps key value ttl) (degraded n k).
Proof. intros Hget. unfold CacheService_set. method_after. Qed.

Lemma delete_after (P : CacheState R -> Prop) n k key :
  after P (_get_redis from_url) (degraded n k) ->
  after P (CacheService_delete from_url key) (degraded n k).
Proof. intros Hget. unfold CacheService_delete. method_after. Qed.

Lemma exists_after (P : CacheState R -> Prop) n k key :
  after P (_get_redis from_url) (degraded n k) ->
  after P (CacheService_exists from_url key) (degraded n k).
Proof. intros Hget. unfold CacheService_exists. method_after. Qed.

Lemma clear_pattern_after (P : CacheState R -> Prop) n k pattern :
  after P (_get_redis from_url) (degraded n k) ->
  after P (CacheService_clear_pattern from_url pattern) (degraded n k).
Proof. intros Hget. unfold CacheService_clear_pattern. method_after. Qed.

Lemma cleanup_degraded n k :
  after (degraded n k) (_cleanup_expired_cache from_url) (degraded n k).
Proof.
  unfold _cleanup_expired_cache. cbv zeta.
  apply after_bind; [by apply logger_degraded | intros _].
  apply after_try_except; [| intros e; by apply logger_degraded].
  apply after_bind; [| intros c; by apply logger_degraded].
  apply clear_pattern_after, get_redis_degraded.
Qed.

(** The logger returns: what follows it starts where it ends. *)
Lemma after_logger_then {A} (P P' Q : CacheState R -> Prop) lv msg
    (m : prog (CacheState R) A) :
  after P (@cache_logger R lv msg) P' -> after P' m Q ->
  after P (cache_logger lv msg ;;; m) Q.
Proof. intros Hlog Hm st HP. rewrite bind_unfold. apply Hm, (Hlog st HP). Qed.

Lemma cleanup_unconnected n k :
  after (unconnected from_url n k) (_cleanup_expired_cache from_url) (degraded (S n) (S k)).
Proof.
  unfold _cleanup_expired_cache. cbv zeta.
  eapply after_logger_then; [by apply logger_unconnected |].
  apply after_try_except; [| intros e; by apply logger_degraded].
  apply after_bind; [| intros c; by apply logger_degraded].
  apply clear_pattern_after, get_redis_unconnected.
Qed.

Lemma run_call_degraded n k c :
  after (degraded n k) (run_call from_url Value json_dumps json_loads c) (degraded n k).
Proof.
  destruct c; cbn [run_call]; try apply cleanup_degraded;
    (apply after_bind; [| intros; apply after_ret]).
  - apply get_after, get_redis_degraded.
  - apply set_after, get_redis_degraded.
  - apply delete_after, get_redis_degraded.
  - apply exists_after, get_redis_degraded.
  - apply clear_pattern_after, get_redis_degraded.
Qed.

Lemma run_call_unconnected n k c :
  after (unconnected from_url n k) (run_call from_url Value json_dumps json_loads c)
    (degraded (S n) (S k)).
Proof.
  destruct c; cbn [run_call]; try apply cleanup_unconnected;
    (apply after_bind; [| intros; apply after_ret]).
  - apply get_after, get_redis_unconnected.
  - apply set_after, get_redis_unconnected.
  - apply delete_after, get_redis_unconnected.
  - apply exists_after, get_redis_unconnected.
  - apply clear_pattern_after, get_redis_unconnected.
Qed.

(** However many calls follow the failed attempt, there is one attempt
    and one signal. *)
Lemma run_calls_unconnected n k calls :
  calls <> [] ->
  after (unconnected from_url n k) (run_calls from_url Value json_dumps json_loads calls)
    (degraded (S n) (S k)).
Proof.
  destruct calls as [| c calls]; [done |]. intros _.
  unfold run_calls. cbn [for_each].
  apply after_bind; [apply run_call_unconnected |].
  intros []. apply after_for_each. intros c' []. apply run_call_degraded.
Qed.

(** *** The methods never raise *)

Lemma logged_handler_returns {A} (m : prog (CacheState R) A) lv (msg : exn -> string)
    (dflt : A) st :
  exists a st', try_except m (fun e => cache_logger lv (msg e) ;;; ret dflt) st = (Ok a, st').
Proof.
  apply try_except_returns. intros e st1.
  cbv [bind cache_logger logger ret]. eauto.
Qed.

Lemma then_ret_returns {A} (m : prog (CacheState R) A) st :
  (exists a st', m st = (Ok a, st')) -> exists st', (m ;;; ret tt) st = (Ok tt, st').
Proof. intros (a & st' & E). exists st'. by rewrite (bind_Ok _ _ _ _ _ E). Qed.

Lemma get_returns key st :
  exists a st', CacheService_get from_url Value json_loads key st = (Ok a, st').
Proof. apply logged_handler_returns. Qed.

Lemma set_returns key value ttl st :
  exists a st', CacheService_set from_url Value json_dumps key value ttl st = (Ok a, st').
Proof. apply logged_handler_returns. Qed.

Lemma delete_returns key st :
  exists a st', CacheService_delete from_url key st = (Ok a, st').
Proof. apply logged_handler_returns. Qed.

Lemma exists_returns key st :
  exists a st', CacheService_exists from_url key st = (Ok a, st').
Proof. apply logged_handler_returns. Qed.

Lemma clear_pattern_returns pattern st :
  exists a st', CacheService_clear_pattern from_url pattern st = (Ok a, st').
Proof. apply logged_handler_returns. Qed.

Lemma cleanup_returns st :
  exists st', _cleanup_expired_cache from_url st = (Ok tt, st').
Proof.
  unfold _cleanup_expired_cache. cbv zeta. rewrite bind_unfold.
  cbn [cache_logger logger]. unfold try_except.
  destruct ((cleared_count <- CacheService_clear_pattern from_url "recommendations:*" ;;
             cache_logger INFO ("清理缓存完成: " ++ pretty cleared_count ++ " 个键")) _)
    as [[[] | e] st1]; [by eauto |].
  cbv [cache_logger logger]. eauto.
Qed.

Lemma run_call_returns c st :
  exists st', run_call from_url Value json_dumps json_loads c st = (Ok tt, st').
Proof.
  destruct c; cbn [run_call]; try apply then_ret_returns.
  - apply get_returns.
  - apply set_returns.
  - apply delete_returns.
  - apply exists_returns.
  - apply clear_pattern_returns.
  - apply cleanup_returns.
Qed.

Lemma run_calls_returns calls st :
  exists st', run_calls from_url Value json_dumps json_loads calls st = (Ok tt, st').
Proof.
  unfold run_calls. revert st. induction calls as [| c calls IH]; intros st.
  - by exists st.
  - destruct (run_call_returns c st) as [st1 E1]. cbn [for_each].
    rewrite (bind_Ok _ _ _ _ _ E1). apply IH.
Qed.

(** *** Writing and reading on the fallback *)

Lemma get_redis_degraded_run st :
  is_Some (fallback_of st) -> _get_redis from_url st = (Ok tt, st).
Proof.
  intros Hf. destruct (fallback_of_Some st Hf) as [c Hc].
  unfold _get_redis. rewrite bind_unfold. cbn [get_state]. by rewrite Hc.
Qed.

Lemma get_redis_unconnected_run n k st :
  unconnected from_url n k st ->
  exists st0,
    _get_redis from_url st = (Ok tt, st0)
    /\ fallback_of st0 = Some ∅
    /\ prefix (service st0) = prefix (service st).
Proof.
  intros (Hr & Hn & Hk & Hfail).
  unfold _get_redis. rewrite bind_unfold. cbn [get_state]. rewrite Hr.
  unfold try_except. rewrite bind_unfold. unfold connect at 1. rewrite Hn.
  destruct (from_url n (redis_url (service st))) as [r | e]; [discriminate |].
  cbv [bind cache_logger logger InMemoryCache_init set_redis ret].
  eexists. split; [reflexivity |]. split; reflexivity.
Qed.

(** On a degraded service [set] stores the encoded value under the
    prefixed key, dropping the time to live, and [get] decodes what is
    stored there. *)
Lemma set_degraded st key value ttl data :
  is_Some (fallback_of st) ->
  json_dumps value = Ok data ->
  exists st1,
    CacheService_set from_url Value json_dumps key value ttl st = (Ok true, st1)
    /\ fallback_of st1
       = (fun m => <[_make_key (service st) key := data]> m) <$> fallback_of st
    /\ prefix (service st1) = prefix (service st).
Proof.
  intros Hf Hdumps. destruct (fallback_of_Some st Hf) as [c Hc].
  unfold CacheService_set, try_except.
  rewrite (bind_Ok _ _ _ _ _ (get_redis_degraded_run st Hf)).
  rewrite (bind_Ok _ _ st st (_make_key (service st) key)) by reflexivity.
  rewrite (bind_Ok _ _ st st data) by (unfold lift_res; by rewrite Hdumps).
  unfold fallback_of. rewrite Hc.
  destruct (ttl_truthy ttl);
    cbv [bind on_redis redis_setex redis_set Backend_client InMemoryCache_client
         run_backend InMemoryCache_setex InMemoryCache_set cache_logger logger ret];
    rewrite Hc; cbn [service redis prefix cache fmap option_fmap option_map];
    eexists; split_and!; reflexivity.
Qed.

Lemma get_degraded st key data v :
  cached st (_make_key (service st) key) = Some data ->
  str_truthy data = true ->
  json_loads data = Ok v ->
  exists st2,
    CacheService_get from_url Value json_loads key st = (Ok v, st2)
    /\ fallback_of st2 = fallback_of st.
Proof.
  unfold cached. intros Hcached Htruthy Hloads.
  destruct (fallback_of st) as [m |] eqn:Hm; [| discriminate]. cbn in Hcached.
  assert (is_Some (fallback_of st)) as Hf by (rewrite Hm; by eexists).
  destruct (fallback_of_Some st Hf) as [c Hc].
  assert (cache c = m) as Hcm by (unfold fallback_of in Hm; rewrite Hc in Hm; congruence).
  unfold CacheService_get, try_except.
  rewrite (bind_Ok _ _ _ _ _ (get_redis_degraded_run st Hf)).
  rewrite (bind_Ok _ _ st st (_make_key (service st) key)) by reflexivity.
  cbv [bind on_redis redis_get Backend_client InMemoryCache_client run_backend
       InMemoryCache_get]. rewrite Hc, Hcm, Hcached.
  cbn [opt_str_truthy get_default]. rewrite Htruthy. unfold lift_res. rewrite Hloads.
  eexists. split; [reflexivity |].
  unfold fallback_of. cbn [service redis]. by rewrite <- Hcm.
Qed.

Lemma set_unconnected_run n k st st0 key value ttl :
  _get_redis from_url st = (Ok tt, st0) ->
  is_Some (fallback_of st0) ->
  CacheService_set from_url Value json_dumps key value ttl st
  = CacheService_set from_url Value json_dumps key value ttl st0.
Proof.
  intros E0 Hf. unfold CacheService_set, try_except.
  rewrite (bind_Ok _ _ st st0 tt E0).
  by rewrite (bind_Ok _ _ st0 st0 tt (get_redis_degraded_run st0 Hf)).
Qed.

(** C7: when the connection attempt of a service fails (the call of
    [redis.from_url] raises), [set] still returns [True] and a following
    [get] returns the value, both served by the in-process fallback map, which
    keeps the entry whatever the time to live; and however many calls are
    made on the service, none of them raises, exactly one connection attempt
    is made and exactly one degradation warning is logged. *)
Theorem fallback_on_connection_failure (st : CacheState R) :
  redis (service st) = None ->
  is_exception (from_url (attempts st) (redis_url (service st))) = true ->
  (forall key value ttl data v,
     json_dumps value = Ok data -> str_truthy data = true -> json_loads data = Ok v ->
     exists st1 st2,
       CacheService_set from_url Value json_dumps key value ttl st = (Ok true, st1)
       /\ cached st1 (_make_key (service st) key) = Some data
       /\ CacheService_get from_url Value json_loads key st1 = (Ok v, st2))
  /\ (forall calls,
        calls <> [] ->
        exists st',
          run_calls from_url Value json_dumps json_loads calls st = (Ok tt, st')
          /\ is_Some (fallback_of st')
          /\ attempts st' = S (attempts st)
          /\ degradation_signals (cache_log st') = S (degradation_signals (cache_log st))).
Proof.
  intros Hnone Hfail.
  assert (unconnected from_url (attempts st) (degradation_signals (cache_log st)) st)
    as Hst by done.
  split.
  - intros key value ttl data v Hdumps Htruthy Hloads.
    destruct (get_redis_unconnected_run _ _ st Hst) as (st0 & E0 & Hf0 & Hprefix).
    assert (is_Some (fallback_of st0)) as Hsome by (rewrite Hf0; by eexists).
    destruct (set_degraded st0 key value ttl data Hsome Hdumps) as (st1 & E1 & Hf1 & Hp1).
    assert (_make_key (service st1) key = _make_key (service st) key) as Hkey
      by (unfold _make_key; by rewrite Hp1, Hprefix).
    assert (_make_key (service st0) key = _make_key (service st) key) as Hkey0
      by (unfold _make_key; by rewrite Hprefix).
    assert (cached st1 (_make_key (service st) key) = Some data) as Hcached.
    { unfold cached. rewrite Hf1, Hf0, Hkey0. cbn. apply lookup_insert_eq. }
    destruct (get_degraded st1 key data v) as (st2 & E2 & _); [by rewrite Hkey | done ..|].
    exists st1, st2. split_and!; [| done | done].
    by rewrite (set_unconnected_run (attempts st) (degradation_signals (cache_log st))
                  st st0 key value ttl E0 Hsome).
  - intros calls Hcalls.
    destruct (run_calls_returns calls st) as [st' E]. exists st'. split; [done |].
    pose proof (run_calls_unconnected _ _ calls Hcalls st Hst) as Hafter.
    rewrite E in Hafter. exact Hafter.
Qed.

End CacheProperties.

Lemma fallback_on_connection_failure_witness :
  (exists st1 st2,
     CacheService_set connection_refused string text_dumps
       "recommendations:user:51" (Some "top3") (Some 7200) fresh_cache = (Ok true, st1)
     /\ cached st1 "what_to_do:recommendations:user:51" = Some "stop3"
     /\ CacheService_get connection_refused string text_loads
          "recommendations:user:51" st1 = (Ok (Some "top3"), st2))
  /\ (exists st',
        run_calls connection_refused string text_dumps text_loads
          [CallGet "a"; CallSet "a" (Some "1") None; CallGet "a"; CallExists "a"] fresh_cache
        = (Ok tt, st')
        /\ is_Some (fallback_of st')
        /\ attempts st' = 1%nat
        /\ degradation_signals (cache_log st') = 1%nat).
Proof.
  destruct (fallback_on_connection_failure connection_refused string text_dumps text_loads
              fresh_cache eq_refl eq_refl) as [Hsetget Hcalls].
  split.
  - apply (Hsetget "recommendations:user:51" (Some "top3") (Some 7200) "stop3" (Some "top3"));
      reflexivity.
  - apply Hcalls. discriminate.
Defined.

(** ** The cache sweep *)

(** C8, on the fallback: an entry that does not match the recommendation
    pattern is there before the sweep and gone after it. *)
Lemma sweep_removes_unrelated_entry :
  cached (run_unreachable [CallSet "other_key" (Some "kept") None]) "what_to_do:other_key"
    = Some "skept"
  /\ cached (run_unreachable [CallSet "other_key" (Some "kept") None; CallCleanup])
       "what_to_do:other_key" = None.
Proof. split; vm_compute; reflexivity. Qed.

(** A recommendation entry just written, with two hours to live, is gone
    after the sweep. *)
Lemma sweep_removes_fresh_recommendations :
  cached (run_unreachable [CallSet "recommendations:user:51" (Some "top3") (Some 7200)])
    "what_to_do:recommendations:user:51" = Some "stop3"
  /\ cached (run_unreachable [CallSet "recommendations:user:51" (Some "top3") (Some 7200);
                              CallCleanup])
       "what_to_do:recommendations:user:51" = None.
Proof. split; vm_compute; reflexivity. Qed.

(** With two entries the sweep removes nothing: the fallback's [delete]
    takes one key, the call with two raises, and [clear_pattern] logs the
    error and returns 0. *)
Lemma sweep_of_two_entries_removes_nothing :
  let st := run_unreachable [CallSet "other_key" (Some "kept") None;
                             CallSet "recommendations:user:51" (Some "top3") (Some 7200);
                             CallCleanup] in
  cached st "what_to_do:other_key" = Some "skept"
  /\ cached st "what_to_do:recommendations:user:51" = Some "stop3"
  /\ last (cache_log st) = Some {| level := INFO; message := "清理缓存完成: 0 个键" |}.
Proof. cbv zeta. split_and!; vm_compute; reflexivity. Qed.

(** On the networked store, as modelled: the entry that does not match
    the pattern survives the sweep, the recommendation entry written a moment
    ago with two hours to live does not. *)
Lemma sweep_on_store_removes_fresh_recommendations :
  let written := [CallSet "other_key" (Some "kept") None;
                  CallSet "recommendations:user:51" (Some "top3") (Some 7200)] in
  stored (run_reachable written) "what_to_do:recommendations:user:51" = Some "stop3"
  /\ stored (run_reachable (written ++ [CallCleanup])) "what_to_do:recommendations:user:51"
     = None
  /\ stored (run_reachable (written ++ [CallCleanup])) "what_to_do:other_key"
     = Some "skept"
  /\ degradation_signals (cache_log (run_reachable (written ++ [CallCleanup]))) = 0%nat.
Proof. cbv zeta. split_and!; vm_compute; reflexivity. Qed.

(** ** The scorer in binary64 *)

(** On doubles the scenario of C3 gives 84.75 as well, and the weights of
    the counterexample to C4 give -100. *)
Lemma total_score_binary64_scenario :
  total_score_binary64 0.35 0.30 0.25 0.10 85 85 90 70 = 84.75%float
  /\ total_score_binary64 2 (-1) 0 0 0 100 0 0 = (-100)%float.
Proof. split; vm_compute; reflexivity. Qed.

(** ** The fixture of the repository's course test *)

(** The deadline of the fixture is two days after a reading of the clock
    that precedes the generator's: one whole day is left, the urgency
    sub-score is 95, the total 88.25, as the test asserts (above 70 and above
    80), and the level is critical. *)
Example test_recommend_courses :
  exists rec,
    returned_items (_recommend_courses ticking_runtime default_settings default_engine
                      fixture_user_data after_fixture) = [rec]
    /\ RecommendationItem.type rec = COURSE_URGENT
    /\ (RecommendationItem.urgency rec == 95)%Q
    /\ (RecommendationItem.score rec == 88.25)%Q
    /\ RecommendationItem.urgency_level rec = Some CRITICAL.
Proof.
  eexists. split; [vm_compute; reflexivity |].
  split_and!; vm_compute; congruence.
Qed.

(** The catalogue course of the fixture, with 8 completions, scores 53.8
    under the default weights and is not emitted; weighed by importance alone
    it scores 76 and is. *)
Example course_popular_gate :
  RecommendationItem.id <$>
    returned_items (_recommend_courses ticking_runtime default_settings default_engine
                      fixture_user_data after_fixture)
  = ["course_urgent_1"]
  /\ RecommendationItem.id <$>
       returned_items (_recommend_courses ticking_runtime default_settings
                         importance_engine fixture_user_data after_fixture)
     = ["course_urgent_1"; "course_popular_6"]
  /\ (course_popular_score default_engine 8 == 53.8)%Q
  /\ (course_popular_score importance_engine 8 == 76)%Q.
Proof. split_and!; vm_compute; congruence. Qed.

(** * Further properties *)

(** ** The scorer *)

(** X1: the urgency sub-score never grows with the days left: of two
    tasks of the same type the one with fewer days left scores at least as
    much. *)
Theorem urgency_score_antitone (d1 d2 : Z) (task_type : string) :
  d1 <= d2 ->
  _calculate_urgency_score d2 task_type <= _calculate_urgency_score d1 task_type.
Proof.
  intros Hd. unfold _calculate_urgency_score.
  destruct (String.eqb task_type "COURSE"); [| destruct (String.eqb task_type "PROJECT")];
    repeat match goal with
           | |- context [?a <=? ?b] => destruct (Z.leb_spec a b)
           end; lia.
Qed.

Lemma urgency_score_antitone_witness :
  _calculate_urgency_score 5 "COURSE" <= _calculate_urgency_score 2 "COURSE".
Proof. apply urgency_score_antitone. lia. Defined.

(** X2: the urgency level never gets less urgent as the hours left
    shrink, whatever the four thresholds are and in whatever order they
    stand. *)
Theorem urgency_level_antitone (settings : Settings) (h1 h2 : Z) :
  h1 <= h2 ->
  urgency_rank (_get_urgency_level settings h2) <= urgency_rank (_get_urgency_level settings h1).
Proof.
  intros Hh. unfold _get_urgency_level.
  repeat match goal with
         | |- context [?a <=? ?b] => destruct (Z.leb_spec a b)
         end; simpl; lia.
Qed.

Lemma urgency_level_antitone_witness :
  urgency_rank (_get_urgency_level default_settings 100)
  <= urgency_rank (_get_urgency_level default_settings 20).
Proof. apply urgency_level_antitone. lia. Defined.

Lemma py_min_mono (a a' b : Q) : (a <= a')%Q -> (py_min a b <= py_min a' b)%Q.
Proof.
  intros Ha. unfold py_min.
  destruct (Qlt_le_dec b a), (Qlt_le_dec b a'); lra.
Qed.

(** With non-negative weights the total score is monotone in the four
    sub-scores: raising a sub-score never lowers the total. *)
Theorem total_score_monotone self u i f g u' i' f' g' :
  weights_nonnegative self ->
  (u <= u')%Q -> (i <= i')%Q -> (f <= f')%Q -> (g <= g')%Q ->
  (_calculate_total_score self u i f g <= _calculate_total_score self u' i' f' g')%Q.
Proof.
  intros (Hu & Hi & Hf & Hg) Hu' Hi' Hf' Hg'.
  unfold _calculate_total_score. apply py_min_mono. nra.
Qed.

Lemma total_score_monotone_witness :
  (_calculate_total_score default_engine 85 85 90 70
   <= _calculate_total_score default_engine 95 85 90 70)%Q.
Proof.
  apply total_score_monotone.
  - vm_compute. repeat split; congruence.
  - vm_compute. congruence.
  - vm_compute. congruence.
  - vm_compute. congruence.
  - vm_compute. congruence.
Defined.

(** With non-negative weights that sum to one and sub-scores in
    [0, 100] the clamp at 100 is idle: the total score is the weighted sum
    itself. *)
Theorem total_score_is_weighted_sum self u i f g :
  weights_nonnegative self -> (weights_sum self == 1)%Q ->
  subscore u -> subscore i -> subscore f -> subscore g ->
  _calculate_total_score self u i f g = weighted_sum self u i f g.
Proof.
  intros Hnn Hsum Hu Hi Hf Hg. unfold _calculate_total_score, weighted_sum.
  apply py_min_id. by apply weighted_sum_le_100.
Qed.

Lemma total_score_is_weighted_sum_witness :
  _calculate_total_score default_engine 85 85 90 70 = weighted_sum default_engine 85 85 90 70.
Proof.
  apply total_score_is_weighted_sum.
  - vm_compute. repeat split; congruence.
  - vm_compute. reflexivity.
  - vm_compute. split; congruence.
  - vm_compute. split; congruence.
  - vm_compute. split; congruence.
  - vm_compute. split; congruence.
Defined.

(** X3: the fit score of a project is one of 50, 60, 65, 70, 75 and 85: it
    lies in [50, 85], so the cap at 95 is never reached; and it does not
    depend on the user. *)
Theorem project_fit_score_range (project : InnoProject.t) (user_data user_data' : UserData) :
  50 <= _calculate_project_fit_score project user_data <= 85
  /\ _calculate_project_fit_score project user_data ∈ [50; 60; 65; 70; 75; 85]
  /\ _calculate_project_fit_score project user_data
     = _calculate_project_fit_score project user_data'.
Proof.
  unfold _calculate_project_fit_score.
  cbv zeta.
  destruct (Qlt_le_dec 200 (bonus_or_0 project)), (Qlt_le_dec 100 (bonus_or_0 project)),
    (Qle_bool (InnoProject.planed_hour project) 10);
    (split; [simpl; lia | split; [simpl; set_solver | reflexivity]]).
Qed.

(** ** The Diversity Selector *)

Lemma RecommendationItem_eqb_type (a b : RecommendationItem.t) :
  RecommendationItem_eqb a b = true -> RecommendationItem.type a = RecommendationItem.type b.
Proof.
  unfold RecommendationItem_eqb.
  destruct (bool_decide_reflect (RecommendationItem.type a = RecommendationItem.type b))
    as [E | _]; [done |].
  by rewrite andb_false_r.
Qed.

Lemma pairwise_unequal_snoc (l : list RecommendationItem.t) (x : RecommendationItem.t) :
  pairwise_unequal l -> item_in x l = false -> pairwise_unequal (l ++ [x]).
Proof.
  unfold pairwise_unequal, item_in. induction 1 as [| a l Ha Hl IH]; intros Hx; simpl.
  - repeat constructor.
  - simpl in Hx. apply orb_false_iff in Hx as [Hxa Hxl].
    constructor; [| by apply IH].
    apply Forall_app. split; [done |]. by repeat constructor.
Qed.

Lemma pairwise_unequal_take (n : nat) (l : list RecommendationItem.t) :
  pairwise_unequal l -> pairwise_unequal (take n l).
Proof.
  unfold pairwise_unequal. intros Hl. revert n.
  induction Hl as [| a l Ha Hl IH]; intros [| n]; simpl; try constructor.
  - by apply Forall_take.
  - apply IH.
Qed.

(** Items of pairwise distinct categories are pairwise unequal. *)
Lemma distinct_categories_unequal (l : list RecommendationItem.t) :
  NoDup (rec_category <$> l) -> pairwise_unequal l.
Proof.
  unfold pairwise_unequal. induction l as [| a l IH]; simpl; [constructor |].
  intros Hnd. apply NoDup_cons in Hnd as [Ha Hnd].
  constructor; [| by apply IH].
  apply Forall_forall. intros b Hb.
  destruct (RecommendationItem_eqb b a) eqn:E; [| done].
  exfalso. apply Ha. apply RecommendationItem_eqb_type in E.
  apply list_elem_of_fmap. exists b. split; [| done].
  unfold rec_category. by rewrite E.
Qed.

Lemma fill_loop_unequal (l sel : list RecommendationItem.t) :
  pairwise_unequal sel -> pairwise_unequal (fill_loop l sel).
Proof.
  revert sel. induction l as [| rec l IH]; intros sel Hsel; cbn [fill_loop]; [done |].
  destruct (3 <=? length sel)%nat; [done |].
  destruct (item_in rec sel) eqn:Hin; apply IH; [done |].
  by apply pairwise_unequal_snoc.
Qed.

(** The result is made of items of the pool. *)
Lemma select_top3_elem_of (pool : list RecommendationItem.t) (x : RecommendationItem.t) :
  x ∈ _select_top3_with_diversity pool -> x ∈ pool.
Proof.
  unfold _select_top3_with_diversity. destruct pool as [| y pool]; [done |].
  set (sorted_recs := sorted_by_score (y :: pool)).
  destruct (diversity_loop_picks sorted_recs [] ∅) as (picks & -> & Hsub).
  destruct (fill_loop_picks sorted_recs ([] ++ picks)%list) as (picks' & -> & Hsub').
  intros Hx. apply (subseteq_take 3) in Hx.
  assert (x ∈ sorted_recs) as Hs.
  { apply elem_of_app in Hx as [Hx | Hx]; [| by eapply elem_of_sublist].
    simpl in Hx. by eapply elem_of_sublist. }
  unfold sorted_recs in Hs. by rewrite sorted_by_score_perm in Hs.
Qed.

(** X4: the selector invents nothing and repeats nothing: every item of
    the result is an item of the pool, and no item of the result is [==] to
    an earlier one. *)
Theorem select_top3_picks_no_duplicates (pool : list RecommendationItem.t) :
  (forall x, x ∈ _select_top3_with_diversity pool -> x ∈ pool)
  /\ pairwise_unequal (_select_top3_with_diversity pool).
Proof.
  split; [apply select_top3_elem_of |].
  unfold _select_top3_with_diversity. destruct pool as [| y pool]; [constructor |].
  apply pairwise_unequal_take, fill_loop_unequal, distinct_categories_unequal.
  apply (diversity_loop_diverse _ [] ∅ diverse_nil).
Qed.

Lemma sorted_by_score_head (pool : list RecommendationItem.t) :
  pool <> [] ->
  exists best rest,
    sorted_by_score pool = best :: rest
    /\ forall y, y ∈ pool ->
         (RecommendationItem.score y <= RecommendationItem.score best)%Q.
Proof.
  intros Hne.
  pose proof (sorted_by_score_perm pool) as Hperm.
  pose proof (sorted_by_score_sorted pool) as Hsorted.
  destruct (sorted_by_score pool) as [| best rest].
  { apply Permutation_nil in Hperm. by subst. }
  exists best, rest. split; [done |].
  intros y Hy. rewrite <- Hperm in Hy.
  apply StronglySorted_inv in Hsorted as [_ Hrest].
  apply elem_of_cons in Hy as [-> | Hy]; [apply Qle_refl |].
  rewrite Forall_forall in Hrest. by apply Hrest.
Qed.

Lemma select_top3_head (pool : list RecommendationItem.t) best rest :
  pool <> [] -> sorted_by_score pool = best :: rest ->
  exists others, _select_top3_with_diversity pool = best :: others.
Proof.
  intros Hne Hsorted. unfold _select_top3_with_diversity.
  destruct pool as [| y pool]; [done |]. rewrite Hsorted.
  cbn [diversity_loop length Nat.leb].
  destruct (decide (rec_category best ∈ (∅ : gset string))) as [Hin | _]; [set_solver |].
  destruct (diversity_loop_picks rest ([] ++ [best])%list (∅ ∪ {[rec_category best]}))
    as (picks & -> & _).
  destruct (fill_loop_picks (best :: rest) (([] ++ [best]) ++ picks)%list) as (picks' & -> & _).
  simpl. by eexists.
Qed.

(** X5: the best candidate comes first: from a non-empty pool the
    selector returns at least one item, and the first item of the result has
    the highest score of the pool. *)
Theorem select_top3_best_first (pool : list RecommendationItem.t) :
  pool <> [] ->
  exists best others,
    _select_top3_with_diversity pool = best :: others
    /\ best ∈ pool
    /\ forall y, y ∈ pool ->
         (RecommendationItem.score y <= RecommendationItem.score best)%Q.
Proof.
  intros Hne.
  destruct (sorted_by_score_head pool Hne) as (best & rest & Hsorted & Hbest).
  destruct (select_top3_head pool best rest Hne Hsorted) as [others E].
  exists best, others. split_and!; [done | | done].
  apply select_top3_elem_of. rewrite E. left.
Qed.

Lemma select_top3_best_first_witness :
  exists best others,
    _select_top3_with_diversity test_pool = best :: others
    /\ best ∈ test_pool
    /\ forall y, y ∈ test_pool ->
         (RecommendationItem.score y <= RecommendationItem.score best)%Q.
Proof. apply select_top3_best_first. discriminate. Defined.

(** Raising one candidate's score above all the others makes it the
    first selected item. *)
Theorem select_top3_strict_best_first (pool : list RecommendationItem.t)
    (x : RecommendationItem.t) :
  x ∈ pool ->
  (forall y, y ∈ pool ->
     y = x \/ (RecommendationItem.score y < RecommendationItem.score x)%Q) ->
  head (_select_top3_with_diversity pool) = Some x.
Proof.
  intros Hx Hbest.
  assert (pool <> []) as Hne by (intros ->; by apply elem_of_nil in Hx).
  destruct (sorted_by_score_head pool Hne) as (best & rest & Hsorted & Hmax).
  destruct (select_top3_head pool best rest Hne Hsorted) as [others E].
  rewrite E. simpl. f_equal.
  assert (best ∈ pool) as Hin by (apply select_top3_elem_of; rewrite E; left).
  destruct (Hbest best Hin) as [-> | Hlt]; [done |].
  specialize (Hmax x Hx). lra.
Qed.

Lemma select_top3_strict_best_first_witness :
  head (_select_top3_with_diversity test_pool) = Some (sample_item "1" COURSE_URGENT 95).
Proof.
  apply select_top3_strict_best_first.
  - unfold test_pool. left.
  - intros y Hy. unfold test_pool in Hy.
    repeat (apply elem_of_cons in Hy as [-> | Hy]);
      [by left | right; by vm_compute .. | by apply elem_of_nil in Hy].
Defined.

(** ** The cache store *)

Section CacheFurther.

Context {R : Type} `{RedisClient R}.
Variable from_url : nat -> string -> res R.
Variable Value : Type.
Variable json_dumps : option Value -> res string.
Variable json_loads : string -> res (option Value).

Implicit Types (st : CacheState R) (n k : nat).

(** X6: no method of the cache service raises, whatever state the service
    is in and whatever the client, the connection attempt and the JSON codec
    do; neither does the sweep. *)
Theorem cache_methods_never_raise st :
  (forall key, exists a st',
     CacheService_get from_url Value json_loads key st = (Ok a, st'))
  /\ (forall key value ttl, exists a st',
        CacheService_set from_url Value json_dumps key value ttl st = (Ok a, st'))
  /\ (forall key, exists a st', CacheService_delete from_url key st = (Ok a, st'))
  /\ (forall key, exists a st', CacheService_exists from_url key st = (Ok a, st'))
  /\ (forall pattern, exists a st',
        CacheService_clear_pattern from_url pattern st = (Ok a, st'))
  /\ (exists st', _cleanup_expired_cache from_url st = (Ok tt, st')).
Proof.
  split_and!; intros.
  - apply get_returns.
  - apply set_returns.
  - apply delete_returns.
  - apply exists_returns.
  - apply clear_pattern_returns.
  - apply cleanup_returns.
Qed.

(** *** After a successful connection *)

Lemma logger_connected n k lv msg :
  is_degradation_signal {| level := lv; message := msg |} = false ->
  after (connected n k) (@cache_logger R lv msg) (connected n k).
Proof.
  intros Hq st (Hr & Hn & Hk). unfold connected, cache_logger, logger, CacheState_log.
  cbn [snd cache_log attempts service].
  rewrite degradation_signals_snoc, Hq. split_and!; [done | done | lia].
Qed.

(** A call on the client leaves the service on its client, whether the
    call returns or raises. *)
Lemma on_redis_connected {A} n k (on_real : prog R A) (on_fallback : prog InMemoryCache A) :
  after (connected n k) (on_redis (run_backend on_real on_fallback)) (connected n k).
Proof.
  intros st ([r Hr] & Hn & Hk).
  unfold on_redis. rewrite Hr. cbn [run_backend].
  destruct (on_real r) as [a r']. unfold connected.
  cbn [snd cache_log attempts service redis]. eauto.
Qed.

Lemma make_key_connected n k key : after (connected n k) (@make_key R key) (connected n k).
Proof. by intros st HP. Qed.

Lemma get_redis_connected n k : after (connected n k) (_get_redis from_url) (connected n k).
Proof.
  intros st HP. destruct HP as ([r Hr] & Hn & Hk).
  unfold _get_redis. rewrite bind_unfold. cbn [get_state]. rewrite Hr.
  split_and!; [by exists r | done | done].
Qed.

(** The successful attempt: one attempt more, no signal, the client in
    place. *)
Lemma get_redis_reachable n k :
  after (reachable from_url n k) (_get_redis from_url) (connected (S n) k).
Proof.
  intros st (Hr & Hn & Hk & Hok).
  unfold _get_redis. rewrite bind_unfold. cbn [get_state]. rewrite Hr.
  unfold try_except. rewrite bind_unfold. unfold connect at 1. rewrite Hn.
  destruct (from_url n (redis_url (service st))) as [r | e]; [| discriminate].
  unfold connected, set_redis, cache_logger, logger, CacheState_log, bind.
  cbn [snd cache_log attempts service redis].
  rewrite !degradation_signals_snoc. cbn [is_degradation_signal level message].
  split_and!; [by eexists | done | lia].
Qed.

Ltac connected_step :=
  first
    [ apply after_ret
    | apply after_raise
    | apply after_lift_res
    | apply make_key_connected
    | apply on_redis_connected
    | apply logger_connected; reflexivity
    | apply after_bind; [| intros ?]
    | apply after_try_except; [| intros ?]
    | match goal with
      | |- after _ (if ?b then _ else _) _ => destruct b
      | |- after _ (match ?l with [] => _ | _ :: _ => _ end) _ => destruct l
      end ].

Ltac connected_method :=
  apply after_try_except;
  [ apply after_bind; [eassumption | intros ?] | intros ? ];
  repeat connected_step.

Lemma clear_pattern_connected_after (P : CacheState R -> Prop) n k pattern :
  after P (_get_redis from_url) (connected n k) ->
  after P (CacheService_clear_pattern from_url pattern) (connected n k).
Proof. intros Hget. unfold CacheService_clear_pattern. connected_method. Qed.

Lemma logger_reachable n k lv msg :
  is_degradation_signal {| level := lv; message := msg |} = false ->
  after (reachable from_url n k) (@cache_logger R lv msg) (reachable from_url n k).
Proof.
  intros Hq st (Hr & Hn & Hk & Hok).
  unfold reachable, cache_logger, logger, CacheState_log.
  cbn [snd cache_log attempts service].
  rewrite degradation_signals_snoc, Hq. split_and!; [done | done | lia | done].
Qed.

Lemma cleanup_connected_after (P : CacheState R -> Prop) n k :
  after P (@cache_logger R INFO "开始清理过期缓存") P ->
  after P (_get_redis from_url) (connected n k) ->
  after P (_cleanup_expired_cache from_url) (connected n k).
Proof.
  intros Hlog Hget. unfold _cleanup_expired_cache. cbv zeta.
  eapply after_logger_then; [exact Hlog |].
  apply after_try_except; [| intros e; by apply logger_connected].
  apply after_bind; [| intros c; by apply logger_connected].
  by apply clear_pattern_connected_after.
Qed.

Lemma run_call_connected_after (P : CacheState R -> Prop) n k c :
  after P (@cache_logger R INFO "开始清理过期缓存") P ->
  after P (_get_redis from_url) (connected n k) ->
  after P (run_call from_url Value json_dumps json_loads c) (connected n k).
Proof.
  intros Hlog Hget.
  destruct c; cbn [run_call]; [| | | | | by apply cleanup_connected_after];
    (apply after_bind; [| intros; apply after_ret]).
  - unfold CacheService_get. connected_method.
  - unfold CacheService_set. connected_method.
  - unfold CacheService_delete. connected_method.
  - unfold CacheService_exists. connected_method.
  - by apply clear_pattern_connected_after.
Qed.

(** X7: the fallback is chosen at the connection attempt only.  Once the
    attempt has succeeded, however many calls follow and whatever the client
    answers, be it an error at every command, the service makes no further
    attempt, keeps the client and never degrades to the in-process map. *)
Theorem connects_once_and_never_degrades st :
  redis (service st) = None ->
  is_exception (from_url (attempts st) (redis_url (service st))) = false ->
  forall calls,
    calls <> [] ->
    exists st',
      run_calls from_url Value json_dumps json_loads calls st = (Ok tt, st')
      /\ is_Some (client_of st')
      /\ fallback_of st' = None
      /\ attempts st' = S (attempts st)
      /\ degradation_signals (cache_log st') = degradation_signals (cache_log st).
Proof.
  intros Hnone Hok calls Hcalls.
  assert (reachable from_url (attempts st) (degradation_signals (cache_log st)) st)
    as Hst by done.
  destruct (run_calls_returns from_url Value json_dumps json_loads calls st) as [st' E].
  exists st'. split; [done |].
  assert (connected (S (attempts st)) (degradation_signals (cache_log st)) st')
    as ([r Hr] & Hn & Hk).
  { destruct calls as [| c calls]; [done |].
    assert (after (reachable from_url (attempts st) (degradation_signals (cache_log st)))
              (run_calls from_url Value json_dumps json_loads (c :: calls))
              (connected (S (attempts st)) (degradation_signals (cache_log st)))) as Hafter.
    { unfold run_calls. cbn [for_each].
      apply after_bind.
      - apply run_call_connected_after;
          [by apply logger_reachable | apply get_redis_reachable].
      - intros []. apply after_for_each. intros c' [].
        apply run_call_connected_after;
          [by apply logger_connected | apply get_redis_connected]. }
    specialize (Hafter st Hst). by rewrite E in Hafter. }
  unfold client_of, fallback_of. rewrite Hr. split_and!; [by eexists | done | done | done].
Qed.

(** *** The fallback map *)

Lemma append_inj_r (p a b : string) : p ++ a = p ++ b -> a = b.
Proof. induction p as [| c p IH]; simpl; intros E; [done | injection E; auto]. Qed.

(** Distinct keys of the callers are distinct keys of the store. *)
Lemma make_key_inj (self : CacheService R) (key key' : string) :
  _make_key self key = _make_key self key' -> key = key'.
Proof.
  unfold _make_key. intros E. apply append_inj_r in E. by apply (append_inj_r ":") in E.
Qed.

Lemma cached_fallback st c cache_key :
  redis (service st) = Some (Fallback c) -> cached st cache_key = cache c !! cache_key.
Proof. intros Hc. unfold cached, fallback_of. by rewrite Hc. Qed.

(** X8: on the fallback, [set] stores the encoded value under the
    prefixed key, replacing what was there and leaving the entries of all
    other keys as they were, and a following [get] of the key decodes it;
    [get] changes nothing. *)
Theorem set_then_get_on_fallback st key value ttl data :
  is_Some (fallback_of st) ->
  json_dumps value = Ok data ->
  exists st1,
    CacheService_set from_url Value json_dumps key value ttl st = (Ok true, st1)
    /\ cached st1 (_make_key (service st) key) = Some data
    /\ (forall key', key' <> key ->
          cached st1 (_make_key (service st) key') = cached st (_make_key (service st) key'))
    /\ (forall v, str_truthy data = true -> json_loads data = Ok v ->
          exists st2,
            CacheService_get from_url Value json_loads key st1 = (Ok v, st2)
            /\ fallback_of st2 = fallback_of st1).
Proof.
  intros Hf Hdumps.
  destruct (set_degraded from_url Value json_dumps st key value ttl data Hf Hdumps)
    as (st1 & E1 & Hf1 & Hp1).
  destruct Hf as [m Hm].
  assert (cached st1 (_make_key (service st) key) = Some data) as Hcached.
  { unfold cached. rewrite Hf1, Hm. cbn. apply lookup_insert_eq. }
  exists st1. split_and!; [done | done | |].
  - intros key' Hne. unfold cached. rewrite Hf1, Hm. cbn.
    apply lookup_insert_ne. intros E. apply Hne. symmetry. by eapply make_key_inj.
  - intros v Htruthy Hloads.
    apply (get_degraded from_url Value json_loads st1 key data v); [| done | done].
    unfold _make_key in *. by rewrite Hp1.
Qed.

(** X9: what [get] answers on the fallback when there is nothing to
    decode: [None] for a key without entry and for an entry holding the empty
    text, without any error, and [None] with the error logged for an entry
    that [json.loads] refuses.  A value that [json.dumps] refuses is not
    stored: [set] answers [False] and the map is as before. *)
Theorem fallback_miss_cases st key :
  is_Some (fallback_of st) ->
  (cached st (_make_key (service st) key) = None
   \/ cached st (_make_key (service st) key) = Some "" ->
   exists st',
     CacheService_get from_url Value json_loads key st = (Ok None, st')
     /\ cache_log st' = cache_log st)
  /\ (forall data e,
        cached st (_make_key (service st) key) = Some data ->
        str_truthy data = true -> json_loads data = Raise e ->
        exists st',
          CacheService_get from_url Value json_loads key st = (Ok None, st')
          /\ cache_log st'
             = (cache_log st
                ++ [{| level := ERROR;
                       message := "获取缓存失败: key=" ++ key ++ ", 错误=" ++ exn_str e |}])%list)
  /\ (forall value ttl e,
        json_dumps value = Raise e ->
        exists st',
          CacheService_set from_url Value json_dumps key value ttl st = (Ok false, st')
          /\ fallback_of st' = fallback_of st).
Proof.
  intros Hf. destruct (fallback_of_Some st Hf) as [c Hc].
  split_and!.
  - intros Hmiss. rewrite !(cached_fallback st c) in Hmiss by done.
    unfold CacheService_get, try_except.
    rewrite (bind_Ok _ _ _ _ _ (get_redis_degraded_run from_url st Hf)).
    rewrite (bind_Ok _ _ st st (_make_key (service st) key)) by reflexivity.
    cbv [bind on_redis redis_get Backend_client InMemoryCache_client run_backend
         InMemoryCache_get]. rewrite Hc.
    destruct Hmiss as [-> | ->]; cbn [opt_str_truthy str_truthy String.eqb negb ret];
      eexists; split; reflexivity.
  - intros data e Hcached Htruthy Hloads. rewrite (cached_fallback st c) in Hcached by done.
    unfold CacheService_get, try_except.
    rewrite (bind_Ok _ _ _ _ _ (get_redis_degraded_run from_url st Hf)).
    rewrite (bind_Ok _ _ st st (_make_key (service st) key)) by reflexivity.
    cbv [bind on_redis redis_get Backend_client InMemoryCache_client run_backend
         InMemoryCache_get]. rewrite Hc, Hcached.
    cbn [opt_str_truthy get_default]. rewrite Htruthy. unfold lift_res. rewrite Hloads.
    cbv [cache_logger logger ret CacheState_log]. cbn [cache_log].
    eexists. split; reflexivity.
  - intros value ttl e Hdumps.
    unfold CacheService_set, try_except.
    rewrite (bind_Ok _ _ _ _ _ (get_redis_degraded_run from_url st Hf)).
    rewrite (bind_Ok _ _ st st (_make_key (service st) key)) by reflexivity.
    rewrite (bind_Raise _ _ st st e) by (unfold lift_res; by rewrite Hdumps).
    cbv [bind cache_logger logger ret CacheState_log].
    eexists. split; reflexivity.
Qed.

(** X10: [delete] on the fallback removes the entry of the key and no
    other, and answers whether there was one; afterwards [get] answers
    [None] and [exists] answers [False]. *)
Theorem delete_on_fallback st key :
  is_Some (fallback_of st) ->
  exists st1,
    CacheService_delete from_url key st
    = (Ok (if cached st (_make_key (service st) key) is Some _ then true else false), st1)
    /\ cached st1 (_make_key (service st) key) = None
    /\ (forall key', key' <> key ->
          cached st1 (_make_key (service st) key') = cached st (_make_key (service st) key'))
    /\ (CacheService_get from_url Value json_loads key st1).1 = Ok None
    /\ (CacheService_exists from_url key st1).1 = Ok false.
Proof.
  intros Hf. destruct (fallback_of_Some st Hf) as [c Hc].
  rewrite (cached_fallback st c) by done.
  unfold CacheService_delete, try_except.
  rewrite (bind_Ok _ _ _ _ _ (get_redis_degraded_run from_url st Hf)).
  rewrite (bind_Ok _ _ st st (_make_key (service st) key)) by reflexivity.
  cbv [bind on_redis redis_delete Backend_client InMemoryCache_client run_backend
       InMemoryCache_delete cache_logger logger ret]. rewrite Hc.
  set (cache_key := _make_key (service st) key).
  assert (forall st1 : CacheState R,
            is_Some (fallback_of st1) -> prefix (service st1) = prefix (service st) ->
            cached st1 cache_key = None ->
            (CacheService_get from_url Value json_loads key st1).1 = Ok None
            /\ (CacheService_exists from_url key st1).1 = Ok false) as Hafter.
  { intros st1 Hf1 Hp1 Hnone. destruct (fallback_of_Some st1 Hf1) as [c1 Hc1].
    rewrite (cached_fallback st1 c1) in Hnone by done.
    assert (_make_key (service st1) key = cache_key) as Hkey
      by (unfold cache_key, _make_key; by rewrite Hp1).
    split.
    - unfold CacheService_get, try_except.
      rewrite (bind_Ok _ _ _ _ _ (get_redis_degraded_run from_url st1 Hf1)).
      rewrite (bind_Ok _ _ st1 st1 cache_key) by (by rewrite <- Hkey).
      cbv [bind on_redis redis_get Backend_client InMemoryCache_client run_backend
           InMemoryCache_get]. rewrite Hc1, Hnone. reflexivity.
    - unfold CacheService_exists, try_except.
      rewrite (bind_Ok _ _ _ _ _ (get_redis_degraded_run from_url st1 Hf1)).
      rewrite (bind_Ok _ _ st1 st1 cache_key) by (by rewrite <- Hkey).
      cbv [bind on_redis redis_exists Backend_client InMemoryCache_client run_backend
           InMemoryCache_exists]. rewrite Hc1, Hnone. reflexivity. }
  destruct (cache c !! cache_key) as [data |] eqn:E.
  - eexists. split; [reflexivity |].
    split; [| split].
    + unfold cached, fallback_of. cbn. apply lookup_delete_eq.
    + intros key' Hne. unfold cached, fallback_of. cbn. rewrite Hc. cbn.
      apply lookup_delete_ne. intros E'. apply Hne. symmetry. by eapply make_key_inj.
    + apply Hafter; [by eexists | done |].
      unfold cached, fallback_of. cbn. apply lookup_delete_eq.
  - eexists. split; [reflexivity |].
    split; [| split].
    + unfold cached, fallback_of. cbn. rewrite ?Hc. exact E.
    + intros key' Hne. unfold cached, fallback_of. cbn. by rewrite ?Hc.
    + apply Hafter; [unfold fallback_of; cbn; rewrite ?Hc; by eexists | done |].
      unfold cached, fallback_of. cbn. rewrite ?Hc. exact E.
Qed.

Lemma exists_degraded st key :
  is_Some (fallback_of st) ->
  exists st',
    CacheService_exists from_url key st
    = (Ok (if cached st (_make_key (service st) key) is Some _ then true else false), st')
    /\ fallback_of st' = fallback_of st
    /\ cache_log st' = cache_log st.
Proof.
  intros Hf. destruct (fallback_of_Some st Hf) as [c Hc].
  rewrite (cached_fallback st c) by done.
  unfold CacheService_exists, try_except.
  rewrite (bind_Ok _ _ _ _ _ (get_redis_degraded_run from_url st Hf)).
  rewrite (bind_Ok _ _ st st (_make_key (service st) key)) by reflexivity.
  cbv [bind on_redis redis_exists Backend_client InMemoryCache_client run_backend
       InMemoryCache_exists ret]. rewrite Hc.
  destruct (cache c !! _make_key (service st) key);
    (eexists; split; [reflexivity |]; unfold fallback_of; cbn; by rewrite Hc).
Qed.

(** X11: on the fallback [exists] answers whether the map holds an entry
    under the prefixed key, and changes nothing.  It does not say whether
    [get] will find a value: after [set] has stored [None], [exists] answers
    [True] and [get] answers [None], as for a key never written. *)
Theorem exists_on_fallback st key :
  is_Some (fallback_of st) ->
  (exists st',
     CacheService_exists from_url key st
     = (Ok (if cached st (_make_key (service st) key) is Some _ then true else false), st')
     /\ fallback_of st' = fallback_of st
     /\ cache_log st' = cache_log st)
  /\ (forall ttl data,
        json_dumps None = Ok data -> json_loads data = Ok None ->
        exists st1,
          CacheService_set from_url Value json_dumps key None ttl st = (Ok true, st1)
          /\ (CacheService_exists from_url key st1).1 = Ok true
          /\ (CacheService_get from_url Value json_loads key st1).1 = Ok None).
Proof.
  intros Hf. split; [by apply exists_degraded |].
  intros ttl data Hdumps Hloads.
  destruct (set_degraded from_url Value json_dumps st key None ttl data Hf Hdumps)
    as (st1 & E1 & Hf1 & Hp1).
  assert (is_Some (fallback_of st1)) as Hsome.
  { rewrite Hf1. destruct Hf as [m ->]. by eexists. }
  assert (cached st1 (_make_key (service st1) key) = Some data) as Hcached.
  { unfold cached, _make_key. rewrite Hf1, Hp1. destruct Hf as [m ->]. cbn.
    apply lookup_insert_eq. }
  exists st1. split_and!; [done | |].
  - destruct (exists_degraded st1 key Hsome) as (st2 & -> & _). by rewrite Hcached.
  - destruct (str_truthy data) eqn:Htruthy.
    + destruct (get_degraded from_url Value json_loads st1 key data None Hcached Htruthy Hloads)
        as (st2 & -> & _). done.
    + destruct (fallback_of_Some st1 Hsome) as [c1 Hc1].
      rewrite (cached_fallback st1 c1) in Hcached by done.
      unfold CacheService_get, try_except.
      rewrite (bind_Ok _ _ _ _ _ (get_redis_degraded_run from_url st1 Hsome)).
      rewrite (bind_Ok _ _ st1 st1 (_make_key (service st1) key)) by reflexivity.
      cbv [bind on_redis redis_get Backend_client InMemoryCache_client run_backend
           InMemoryCache_get]. rewrite Hc1, Hcached.
      cbn [opt_str_truthy]. rewrite Htruthy. reflexivity.
Qed.

(** X12: on the fallback [clear_pattern] does not look at the pattern.  A
    map of at most one entry is emptied and the number of entries is
    returned; a map of two or more entries is left as it is, 0 is returned and
    the [TypeError] of the call [delete( *keys )] is logged. *)
Theorem clear_pattern_on_fallback st m pattern :
  fallback_of st = Some m ->
  exists cleared st',
    CacheService_clear_pattern from_url pattern st = (Ok cleared, st')
    /\ ((size m <= 1)%nat -> cleared = Z.of_nat (size m) /\ fallback_of st' = Some ∅)
    /\ ((2 <= size m)%nat ->
        cleared = 0 /\ fallback_of st' = Some m
        /\ exists e,
             exn_cls e = TypeError
             /\ last (cache_log st')
                = Some {| level := ERROR;
                          message := "清除缓存失败: pattern=" ++ pattern
                                     ++ ", 错误=" ++ exn_str e |}).
Proof.
  intros Hm.
  assert (is_Some (fallback_of st)) as Hf by (rewrite Hm; by eexists).
  destruct (fallback_of_Some st Hf) as [c Hc].
  assert (cache c = m) as Hcm by (unfold fallback_of in Hm; rewrite Hc in Hm; congruence).
  subst m.
  unfold CacheService_clear_pattern, try_except.
  rewrite (bind_Ok _ _ _ _ _ (get_redis_degraded_run from_url st Hf)).
  rewrite (bind_Ok _ _ st st (_make_key (service st) pattern)) by reflexivity.
  cbv [bind on_redis redis_keys Backend_client InMemoryCache_client run_backend
       InMemoryCache_keys]. rewrite Hc. cbn [service redis].
  pose proof (length_map_to_list (cache c)) as Hlen.
  pose proof (list_to_map_to_list (cache c)) as Hmap.
  destruct (map_to_list (cache c)) as [| [k v] [| [k' v'] l]] eqn:El; cbn [fmap list_fmap fst].
  - eexists; eexists. split; [reflexivity |].
    apply map_to_list_empty_iff in El.
    split; [| simpl in Hlen; lia]. intros _.
    split; [by rewrite El, map_size_empty |].
    unfold fallback_of. cbn. by rewrite El.
  - cbv [redis_delete InMemoryCache_delete cache_logger logger ret].
    cbn [service redis attempts cache_log prefix redis_url].
    simpl in Hmap, Hlen. rewrite <- Hmap in Hlen |- *. rewrite lookup_insert_eq.
    eexists; eexists. split; [reflexivity |].
    split; [| lia]. intros _. split; [by rewrite <- Hlen |].
    unfold fallback_of. cbn. f_equal. rewrite insert_empty. apply delete_singleton_eq.
  - cbv [redis_delete InMemoryCache_delete cache_logger logger ret CacheState_log].
    cbn [service redis attempts cache_log prefix redis_url].
    eexists; eexists. split; [reflexivity |].
    split; [simpl in Hlen; lia |]. intros _. split; [done |].
    split; [unfold fallback_of; by cbn |].
    eexists. split; [| cbn [cache_log]; rewrite last_snoc; reflexivity]. reflexivity.
Qed.

(** *** Errors of the client *)

Lemma get_redis_set_run st b :
  redis (service st) = Some b -> _get_redis from_url st = (Ok tt, st).
Proof.
  intros Hb. unfold _get_redis. rewrite bind_unfold. cbn [get_state]. by rewrite Hb.
Qed.

(** X13: an error of the client of the networked store never reaches the
    caller.  When the command a method issues raises, [get] answers [None],
    [set], [delete] and [exists] answer [False], the error is logged with the
    key, and the service keeps the client. *)
Theorem client_errors_become_defaults st r :
  redis (service st) = Some (RealRedis r) ->
  (forall key e r',
     redis_get (_make_key (service st) key) r = (Raise e, r') ->
     exists st',
       CacheService_get from_url Value json_loads key st = (Ok None, st')
       /\ client_of st' = Some r'
       /\ last (cache_log st')
          = Some {| level := ERROR;
                    message := "获取缓存失败: key=" ++ key ++ ", 错误=" ++ exn_str e |})
  /\ (forall key value ttl data e r',
        json_dumps value = Ok data ->
        (if ttl_truthy ttl
         then redis_setex (_make_key (service st) key) (get_default ttl 0) data r
         else redis_set (_make_key (service st) key) data r) = (Raise e, r') ->
        exists st',
          CacheService_set from_url Value json_dumps key value ttl st = (Ok false, st')
          /\ client_of st' = Some r'
          /\ last (cache_log st')
             = Some {| level := ERROR;
                       message := "设置缓存失败: key=" ++ key ++ ", 错误=" ++ exn_str e |})
  /\ (forall key e r',
        redis_delete [_make_key (service st) key] r = (Raise e, r') ->
        exists st',
          CacheService_delete from_url key st = (Ok false, st')
          /\ client_of st' = Some r'
          /\ last (cache_log st')
             = Some {| level := ERROR;
                       message := "删除缓存失败: key=" ++ key ++ ", 错误=" ++ exn_str e |})
  /\ (forall key e r',
        redis_exists (_make_key (service st) key) r = (Raise e, r') ->
        exists st',
          CacheService_exists from_url key st = (Ok false, st')
          /\ client_of st' = Some r'
          /\ last (cache_log st')
             = Some {| level := ERROR;
                       message := "检查缓存失败: key=" ++ key ++ ", 错误=" ++ exn_str e |}).
Proof.
  intros Hr. split_and!.
  - intros key e r' Hcmd.
    unfold CacheService_get, try_except.
    rewrite (bind_Ok _ _ _ _ _ (get_redis_set_run st _ Hr)).
    rewrite (bind_Ok _ _ st st (_make_key (service st) key)) by reflexivity.
    cbv [bind on_redis redis_get Backend_client run_backend]. rewrite Hr.
    fold (redis_get (_make_key (service st) key) r). rewrite Hcmd.
    cbv [cache_logger logger ret CacheState_log]. cbn [cache_log].
    eexists. split; [reflexivity |]. split; [reflexivity |].
    cbn [cache_log]. by rewrite last_snoc.
  - intros key value ttl data e r' Hdumps Hcmd.
    unfold CacheService_set, try_except.
    rewrite (bind_Ok _ _ _ _ _ (get_redis_set_run st _ Hr)).
    rewrite (bind_Ok _ _ st st (_make_key (service st) key)) by reflexivity.
    rewrite (bind_Ok _ _ st st data) by (unfold lift_res; by rewrite Hdumps).
    destruct (ttl_truthy ttl).
    + cbv [bind on_redis redis_setex Backend_client run_backend]. rewrite Hr.
      fold (redis_setex (_make_key (service st) key) (get_default ttl 0) data r).
      rewrite Hcmd.
      cbv [cache_logger logger ret CacheState_log]. cbn [cache_log].
      eexists. split; [reflexivity |]. split; [reflexivity |].
    cbn [cache_log]. by rewrite last_snoc.
    + cbv [bind on_redis redis_set Backend_client run_backend]. rewrite Hr.
      fold (redis_set (_make_key (service st) key) data r). rewrite Hcmd.
      cbv [cache_logger logger ret CacheState_log]. cbn [cache_log].
      eexists. split; [reflexivity |]. split; [reflexivity |].
    cbn [cache_log]. by rewrite last_snoc.
  - intros key e r' Hcmd.
    unfold CacheService_delete, try_except.
    rewrite (bind_Ok _ _ _ _ _ (get_redis_set_run st _ Hr)).
    rewrite (bind_Ok _ _ st st (_make_key (service st) key)) by reflexivity.
    cbv [bind on_redis redis_delete Backend_client run_backend]. rewrite Hr.
    fold (redis_delete [_make_key (service st) key] r). rewrite Hcmd.
    cbv [cache_logger logger ret CacheState_log]. cbn [cache_log].
    eexists. split; [reflexivity |]. split; [reflexivity |].
    cbn [cache_log]. by rewrite last_snoc.
  - intros key e r' Hcmd.
    unfold CacheService_exists, try_except.
    rewrite (bind_Ok _ _ _ _ _ (get_redis_set_run st _ Hr)).
    rewrite (bind_Ok _ _ st st (_make_key (service st) key)) by reflexivity.
    cbv [bind on_redis redis_exists Backend_client run_backend]. rewrite Hr.
    fold (redis_exists (_make_key (service st) key) r). rewrite Hcmd.
    cbv [cache_logger logger ret CacheState_log]. cbn [cache_log].
    eexists. split; [reflexivity |]. split; [reflexivity |].
    cbn [cache_log]. by rewrite last_snoc.
Qed.

End CacheFurther.

(** The store is reached, then lost: every call fails, [get] answers
    [None] and [set] answers [False], and the service stays on the dead
    client. *)
Lemma connects_once_and_never_degrades_witness :
  exists st',
    run_calls connection_then_lost string text_dumps text_loads
      [CallSet "a" (Some "1") None; CallGet "a"; CallCleanup]
      (CacheState_init default_settings) = (Ok tt, st')
    /\ is_Some (client_of st')
    /\ fallback_of st' = None
    /\ attempts st' = 1%nat
    /\ degradation_signals (cache_log st') = 0%nat.
Proof.
  apply (connects_once_and_never_degrades connection_then_lost string text_dumps text_loads
           (CacheState_init default_settings) eq_refl eq_refl).
  discriminate.
Defined.

Lemma set_then_get_on_fallback_witness :
  exists st1,
    CacheService_set connection_refused string text_dumps "k" (Some "v") None one_entry_cache
    = (Ok true, st1)
    /\ cached st1 (_make_key (service one_entry_cache) "k") = Some "sv"
    /\ (forall key', key' <> "k" ->
          cached st1 (_make_key (service one_entry_cache) key')
          = cached one_entry_cache (_make_key (service one_entry_cache) key'))
    /\ (forall v, str_truthy "sv" = true -> text_loads "sv" = Ok v ->
          exists st2,
            CacheService_get connection_refused string text_loads "k" st1 = (Ok v, st2)
            /\ fallback_of st2 = fallback_of st1).
Proof.
  apply (set_then_get_on_fallback connection_refused string text_dumps text_loads
           one_entry_cache "k" (Some "v") None "sv").
  - by eexists.
  - reflexivity.
Defined.

Lemma fallback_miss_cases_witness :
  exists st',
    CacheService_get connection_refused string text_loads "absent" one_entry_cache
    = (Ok None, st')
    /\ cache_log st' = cache_log one_entry_cache.
Proof.
  destruct (fallback_miss_cases connection_refused string text_dumps text_loads
              one_entry_cache "absent") as (Hmiss & _ & _).
  - by eexists.
  - apply Hmiss. left. vm_compute. reflexivity.
Defined.

Lemma delete_on_fallback_witness :
  exists st1,
    CacheService_delete connection_refused "recommendations:user:51" one_entry_cache
    = (Ok true, st1)
    /\ cached st1 "what_to_do:recommendations:user:51" = None
    /\ (CacheService_get connection_refused string text_loads "recommendations:user:51" st1).1
       = Ok None
    /\ (CacheService_exists connection_refused "recommendations:user:51" st1).1 = Ok false.
Proof.
  destruct (delete_on_fallback connection_refused string text_loads one_entry_cache
              "recommendations:user:51") as (st1 & E & Hnone & _ & Hget & Hexists).
  - by eexists.
  - exists st1. split_and!; [exact E | exact Hnone | exact Hget | exact Hexists].
Defined.

Lemma exists_on_fallback_witness :
  exists st1,
    CacheService_set connection_refused string text_dumps "k" None (Some 60) one_entry_cache
    = (Ok true, st1)
    /\ (CacheService_exists connection_refused "k" st1).1 = Ok true
    /\ (CacheService_get connection_refused string text_loads "k" st1).1 = Ok None.
Proof.
  destruct (exists_on_fallback connection_refused string text_dumps text_loads
              one_entry_cache "k") as [_ Hnone].
  - by eexists.
  - apply (Hnone (Some 60) "null"); reflexivity.
Defined.

Lemma clear_pattern_on_fallback_witness :
  exists cleared st',
    CacheService_clear_pattern connection_refused "no_such_prefix:*" one_entry_cache
    = (Ok cleared, st')
    /\ cleared = 1 /\ fallback_of st' = Some ∅.
Proof.
  destruct (clear_pattern_on_fallback connection_refused one_entry_cache
              {["what_to_do:recommendations:user:51" := "stop3"]} "no_such_prefix:*")
    as (cleared & st' & E & Hsmall & _).
  - reflexivity.
  - exists cleared, st'. split; [exact E |].
    rewrite map_size_singleton in Hsmall. apply Hsmall. lia.
Defined.

Lemma client_errors_become_defaults_witness :
  exists st',
    CacheService_get connection_then_lost string text_loads "k" lost_cache = (Ok None, st')
    /\ client_of st' = Some lost_connection
    /\ last (cache_log st')
       = Some {| level := ERROR;
                 message := "获取缓存失败: key=k, 错误=Connection closed by server" |}.
Proof.
  destruct (client_errors_become_defaults connection_then_lost string text_dumps text_loads
              lost_cache lost_connection eq_refl) as (Hget & _).
  apply (Hget "k" (Exn ConnectionError "Connection closed by server") lost_connection).
  reflexivity.
Defined.

(** ** The performance monitor *)

(** One recorded call, from a state in which the call counter is not
    negative. *)
Lemma record_api_call_run (self : Metrics) (response_time : Q) (cache_hit error : bool) :
  0 <= api_calls self ->
  exists self',
    record_api_call self response_time cache_hit error = (Returned, self')
    /\ api_calls self' = api_calls self + 1
    /\ cache_hits self' = cache_hits self + (if cache_hit then 1 else 0)
    /\ cache_misses self' = cache_misses self + (if cache_hit then 0 else 1)
    /\ error_count self' = error_count self + (if error then 1 else 0)
    /\ (avg_response_time self' * inject_Z (api_calls self + 1)
        == avg_response_time self * inject_Z (api_calls self) + response_time)%Q.
Proof.
  intros Hn. unfold record_api_call.
  assert (~ inject_Z (api_calls self + 1) == 0)%Q as Hq.
  { change 0%Q with (inject_Z 0). rewrite inject_Z_injective. lia. }
  destruct cache_hit, error; cbn [api_calls cache_hits cache_misses error_count avg_response_time];
    (destruct (Z.eqb_spec (api_calls self + 1) 0) as [| _]; [lia |]);
    (eexists; split; [reflexivity |]);
    cbn [api_calls cache_hits cache_misses error_count avg_response_time];
    (split_and!; [lia | lia | lia | lia |]);
    replace (api_calls self + 1 - 1) with (api_calls self) by lia;
    field; exact Hq.
Qed.

(** What a run of recorded calls adds up to. *)
Lemma record_api_calls_run (calls : list ApiCall) (self : Metrics) :
  0 <= api_calls self ->
  exists self',
    record_api_calls self calls = (Returned, self')
    /\ api_calls self' = api_calls self + Z.of_nat (length calls)
    /\ cache_hits self' = cache_hits self + count_calls call_cache_hit calls
    /\ cache_misses self'
       = cache_misses self + count_calls (fun c => negb (call_cache_hit c)) calls
    /\ error_count self' = error_count self + count_calls call_error calls
    /\ (avg_response_time self' * inject_Z (api_calls self')
        == avg_response_time self * inject_Z (api_calls self) + total_response_time calls)%Q.
Proof.
  revert self. induction calls as [| c calls IH]; intros self Hn.
  - exists self. unfold count_calls. simpl. split_and!; try (reflexivity || lia). lra.
  - cbn [record_api_calls].
    destruct (record_api_call_run self (call_response_time c) (call_cache_hit c)
                (call_error c) Hn) as (self1 & -> & Hc1 & Hh1 & Hm1 & He1 & Ha1).
    destruct (IH self1) as (self' & -> & Hc & Hh & Hm & He & Havg); [lia |].
    exists self'. split; [reflexivity |].
    unfold count_calls in *. cbn [List.filter length total_response_time fold_right].
    split_and!.
    + rewrite Hc, Hc1. lia.
    + rewrite Hh, Hh1. destruct (call_cache_hit c); simpl length; lia.
    + rewrite Hm, Hm1. destruct (call_cache_hit c); simpl length; lia.
    + rewrite He, He1. destruct (call_error c); simpl length; lia.
    + rewrite Havg, Hc1, Ha1. fold (total_response_time calls). lra.
Qed.

Lemma count_calls_partition (flag : ApiCall -> bool) (calls : list ApiCall) :
  count_calls flag calls + count_calls (fun c => negb (flag c)) calls
  = Z.of_nat (length calls).
Proof.
  unfold count_calls. induction calls as [| c calls IH]; [done |].
  simpl. destruct (flag c); simpl length; lia.
Qed.

Lemma count_calls_bounds (flag : ApiCall -> bool) (calls : list ApiCall) :
  0 <= count_calls flag calls <= Z.of_nat (length calls).
Proof.
  unfold count_calls. split; [lia |]. apply inj_le, List.filter_length_le.
Qed.

(** X14: from a fresh or reset monitor, recording any run of calls never
    raises, and the counters count: the calls, the hits and the misses, which
    add up to the calls, and the errors, which are at most the calls. *)
Theorem monitor_counters (calls : list ApiCall) :
  exists self,
    record_api_calls PerformanceMonitor_init calls = (Returned, self)
    /\ api_calls self = Z.of_nat (length calls)
    /\ cache_hits self = count_calls call_cache_hit calls
    /\ error_count self = count_calls call_error calls
    /\ cache_hits self + cache_misses self = api_calls self
    /\ 0 <= error_count self <= api_calls self.
Proof.
  destruct (record_api_calls_run calls PerformanceMonitor_init) as
    (self & E & Hc & Hh & Hm & He & _); [done |].
  exists self. cbn in Hc, Hh, Hm, He.
  pose proof (count_calls_partition call_cache_hit calls).
  pose proof (count_calls_bounds call_error calls).
  split_and!; [done | lia ..].
Qed.

(** X15: the running average is the mean: after a non-empty run of calls
    on a fresh or reset monitor, [avg_response_time] is the sum of the
    response times divided by their number. *)
Theorem monitor_average_is_mean (calls : list ApiCall) :
  calls <> [] ->
  exists self,
    record_api_calls PerformanceMonitor_init calls = (Returned, self)
    /\ (avg_response_time self
        == total_response_time calls / inject_Z (Z.of_nat (length calls)))%Q.
Proof.
  intros Hne.
  destruct (record_api_calls_run calls PerformanceMonitor_init) as
    (self & E & Hc & _ & _ & _ & Havg); [done |].
  exists self. split; [done |]. cbn in Hc, Havg. rewrite Hc in Havg.
  assert (~ inject_Z (Z.of_nat (length calls)) == 0)%Q as Hq.
  { change 0%Q with (inject_Z 0). rewrite inject_Z_injective.
    destruct calls; [done | simpl; lia]. }
  apply (Qmult_inj_r _ _ (inject_Z (Z.of_nat (length calls)))); [exact Hq |].
  rewrite Havg. field. exact Hq.
Qed.

Lemma monitor_average_is_mean_witness :
  exists self,
    record_api_calls PerformanceMonitor_init
      [ {| call_response_time := 0.2; call_cache_hit := false; call_error := false |};
        {| call_response_time := 0.4; call_cache_hit := true; call_error := false |} ]
    = (Returned, self)
    /\ (avg_response_time self == (0.2 + (0.4 + 0)) / inject_Z (Z.of_nat 2))%Q.
Proof. apply monitor_average_is_mean. discriminate. Defined.

(** X16: on a fresh or reset monitor, after any run of calls, the two
    rates of the statistics are percentages: both lie in [0, 100], and with no
    call recorded both are 0, no division by zero occurring. *)
Theorem monitor_rates_are_percentages (calls : list ApiCall) :
  exists self,
    record_api_calls PerformanceMonitor_init calls = (Returned, self)
    /\ (0 <= cache_hit_rate self <= 100)%Q
    /\ (0 <= error_rate self <= 100)%Q
    /\ (calls = [] -> cache_hit_rate self = 0%Q /\ (error_rate self == 0)%Q).
Proof.
  destruct (record_api_calls_run calls PerformanceMonitor_init) as
    (self & E & Hc & Hh & Hm & He & _); [done |].
  exists self. split; [done |]. cbn in Hc, Hh, Hm, He.
  pose proof (count_calls_bounds call_cache_hit calls).
  pose proof (count_calls_bounds call_error calls).
  assert (0 <= cache_hits self <= api_calls self) as Hhits by lia.
  assert (0 <= error_count self <= api_calls self) as Herrs by lia.
  assert (forall a b : Z, 0 <= a <= b -> 0 < b ->
            (0 <= inject_Z a / inject_Z b * 100 <= 100)%Q) as Hrate.
  { intros a b [Ha Hab] Hb.
    assert (0 < inject_Z b)%Q as Hb' by (change 0%Q with (inject_Z 0); by rewrite <- Zlt_Qlt).
    assert (0 <= inject_Z a)%Q as Ha' by (change 0%Q with (inject_Z 0); by rewrite <- Zle_Qle).
    assert (inject_Z a <= inject_Z b)%Q as Hab' by (by rewrite <- Zle_Qle).
    assert (0 <= inject_Z a / inject_Z b)%Q as Hlow.
    { apply Qle_shift_div_l; [done | lra]. }
    assert (inject_Z a / inject_Z b <= 1)%Q as Hhigh.
    { apply Qle_shift_div_r; [done | lra]. }
    lra. }
  split_and!.
  - unfold cache_hit_rate. destruct (Z.ltb_spec 0 (api_calls self)); [| lra].
    apply Hrate; [done | done].
  - unfold cache_hit_rate. destruct (Z.ltb_spec 0 (api_calls self)); [| lra].
    apply Hrate; [done | done].
  - unfold error_rate. apply Hrate; lia.
  - unfold error_rate. apply Hrate; lia.
  - intros ->. simpl in E. injection E as <-. split; [reflexivity | by vm_compute].
Qed.

(** ** The request dependencies *)

Lemma py_suffix_0 (s : string) : utf8_boundary s = true -> py_suffix 0 s = s.
Proof. destruct s as [| c s]; [done |]. simpl. by destruct (utf8_continuation c). Qed.

Lemma prefix_Bearer (s : string) :
  String.prefix "Bearer " s = true <-> exists rest, s = "Bearer " ++ rest.
Proof.
  split.
  - intros Hp.
    do 7 (destruct s as [| ? s]; [discriminate |];
          cbn [String.prefix] in Hp;
          match type of Hp with
          | (if ascii_dec ?a ?b then _ else _) = true =>
              destruct (ascii_dec a b) as [<- |]; [| discriminate]
          end).
    by exists s.
  - intros [rest ->]. cbn. by destruct rest.
Qed.

(** X17: [extract_token] accepts exactly the headers that start with
    ["Bearer "] and returns what follows these seven characters, the empty
    token included; every other header, the missing and the empty one
    too, is refused with status 401. *)
Theorem extract_token_accepts_bearer_only (authorization : option string) :
  match extract_token authorization with
  | inr token =>
      exists rest,
        authorization = Some ("Bearer " ++ rest)
        /\ (utf8_boundary rest = true -> token = rest)
  | inl e =>
      status_code e = 401
      /\ forall rest, authorization <> Some ("Bearer " ++ rest)
  end.
Proof.
  unfold extract_token.
  destruct authorization as [a |]; cbn [opt_str_truthy negb get_default].
  - destruct (str_truthy a) eqn:Htruthy; cbn [negb].
    + destruct (String.prefix "Bearer " a) eqn:Hp; cbn [negb].
      * apply prefix_Bearer in Hp as [rest ->]. exists rest. split; [done |].
        intros Hb. cbn. by apply py_suffix_0.
      * split; [done |]. intros rest [= ->].
        assert (String.prefix "Bearer " ("Bearer " ++ rest) = true) as Hp'
          by (apply prefix_Bearer; by eexists).
        congruence.
    + split; [done |]. intros rest [= ->]. discriminate.
  - split; [done |]. intros rest. discriminate.
Qed.

Example extract_token_cases :
  extract_token (Some "Bearer abc") = inr "abc"
  /\ extract_token (Some "Bearer ") = inr ""
  /\ extract_token (Some "bearer abc")
     = inl {| status_code := 401; detail := "Invalid authorization format" |}
  /\ extract_token (Some "") = inl {| status_code := 401; detail := "缺少Authorization header" |}
  /\ extract_token None = inl {| status_code := 401; detail := "缺少Authorization header" |}.
Proof. split_and!; reflexivity. Qed.

(** ** The generators, further *)


Section GeneratorFurther.

Variable rt : Runtime.
Variable settings : Settings.
Variable self : RecommendationEngine.

(** *** The loop over the projects *)

Lemma project_step_run user_data project recs w :
  match InnoProject.taker_id project with
  | Some _ => project_step rt settings self user_data project recs w = (Ok recs, w)
  | None =>
      let days := days_to_deadline rt (reads w) (InnoProject.deadline project) in
      if Qle_bool 50 (project_score self project user_data days) then
        match InnoProject.desc project with
        | None =>
            project_step rt settings self user_data project recs w
            = (Raise (Exn TypeError "object of type 'NoneType' has no len()"), tick w)
        | Some _ =>
            exists rec,
              is_project_candidate settings self user_data project days rec
              /\ project_step rt settings self user_data project recs w
                 = (if scores_valid rec then Ok (recs ++ [rec])%list
                    else Raise validation_error, tick (tick w))
        end
      else project_step rt settings self user_data project recs w = (Ok recs, tick w)
  end.
Proof.
  remember (project_step rt settings self user_data project recs w) as step eqn:E.
  unfold project_step in E. destruct (InnoProject.taker_id project); [done |].
  rewrite bind_unfold in E. unfold datetime_now_utc at 1 in E.
  rewrite bind_unfold in E. unfold lift_res in E. rewrite datetime_sub_aware in E.
  fold (days_to_deadline rt (reads w) (InnoProject.deadline project)) in E.
  cbv zeta in E |- *. unfold project_score at 1.
  destruct (Qle_bool 50 _) eqn:Hscore; [| done].
  unfold project_description in E. destruct (InnoProject.desc project) as [d |].
  - rewrite (bind_Ok _ _ (tick w) (tick w) (ellipsis 100 d)) in E by reflexivity.
    rewrite append_new_run in E. cbv zeta in E.
    eexists. split; [| exact E].
    unfold is_project_candidate, project_score. split_and!; reflexivity.
  - by rewrite (bind_Raise _ _ (tick w) (tick w)
                  (Exn TypeError "object of type 'NoneType' has no len()")) in E.
Qed.

Lemma py_min_subscore (a : Q) : (0 <= a)%Q -> subscore (py_min a 90).
Proof.
  intros Ha. split; [apply py_min_glb; lra |].
  eapply Qle_trans; [apply py_min_le_r | lra].
Qed.

Lemma project_fit_subscore project user_data :
  subscore (inject_Z (_calculate_project_fit_score project user_data)).
Proof.
  apply subscore_inject_Z. unfold _calculate_project_fit_score. cbv zeta.
  destruct (Qlt_le_dec 200 (bonus_or_0 project)), (Qlt_le_dec 100 (bonus_or_0 project)),
    (Qle_bool (InnoProject.planed_hour project) 10); simpl; lia.
Qed.

Lemma project_candidate_valid user_data project days rec :
  weights_nonnegative self ->
  (0 <= bonus_or_0 project)%Q -> (0 <= InnoProject.planed_hour project)%Q ->
  is_project_candidate settings self user_data project days rec -> scores_valid rec = true.
Proof.
  intros Hw Hb Hh (_ & _ & Hs & Hu & Hi & Hf & Hg & _).
  assert (subscore (py_min (60 + bonus_or_0 project / 10) 90)) as Himp.
  { apply py_min_subscore.
    assert (0 <= bonus_or_0 project / 10)%Q by (apply Qle_shift_div_l; lra). lra. }
  assert (subscore (py_min (60 + InnoProject.planed_hour project * 2) 90)) as Hgrow
    by (apply py_min_subscore; lra).
  pose proof (project_fit_subscore project user_data) as Hfit.
  pose proof (urgency_score_subscore days "PROJECT") as Hurg.
  apply scores_valid_intro; rewrite ?Hs, ?Hu, ?Hi, ?Hf, ?Hg; try done.
  unfold project_score.
  apply total_score_subscore; [done | apply Hurg | apply Himp | apply Hfit | apply Hgrow].
Qed.



(** *** The system actions *)

Lemma datetime_sub_now d now_us :
  datetime_sub {| wall := now_us; tzinfo := Some 0 |} (assume_utc d)
  = Ok (now_us - utc_instant (assume_utc d)).
Proof.
  unfold assume_utc, datetime_sub, utc_instant, replace_tzinfo_utc.
  destruct (tzinfo d) as [off |] eqn:E; simpl; rewrite ?E; f_equal; lia.
Qed.

Lemma goal_talk_run user_data g recs w :
  goal user_data = Some g ->
  match Goal.start_time g with
  | None => goal_talk rt self user_data recs w = (Raise (Exn KeyError "'start_time'"), w)
  | Some s =>
      match fromisoformat rt (with_utc_suffix s) with
      | Raise e => goal_talk rt self user_data recs w = (Raise e, w)
      | Ok d =>
          let days := days_since rt (reads w) d in
          if 21 <? days then
            match Goal.id g with
            | None =>
                goal_talk rt self user_data recs w = (Raise (Exn KeyError "'id'"), tick w)
            | Some goal_id =>
                match Goal.content g with
                | None =>
                    goal_talk rt self user_data recs w
                    = (Raise (Exn KeyError "'content'"), tick w)
                | Some _ =>
                    exists rec,
                      is_goal_talk self goal_id days rec
                      /\ goal_talk rt self user_data recs w
                         = (if scores_valid rec then Ok (recs ++ [rec])%list
                            else Raise validation_error, tick (tick w))
                end
            end
          else goal_talk rt self user_data recs w = (Ok recs, tick w)
      end
  end.
Proof.
  intros Hg.
  remember (goal_talk rt self user_data recs w) as run eqn:E.
  unfold goal_talk in E. rewrite Hg in E.
  destruct (Goal.start_time g) as [s |]; [| done].
  cbn [getitem] in E. rewrite (bind_Ok _ _ w w s) in E by reflexivity.
  rewrite bind_unfold in E. unfold lift_res at 1 in E.
  destruct (fromisoformat rt (with_utc_suffix s)) as [d | e]; [| done].
  rewrite bind_unfold in E. unfold datetime_now_utc at 1 in E.
  rewrite bind_unfold in E. unfold lift_res in E. rewrite datetime_sub_now in E.
  fold (days_since rt (reads w) d) in E. cbv zeta in E |- *.
  destruct (21 <? days_since rt (reads w) d); [| done].
  destruct (Goal.id g) as [goal_id |]; [| done].
  cbn [getitem] in E. rewrite (bind_Ok _ _ (tick w) (tick w) goal_id) in E by reflexivity.
  destruct (Goal.content g) as [content |]; [| done].
  cbn [getitem] in E. rewrite (bind_Ok _ _ (tick w) (tick w) content) in E by reflexivity.
  rewrite append_new_run in E. cbv zeta in E.
  eexists. split; [| exact E]. by repeat split.
Qed.

Lemma goal_talk_valid goal_id days rec :
  weights_nonnegative self -> 21 < days ->
  is_goal_talk self goal_id days rec -> scores_valid rec = true.
Proof.
  intros Hw Hdays (_ & _ & Hs & Hu & Hi & Hf & Hg & _).
  assert (0 <= Z.min (50 + days) 90 <= 100) as Hurg by lia.
  apply scores_valid_intro; rewrite ?Hs, ?Hu, ?Hi, ?Hf, ?Hg;
    try (by apply subscore_inject_Z).
  apply total_score_subscore; [done | | | |]; by apply subscore_inject_Z.
Qed.

Lemma datetime_gt_thirty d now_us :
  datetime_gt (assume_utc d)
    (datetime_minus {| wall := now_us; tzinfo := Some 0 |} (timedelta_of_days 30))
  = Ok (now_us - timedelta_of_days 30 <? utc_instant (assume_utc d)).
Proof.
  unfold assume_utc, datetime_gt, utc_instant, replace_tzinfo_utc, datetime_minus.
  destruct (tzinfo d) as [off |] eqn:Eoff; simpl; rewrite ?Eoff; f_equal; f_equal; lia.
Qed.

Lemma recent_report_step_run (now_us : Z) (r : Report.t) (acc : list Report.t) (w : World) :
  is_Some (report_instant rt r) ->
  recent_report_step rt
    (datetime_minus {| wall := now_us; tzinfo := Some 0 |} (timedelta_of_days 30)) r acc w
  = (Ok (if is_recent_report rt now_us r then acc ++ [r] else acc)%list, w).
Proof.
  unfold is_recent_report, report_instant, recent_report_step. intros Hr.
  destruct (Report.report_time r) as [s |]; [| by destruct Hr].
  cbn [getitem]. rewrite (bind_Ok _ _ w w s) by reflexivity.
  destruct (fromisoformat rt (with_utc_suffix s)) as [d | e]; [| by destruct Hr].
  rewrite (bind_Ok _ _ w w d) by reflexivity.
  rewrite (bind_Ok _ _ w w (now_us - timedelta_of_days 30 <? utc_instant (assume_utc d)))
    by (unfold lift_res; by rewrite datetime_gt_thirty).
  by destruct (now_us - timedelta_of_days 30 <? utc_instant (assume_utc d)).
Qed.

(** The loop over the reports keeps the reports of the last 30 days. *)
Lemma recent_reports_loop (now_us : Z) (reports : list Report.t)
    (acc : list Report.t) (w : World) :
  Forall (fun r => is_Some (report_instant rt r)) reports ->
  for_each
    (recent_report_step rt
       (datetime_minus {| wall := now_us; tzinfo := Some 0 |} (timedelta_of_days 30)))
    reports acc w
  = (Ok (acc ++ List.filter (is_recent_report rt now_us) reports)%list, w).
Proof.
  intros Hwf. revert acc. induction Hwf as [| r reports Hr _ IH]; intros acc.
  - simpl. by rewrite app_nil_r.
  - cbn [for_each List.filter].
    rewrite (bind_Ok _ _ _ _ _ (recent_report_step_run now_us r acc w Hr)).
    rewrite IH. destruct (is_recent_report rt now_us r); [| done].
    by rewrite <- app_assoc.
Qed.

Lemma report_time_reminder_run user_data recs w :
  reports user_data <> [] ->
  Forall (fun r => is_Some (report_instant rt r)) (reports user_data) ->
  if Qlt_le_dec (recent_hours rt (clock rt (reads w)) (reports user_data)) 10 then
    exists rec,
      is_report_reminder self rec
      /\ report_time_reminder rt self user_data recs w
         = (if scores_valid rec then Ok (recs ++ [rec])%list
            else Raise validation_error, tick (tick w))
  else report_time_reminder rt self user_data recs w = (Ok recs, tick w).
Proof.
  intros Hne Hwf.
  remember (report_time_reminder rt self user_data recs w) as run eqn:E.
  unfold report_time_reminder in E.
  destruct (reports user_data) as [| r0 reports0] eqn:Hreports; [done |].
  rewrite bind_unfold in E. unfold datetime_now_utc at 1 in E. cbv zeta in E.
  rewrite (bind_Ok _ _ _ _ _ (recent_reports_loop (clock rt (reads w)) (r0 :: reports0)
                                [] (tick w) Hwf)) in E.
  rewrite app_nil_l in E.
  fold (recent_hours rt (clock rt (reads w)) (r0 :: reports0)) in E.
  destruct (Qlt_le_dec _ 10); [| done].
  rewrite append_new_run in E. cbv zeta in E.
  eexists. split; [| exact E]. by repeat split.
Qed.

Lemma report_reminder_valid rec :
  weights_nonnegative self -> is_report_reminder self rec -> scores_valid rec = true.
Proof.
  intros Hw (_ & _ & Hs & Hu & Hi & Hf & Hg & _).
  apply scores_valid_intro; rewrite ?Hs, ?Hu, ?Hi, ?Hf, ?Hg;
    try (by apply subscore_inject_Z).
  apply total_score_subscore; [done | | | |]; by apply subscore_inject_Z.
Qed.

(** What the two blocks of [_recommend_system_actions] append, on data
    they can read. *)
Lemma system_actions_run user_data w :
  weights_nonnegative self ->
  (forall g, goal user_data = Some g -> goal_well_formed rt g) ->
  Forall (fun r => is_Some (report_instant rt r)) (reports user_data) ->
  exists talk reminder w1 w',
    _recommend_system_actions rt self user_data w = (Ok (talk ++ reminder)%list, w')
    /\ goal_talk rt self user_data [] w = (Ok talk, w1)
    /\ match goal user_data with
       | None => talk = [] /\ w1 = w
       | Some g =>
           exists d goal_id,
             goal_start rt g = Some d /\ Goal.id g = Some goal_id
             /\ if 21 <? days_since rt (reads w) d
                then exists rec,
                       talk = [rec]
                       /\ is_goal_talk self goal_id (days_since rt (reads w) d) rec
                else talk = []
       end
    /\ match reports user_data with
       | [] => reminder = []
       | _ =>
           if Qlt_le_dec (recent_hours rt (clock rt (reads w1)) (reports user_data)) 10
           then exists rec, reminder = [rec] /\ is_report_reminder self rec
           else reminder = []
       end.
Proof.
  intros Hw Hgoal Hreports. unfold _recommend_system_actions.
  assert (exists talk w1,
            goal_talk rt self user_data [] w = (Ok talk, w1)
            /\ match goal user_data with
               | None => talk = [] /\ w1 = w
               | Some g =>
                   exists d goal_id,
                     goal_start rt g = Some d /\ Goal.id g = Some goal_id
                     /\ if 21 <? days_since rt (reads w) d
                        then exists rec,
                               talk = [rec]
                               /\ is_goal_talk self goal_id (days_since rt (reads w) d) rec
                        else talk = []
               end) as (talk & w1 & Htalk & Hshape).
  { destruct (goal user_data) as [g |] eqn:Hg.
    - pose proof (goal_talk_run user_data g [] w Hg) as Hcases.
      pose proof (Hgoal g eq_refl) as Hwf. unfold goal_well_formed, is_Some in Hwf.
      destruct Hwf as ([d Hd] & [goal_id Hid] & [content Hcontent]).
      unfold goal_start in Hd |- *.
      destruct (Goal.start_time g) as [s |]; [| discriminate].
      destruct (fromisoformat rt (with_utc_suffix s)) as [d' | e]; [| discriminate].
      injection Hd as ->. cbv zeta in Hcases. rewrite Hid, Hcontent in Hcases.
      destruct (Z.ltb_spec 21 (days_since rt (reads w) d)) as [Hdays | Hdays].
      + destruct Hcases as (rec & Hrec & E).
        rewrite (goal_talk_valid _ _ _ Hw Hdays Hrec) in E.
        exists [rec], (tick (tick w)). split; [exact E |].
        exists d, goal_id. split_and!; [done | done |].
        destruct (Z.ltb_spec 21 (days_since rt (reads w) d)); [by exists rec | lia].
      + exists [], (tick w). split; [exact Hcases |].
        exists d, goal_id. split_and!; [done | done |].
        by destruct (Z.ltb_spec 21 (days_since rt (reads w) d)); [lia |].
    - exists [], w. split; [| done]. unfold goal_talk. by rewrite Hg. }
  rewrite (bind_Ok _ _ _ _ _ Htalk).
  destruct (reports user_data) as [| r0 reports0] eqn:Hr.
  - exists talk, [], w1, w1. rewrite app_nil_r. split_and!; [| done | done | done].
    unfold report_time_reminder. rewrite Hr. reflexivity.
  - pose proof (report_time_reminder_run user_data talk w1) as Hcases.
    rewrite Hr in Hcases. specialize (Hcases ltac:(done) Hreports).
    destruct (Qlt_le_dec _ 10) eqn:Edec.
    + destruct Hcases as (rec & Hrec & E).
      rewrite (report_reminder_valid _ Hw Hrec) in E.
      exists talk, [rec], w1, (tick (tick w1)).
      split_and!; [by rewrite (bind_Ok _ _ _ _ _ E) | done | done |].
      rewrite Edec. by exists rec.
    + exists talk, [], w1, (tick w1). rewrite app_nil_r.
      split_and!; [by rewrite (bind_Ok _ _ _ _ _ Hcases) | done | done |].
      by rewrite Edec.
Qed.

(** X19: the goal-talk reminder.  On data the system block can read and
    with non-negative weights, [_recommend_system_actions] returns at most two
    items, and it holds a goal-talk candidate exactly when the user has a goal
    that started more than 21 whole days before the first reading of the
    clock; the candidate's urgency is 50 plus these days, capped at 90, so at
    least 72, its level is medium and it has no deadline. *)
Theorem goal_talk_emission user_data w :
  weights_nonnegative self ->
  (forall g, goal user_data = Some g -> goal_well_formed rt g) ->
  Forall (fun r => is_Some (report_instant rt r)) (reports user_data) ->
  exists recs w',
    _recommend_system_actions rt self user_data w = (Ok recs, w')
    /\ (length recs <= 2)%nat
    /\ (goal user_data = None ->
        forall rec, rec ∈ recs -> RecommendationItem.type rec <> GOAL_TALK)
    /\ (forall g d,
          goal user_data = Some g -> goal_start rt g = Some d ->
          let days := days_since rt (reads w) d in
          (days <= 21 -> forall rec, rec ∈ recs -> RecommendationItem.type rec <> GOAL_TALK)
          /\ (21 < days ->
              exists rec,
                head recs = Some rec
                /\ RecommendationItem.type rec = GOAL_TALK
                /\ RecommendationItem.urgency rec = inject_Z (Z.min (50 + days) 90)
                /\ 72 <= Z.min (50 + days) 90 <= 90
                /\ RecommendationItem.urgency_level rec = Some MEDIUM
                /\ RecommendationItem.deadline rec = None)).
Proof.
  intros Hw Hgoal Hreports.
  destruct (system_actions_run user_data w Hw Hgoal Hreports)
    as (talk & reminder & w1 & w' & Hrun & Hblock & Htalk & Hreminder).
  exists (talk ++ reminder)%list, w'. split; [exact Hrun |].
  assert (forall rec, rec ∈ reminder -> RecommendationItem.type rec = REPORT_TIME) as Hrem.
  { intros rec Hin. destruct (reports user_data); [subst; by apply elem_of_nil in Hin |].
    destruct (Qlt_le_dec _ 10); [| subst; by apply elem_of_nil in Hin].
    destruct Hreminder as (rec' & -> & _ & Hty & _).
    by apply list_elem_of_singleton in Hin as ->. }
  assert (length reminder <= 1)%nat as Hlen_rem.
  { destruct (reports user_data); [subst; simpl; lia |].
    destruct (Qlt_le_dec _ 10); [| subst; simpl; lia].
    destruct Hreminder as (rec' & -> & _). simpl. lia. }
  split_and!.
  - rewrite length_app.
    assert (length talk <= 1)%nat; [| lia].
    destruct (goal user_data); [| destruct Htalk as [-> _]; simpl; lia].
    destruct Htalk as (d & goal_id & _ & _ & Htalk).
    destruct (21 <? _); [destruct Htalk as (rec & -> & _) | subst]; simpl; lia.
  - intros Hnone rec Hin. rewrite Hnone in Htalk. destruct Htalk as [-> _].
    rewrite app_nil_l in Hin. rewrite (Hrem rec Hin). discriminate.
  - intros g d Hg Hd days. rewrite Hg in Htalk.
    destruct Htalk as (d' & goal_id & Hd' & Hid & Htalk).
    assert (d' = d) as -> by congruence. fold days in Htalk.
    split.
    + intros Hdays rec Hin. destruct (Z.ltb_spec 21 days); [lia |]. subst talk.
      rewrite app_nil_l in Hin. rewrite (Hrem rec Hin). discriminate.
    + intros Hdays. destruct (Z.ltb_spec 21 days); [| lia].
      destruct Htalk as (rec & -> & _ & Hty & _ & Hu & _ & _ & _ & Hdl & Hlv).
      exists rec. split_and!; try done; lia.
Qed.

(** X20: the report reminder.  On data the system block can read and with
    non-negative weights, [_recommend_system_actions] holds a report
    reminder exactly when the user has reports and those of the last 30 days
    before the reading of the clock the report block takes (after the goal
    block has taken its own) add up to less than 10 hours; reports older than
    that do not count, and a user without reports gets no reminder. *)
Theorem report_reminder_emission user_data w :
  weights_nonnegative self ->
  (forall g, goal user_data = Some g -> goal_well_formed rt g) ->
  Forall (fun r => is_Some (report_instant rt r)) (reports user_data) ->
  exists recs w',
    _recommend_system_actions rt self user_data w = (Ok recs, w')
    /\ (reports user_data = [] ->
        forall rec, rec ∈ recs -> RecommendationItem.type rec <> REPORT_TIME)
    /\ (reports user_data <> [] ->
        let hours :=
          recent_hours rt (clock rt (report_reading rt self user_data w))
            (reports user_data) in
        ((10 <= hours)%Q ->
         forall rec, rec ∈ recs -> RecommendationItem.type rec <> REPORT_TIME)
        /\ ((hours < 10)%Q ->
            exists rec,
              last recs = Some rec
              /\ RecommendationItem.type rec = REPORT_TIME
              /\ RecommendationItem.urgency_level rec = Some MEDIUM
              /\ RecommendationItem.deadline rec = None)).
Proof.
  intros Hw Hgoal Hreports.
  destruct (system_actions_run user_data w Hw Hgoal Hreports)
    as (talk & reminder & w1 & w' & Hrun & Hblock & Htalk & Hreminder).
  exists (talk ++ reminder)%list, w'. split; [exact Hrun |].
  assert (forall rec, rec ∈ talk -> RecommendationItem.type rec = GOAL_TALK) as Htk.
  { intros rec Hin.
    destruct (goal user_data);
      [| destruct Htalk as [-> _]; by apply elem_of_nil in Hin].
    destruct Htalk as (d & goal_id & _ & _ & Htalk).
    destruct (21 <? _); [| subst; by apply elem_of_nil in Hin].
    destruct Htalk as (rec' & -> & _ & Hty & _).
    by apply list_elem_of_singleton in Hin as ->. }
  split.
  - intros Hnone rec Hin. rewrite Hnone in Hreminder. subst reminder.
    rewrite app_nil_r in Hin. rewrite (Htk rec Hin). discriminate.
  - intros Hne. destruct (reports user_data) as [| r0 reports0] eqn:Hr; [done |].
    cbv zeta. unfold report_reading. rewrite Hblock. cbn [snd].
    split.
    + intros Hmany rec Hin.
      destruct (Qlt_le_dec _ 10) as [Hlt | _]; [lra |].
      subst reminder. rewrite app_nil_r in Hin. rewrite (Htk rec Hin). discriminate.
    + intros Hfew.
      destruct (Qlt_le_dec _ 10) as [_ | Hge]; [| lra].
      destruct Hreminder as (rec & -> & _ & Hty & _ & _ & _ & _ & _ & Hdl & Hlv).
      exists rec. rewrite last_snoc. done.
Qed.

(** *** Every emitted item has passed the validation *)

Lemma append_new_valid fields (recs recs' : list RecommendationItem.t) w w' :
  bind (RecommendationItem_new rt fields) (fun rec => ret (recs ++ [rec])%list) w
  = (Ok recs', w') ->
  exists rec, recs' = (recs ++ [rec])%list /\ scores_valid rec = true.
Proof.
  rewrite append_new_run. cbv zeta.
  destruct (scores_valid _) eqn:Hvalid; [| discriminate].
  intros [= <- _]. eauto.
Qed.

Lemma Forall_valid_snoc (recs : list RecommendationItem.t) (rec : RecommendationItem.t) :
  Forall (fun r => scores_valid r = true) recs -> scores_valid rec = true ->
  Forall (fun r => scores_valid r = true) (recs ++ [rec]).
Proof. intros Hrecs Hrec. apply Forall_app. split; [done |]. by constructor. Qed.

Lemma course_urgent_step_valid selection recs w recs' w' :
  course_urgent_step rt settings self selection recs w = (Ok recs', w') ->
  Forall (fun r => scores_valid r = true) recs ->
  Forall (fun r => scores_valid r = true) recs'.
Proof.
  intros Hrun Hrecs.
  destruct (course_urgent_step_run rt settings self selection recs w)
    as [[_ E] | (_ & rec & _ & E)]; rewrite E in Hrun.
  - by injection Hrun as <- _.
  - destruct (scores_valid rec) eqn:Hvalid; [| discriminate].
    injection Hrun as <- _. by apply Forall_valid_snoc.
Qed.

Lemma course_popular_step_valid selected course recs w recs' w' :
  course_popular_step rt self selected course recs w = (Ok recs', w') ->
  Forall (fun r => scores_valid r = true) recs ->
  Forall (fun r => scores_valid r = true) recs'.
Proof.
  intros Hrun Hrecs.
  pose proof (course_popular_step_run rt self selected course recs w) as Hcases.
  destruct (Course.id course) as [cid |]; [| by rewrite Hcases in Hrun].
  cbv zeta in Hcases.
  destruct (negb (bool_decide (cid ∈ selected))
            && (5 <=? get_default (Course.finish_selections_num course) 0)
            && Qle_bool 60 _);
    [| rewrite Hcases in Hrun; by injection Hrun as <- _].
  destruct (Course.title course); [| by rewrite Hcases in Hrun].
  destruct Hcases as (rec & _ & E). rewrite E in Hrun.
  destruct (scores_valid rec) eqn:Hvalid; [| discriminate].
  injection Hrun as <- _. by apply Forall_valid_snoc.
Qed.

Lemma project_step_valid user_data project recs w recs' w' :
  project_step rt settings self user_data project recs w = (Ok recs', w') ->
  Forall (fun r => scores_valid r = true) recs ->
  Forall (fun r => scores_valid r = true) recs'.
Proof.
  intros Hrun Hrecs.
  pose proof (project_step_run user_data project recs w) as Hcases.
  destruct (InnoProject.taker_id project).
  { rewrite Hcases in Hrun. by injection Hrun as <- _. }
  cbv zeta in Hcases.
  destruct (Qle_bool 50 _); [| rewrite Hcases in Hrun; by injection Hrun as <- _].
  destruct (InnoProject.desc project); [| by rewrite Hcases in Hrun].
  destruct Hcases as (rec & _ & E). rewrite E in Hrun.
  destruct (scores_valid rec) eqn:Hvalid; [| discriminate].
  injection Hrun as <- _. by apply Forall_valid_snoc.
Qed.

Lemma goal_talk_step_valid user_data recs w recs' w' :
  goal_talk rt self user_data recs w = (Ok recs', w') ->
  Forall (fun r => scores_valid r = true) recs ->
  Forall (fun r => scores_valid r = true) recs'.
Proof.
  intros Hrun Hrecs.
  destruct (goal user_data) as [g |] eqn:Hg.
  2: { unfold goal_talk in Hrun. rewrite Hg in Hrun. by injection Hrun as <- _. }
  pose proof (goal_talk_run user_data g recs w Hg) as Hcases.
  destruct (Goal.start_time g); [| by rewrite Hcases in Hrun].
  destruct (fromisoformat rt _); [| by rewrite Hcases in Hrun].
  cbv zeta in Hcases.
  destruct (21 <? _); [| rewrite Hcases in Hrun; by injection Hrun as <- _].
  destruct (Goal.id g); [| by rewrite Hcases in Hrun].
  destruct (Goal.content g); [| by rewrite Hcases in Hrun].
  destruct Hcases as (rec & _ & E). rewrite E in Hrun.
  destruct (scores_valid rec) eqn:Hvalid; [| discriminate].
  injection Hrun as <- _. by apply Forall_valid_snoc.
Qed.

Lemma report_time_reminder_valid user_data recs w recs' w' :
  report_time_reminder rt self user_data recs w = (Ok recs', w') ->
  Forall (fun r => scores_valid r = true) recs ->
  Forall (fun r => scores_valid r = true) recs'.
Proof.
  unfold report_time_reminder. intros Hrun Hrecs.
  destruct (reports user_data); [by injection Hrun as <- _ |].
  apply bind_Ok_inv in Hrun as (now & w1 & _ & Hrun). cbv zeta in Hrun.
  apply bind_Ok_inv in Hrun as (recent & w2 & _ & Hrun).
  destruct (Qlt_le_dec _ 10); [| by injection Hrun as <- _].
  apply append_new_valid in Hrun as (rec & -> & Hvalid).
  by apply Forall_valid_snoc.
Qed.

(** Whatever the three generators return has passed the validation. *)
Lemma generators_valid user_data :
  (forall w recs w',
     _recommend_courses rt settings self user_data w = (Ok recs, w') ->
     Forall (fun r => scores_valid r = true) recs)
  /\ (forall w recs w',
        _recommend_projects rt settings self user_data w = (Ok recs, w') ->
        Forall (fun r => scores_valid r = true) recs)
  /\ (forall w recs w',
        _recommend_system_actions rt self user_data w = (Ok recs, w') ->
        Forall (fun r => scores_valid r = true) recs).
Proof.
  split_and!.
  - intros w recs w' Hrun.
    apply recommend_courses_inv in Hrun as (recs1 & w1 & H1 & H2).
    apply (for_each_Forall
             (course_popular_step rt self (course_ids (selections user_data)))
             (fun r => scores_valid r = true) (all_courses user_data))
      with (acc := recs1) (w := w1) (w' := w'); [| exact H2 |].
    + intros. by eapply course_popular_step_valid.
    + apply (for_each_Forall (course_urgent_step rt settings self)
               (fun r => scores_valid r = true) (selections user_data))
        with (acc := []) (w := w) (w' := w1); [| exact H1 | constructor].
      intros. by eapply course_urgent_step_valid.
  - intros w recs w' Hrun. unfold _recommend_projects in Hrun.
    apply (for_each_Forall (project_step rt settings self user_data)
             (fun r => scores_valid r = true) (projects user_data))
      with (acc := []) (w := w) (w' := w'); [| exact Hrun | constructor].
    intros. by eapply project_step_valid.
  - intros w recs w' Hrun. unfold _recommend_system_actions in Hrun.
    apply bind_Ok_inv in Hrun as (recs1 & w1 & H1 & Hrun).
    apply bind_Ok_inv in Hrun as (recs2 & w2 & H2 & Hrun).
    injection Hrun as <- _.
    eapply report_time_reminder_valid; [exact H2 |].
    eapply goal_talk_step_valid; [exact H1 | constructor].
Qed.

End GeneratorFurther.

(** ** The orchestration, further *)

Section OrchestrationFurther.

Variable rt : Runtime.
Variable settings : Settings.
Variable api_gather : Z -> string -> res Gathered.
Variable self : RecommendationEngine.

Lemma scores_valid_in_range (rec : RecommendationItem.t) :
  scores_valid rec = true -> scores_in_range rec.
Proof.
  unfold scores_valid, scores_in_range. rewrite !andb_true_iff, !in_0_100_iff. tauto.
Qed.

(** X21: every recommendation [generate_recommendations] returns has its
    total score and its four sub-scores in [0, 100], whatever the weights and
    whatever the provider delivers: an item with a score out of range is
    refused when it is built, and the selector only passes items on. *)
Theorem generated_scores_in_range user_id token w :
  Forall scores_in_range
    (returned_items (generate_recommendations rt settings api_gather self user_id token w)).
Proof.
  unfold returned_items, generate_recommendations, try_except.
  destruct (generate_recommendations_try rt settings api_gather self user_id token w)
    as [[recs | e] w1] eqn:Htry; [| constructor].
  cbn [fst]. unfold generate_recommendations_try in Htry.
  apply bind_Ok_inv in Htry as (user_data & w2 & _ & Htry).
  apply bind_Ok_inv in Htry as (course_recs & w3 & Hc & Htry).
  apply bind_Ok_inv in Htry as (project_recs & w4 & Hp & Htry).
  apply bind_Ok_inv in Htry as (system_recs & w5 & Hs & Htry).
  cbv zeta in Htry.
  apply bind_Ok_inv in Htry as (u & w6 & _ & Htry).
  injection Htry as <- _.
  destruct (generators_valid rt settings self user_data) as (Hcv & Hpv & Hsv).
  apply Forall_forall. intros rec Hin. apply scores_valid_in_range.
  apply select_top3_elem_of in Hin.
  assert (Forall (fun r => scores_valid r = true) (course_recs ++ project_recs ++ system_recs))
    as Hall.
  { rewrite !Forall_app. split_and!; [by eapply Hcv | by eapply Hpv | by eapply Hsv]. }
  rewrite Forall_forall in Hall. by apply Hall.
Qed.

(** *** Records the generators cannot read *)







(** Nothing to recommend.  With the real provider, when every fetch
    failed or brought nothing, [generate_recommendations] returns the empty
    list through its normal path: no error is logged for the generation, the
    last log entry reports 0 recommendations, and the clock is not read. *)
Theorem nothing_to_recommend user_id token w results :
  use_mock_data settings = false ->
  api_gather user_id token = Ok results ->
  value_or (results_0 results) [] = [] ->
  value_or (results_1 results) [] = [] ->
  value_or (results_2 results) [] = [] ->
  value_or (results_3 results) None = None ->
  value_or (results_4 results) [] = [] ->
  exists w',
    generate_recommendations_try rt settings api_gather self user_id token w = (Ok [], w')
    /\ generate_recommendations rt settings api_gather self user_id token w = (Ok [], w')
    /\ last (log w')
       = Some {| level := INFO;
                 message := "为用户" ++ pretty user_id ++ "生成了" ++ pretty 0 ++ "个推荐" |}
    /\ reads w' = reads w.
Proof.
  intros Hmock Hgather E0 E1 E2 E3 E4.
  destruct (fetch_user_data_defaults rt settings api_gather self user_id token results w
              Hmock Hgather) as (user_data & w1 & Hfetch & H0 & H1 & H2 & H3 & H4).
  assert (selections user_data = [] /\ all_courses user_data = []
          /\ projects user_data = [] /\ goal user_data = None /\ reports user_data = [])
    as (Hs & Hc & Hp & Hg & Hr).
  { unfold value_or_default, value_or in *.
    split_and!;
      [ destruct (results_0 results) | destruct (results_1 results)
      | destruct (results_2 results) | destruct (results_3 results)
      | destruct (results_4 results) ]; congruence. }
  assert (reads w1 = reads w) as Hreads.
  { unfold _fetch_user_data in Hfetch. rewrite Hmock in Hfetch.
    rewrite bind_unfold in Hfetch. cbn [log_info logger] in Hfetch.
    unfold try_except in Hfetch. rewrite bind_unfold in Hfetch.
    unfold lift_res at 1 in Hfetch. rewrite Hgather in Hfetch.
    revert Hfetch.
    destruct (results_0 results), (results_1 results), (results_2 results),
      (results_3 results), (results_4 results);
      cbv [bind log_api_failure log_error logger ret World_log];
      intros [= _ <-]; reflexivity. }
  assert (generate_recommendations_try rt settings api_gather self user_id token w
          = (Ok [], World_log {| level := INFO;
                                 message := "为用户" ++ pretty user_id ++ "生成了"
                                            ++ pretty 0 ++ "个推荐" |} w1)) as Htry.
  { unfold generate_recommendations_try. rewrite (bind_Ok _ _ _ _ _ Hfetch).
    unfold _recommend_courses, _recommend_projects, _recommend_system_actions,
      goal_talk, report_time_reminder.
    rewrite Hs, Hc, Hp, Hg, Hr. reflexivity. }
  eexists. split; [exact Htry |]. split_and!.
  - unfold generate_recommendations, try_except. by rewrite Htry.
  - cbn [log World_log]. by rewrite last_snoc.
  - exact Hreads.
Qed.

End OrchestrationFurther.


Lemma system_user_data_well_formed :
  (forall g, goal system_user_data = Some g -> goal_well_formed month_later_runtime g)
  /\ Forall (fun r => is_Some (report_instant month_later_runtime r))
       (reports system_user_data).
Proof.
  split.
  - intros g [= <-]. repeat split; by eexists.
  - repeat constructor. by eexists.
Qed.

(** Thirty days after the goal was set the reminder is there, with an
    urgency of 80. *)
Lemma goal_talk_emission_witness :
  exists recs w' rec,
    _recommend_system_actions month_later_runtime default_engine system_user_data empty_world
    = (Ok recs, w')
    /\ head recs = Some rec
    /\ RecommendationItem.type rec = GOAL_TALK
    /\ RecommendationItem.urgency rec = inject_Z 80.
Proof.
  destruct (goal_talk_emission month_later_runtime default_engine system_user_data
              empty_world) as (recs & w' & Hrun & _ & _ & Hgoal).
  - vm_compute. repeat split; congruence.
  - apply system_user_data_well_formed.
  - apply system_user_data_well_formed.
  - destruct (Hgoal sample_goal {| wall := 0; tzinfo := None |} eq_refl eq_refl) as [_ Hlate].
    destruct Hlate as (rec & Hhead & Hty & Hu & _); [by vm_compute |].
    exists recs, w', rec. split_and!; assumption.
Defined.

Lemma system_user_data_readable :
  (forall g, goal system_user_data = Some g -> goal_well_formed month_ticking_runtime g)
  /\ Forall (fun r => is_Some (report_instant month_ticking_runtime r))
       (reports system_user_data).
Proof.
  split.
  - intros g [= <-]. repeat split; by eexists.
  - repeat constructor. by eexists.
Qed.

(** On a clock that advances: at the first reading the one report of 12
    hours is still within its thirty days; the goal block takes that reading
    and one more, the report block then reads the clock two microseconds
    later, the report does not count any more, and the reminder is there. *)
Lemma report_reminder_emission_witness :
  exists recs w' rec,
    _recommend_system_actions month_ticking_runtime default_engine system_user_data
      empty_world = (Ok recs, w')
    /\ last recs = Some rec
    /\ RecommendationItem.type rec = REPORT_TIME
    /\ report_reading month_ticking_runtime default_engine system_user_data empty_world
       = 2%nat
    /\ (recent_hours month_ticking_runtime (clock month_ticking_runtime 0)
          (reports system_user_data) == 12)%Q.
Proof.
  destruct (report_reminder_emission month_ticking_runtime default_engine system_user_data
              empty_world) as (recs & w' & Hrun & _ & Hreports).
  - vm_compute. repeat split; congruence.
  - apply system_user_data_readable.
  - apply system_user_data_readable.
  - destruct Hreports as [_ Hfew]; [discriminate |].
    destruct Hfew as (rec & Hlast & Hty & _); [by vm_compute |].
    exists recs, w', rec. split_and!; [exact Hrun | exact Hlast | exact Hty | |];
      by vm_compute.
Defined.


Lemma nothing_to_recommend_witness :
  exists w',
    generate_recommendations_try still_runtime default_settings api_all_fail default_engine
      51 "test_token" empty_world = (Ok [], w')
    /\ generate_recommendations still_runtime default_settings api_all_fail default_engine
         51 "test_token" empty_world = (Ok [], w')
    /\ last (log w')
       = Some {| level := INFO;
                 message := "为用户" ++ pretty 51 ++ "生成了" ++ pretty 0 ++ "个推荐" |}
    /\ reads w' = reads empty_world.
Proof.
  apply (nothing_to_recommend still_runtime default_settings api_all_fail default_engine
           51 "test_token" empty_world
           {| results_0 := Raise upstream_down; results_1 := Raise upstream_down;
              results_2 := Raise upstream_down; results_3 := Raise upstream_down;
              results_4 := Raise upstream_down |}); reflexivity.
Defined.

(** ** The default weights *)

(** X23: with the default weights the course generator never emits a
    course-popular candidate: the total score of such a candidate is at most
    58, below the threshold of 60.  Whatever the catalogue holds, every item
    the course generator returns is a course-urgent one. *)
Theorem default_weights_never_popular (rt : Runtime) (settings : Settings)
    (user_data : UserData) (w : World) :
  Forall (fun rec => RecommendationItem.type rec = COURSE_URGENT)
    (returned_items (_recommend_courses rt settings default_engine user_data w)).
Proof.
  unfold returned_items.
  destruct (_recommend_courses rt settings default_engine user_data w)
    as [[recs | e] w'] eqn:Hrun; [| constructor].
  cbn [fst]. apply recommend_courses_inv in Hrun as (recs1 & w1 & H1 & H2).
  apply (for_each_Forall
           (course_popular_step rt default_engine (course_ids (selections user_data)))
           (fun rec => RecommendationItem.type rec = COURSE_URGENT) (all_courses user_data))
    with (acc := recs1) (w := w1) (w' := w'); [| exact H2 |].
  - intros course acc w0 acc' w0' _ Hstep Hacc.
    apply course_popular_step_inv in Hstep
      as [-> | (cid & r & _ & _ & _ & Hscore & _)]; [done |].
    pose proof (course_popular_score_default
                  (get_default (Course.finish_selections_num course) 0)).
    lra.
  - apply (for_each_Forall (course_urgent_step rt settings default_engine)
             (fun rec => RecommendationItem.type rec = COURSE_URGENT)
             (selections user_data)) with (acc := []) (w := w) (w' := w1);
      [| exact H1 | constructor].
    intros selection acc w0 acc' w0' _ Hstep Hacc.
    apply course_urgent_step_inv in Hstep as [[_ ->] | (_ & r & Hr & ->)]; [done |].
    apply Forall_app. split; [done |]. constructor; [| constructor].
    by destruct Hr as (_ & Hty & _).
Qed.

Lemma project_urgency_at_least_40 (days : Z) :
  (40 <= inject_Z (_calculate_urgency_score days "PROJECT"))%Q.
Proof.
  change 40%Q with (inject_Z 40). rewrite <- Zle_Qle.
  unfold _calculate_urgency_score. cbn [String.eqb Ascii.eqb Bool.eqb].
  repeat case_match; lia.
Qed.

Lemma project_fit_at_least_50 project user_data :
  (50 <= inject_Z (_calculate_project_fit_score project user_data))%Q.
Proof.
  change 50%Q with (inject_Z 50). rewrite <- Zle_Qle.
  unfold _calculate_project_fit_score. cbv zeta.
  destruct (Qlt_le_dec 200 (bonus_or_0 project)), (Qlt_le_dec 100 (bonus_or_0 project)),
    (Qle_bool (InnoProject.planed_hour project) 10); simpl; lia.
Qed.

(** With the default weights the total score of a project is at least
    50.5: the threshold of 50 never filters. *)
Lemma project_score_default project user_data days :
  (0 <= bonus_or_0 project)%Q -> (0 <= InnoProject.planed_hour project)%Q ->
  (50 <= project_score default_engine project user_data days)%Q.
Proof.
  intros Hb Hh. unfold project_score, _calculate_total_score.
  apply py_min_glb; [| lra].
  pose proof (project_urgency_at_least_40 days) as Hu.
  pose proof (project_fit_at_least_50 project user_data) as Hf.
  assert (60 <= py_min (60 + bonus_or_0 project / 10) 90)%Q as Hi.
  { apply py_min_glb; [| lra].
    assert (0 <= bonus_or_0 project / 10)%Q by (apply Qle_shift_div_l; lra). lra. }
  assert (60 <= py_min (60 + InnoProject.planed_hour project * 2) 90)%Q as Hg
    by (apply py_min_glb; lra).
  change (w_urgency (algorithm_weights default_engine)) with 0.35%Q.
  change (w_importance (algorithm_weights default_engine)) with 0.30%Q.
  change (w_personal_fit (algorithm_weights default_engine)) with 0.25%Q.
  change (w_growth_value (algorithm_weights default_engine)) with 0.10%Q.
  lra.
Qed.

Lemma default_weights_nonnegative : weights_nonnegative default_engine.
Proof. vm_compute. repeat split; congruence. Qed.

Lemma project_loop_default (rt : Runtime) (settings : Settings) (user_data : UserData)
    (l : list InnoProject.t) (acc : list RecommendationItem.t) (w : World) :
  Forall (fun project => InnoProject.taker_id project = None -> project_well_formed project) l ->
  exists ext w',
    for_each (project_step rt settings default_engine user_data) l acc w
    = (Ok (acc ++ ext)%list, w')
    /\ RecommendationItem.id <$> ext
       = (fun project => "task_claim_" ++ pretty (InnoProject.id project))
           <$> List.filter is_open l.
Proof.
  intros Hwf. revert acc w. induction Hwf as [| project l Hp _ IH]; intros acc w.
  - exists [], w. by rewrite app_nil_r.
  - cbn [for_each List.filter]. unfold is_open at 1.
    pose proof (project_step_run rt settings default_engine user_data project acc w) as Hcases.
    destruct (InnoProject.taker_id project).
    + rewrite (bind_Ok _ _ _ _ _ Hcases). apply IH.
    + destruct (Hp eq_refl) as ([d Hd] & Hb & Hh). cbv zeta in Hcases.
      pose proof (project_score_default project user_data
                    (days_to_deadline rt (reads w) (InnoProject.deadline project)) Hb Hh)
        as Hscore.
      apply Qle_bool_iff in Hscore. rewrite Hscore, Hd in Hcases.
      destruct Hcases as (rec & Hrec & E).
      rewrite (project_candidate_valid settings default_engine user_data project _ rec
                 default_weights_nonnegative Hb Hh Hrec) in E.
      rewrite (bind_Ok _ _ _ _ _ E).
      destruct (IH (acc ++ [rec])%list (tick (tick w))) as (ext & w' & -> & Hids).
      exists (rec :: ext), w'. split; [by rewrite <- app_assoc |].
      cbn [fmap list_fmap]. f_equal; [by destruct Hrec as (-> & _) | exact Hids].
Qed.

(** X24: with the default weights the threshold of 50 of the project
    generator never filters: every project nobody has taken, with a
    description and neither a negative bonus nor negative planned hours, is
    recommended, whatever its deadline; the candidates come in the order of
    the projects, one for each. *)
Theorem default_weights_every_open_project (rt : Runtime) (settings : Settings)
    (user_data : UserData) (w : World) :
  Forall (fun project => InnoProject.taker_id project = None -> project_well_formed project)
    (projects user_data) ->
  exists recs w',
    _recommend_projects rt settings default_engine user_data w = (Ok recs, w')
    /\ RecommendationItem.id <$> recs
       = (fun project => "task_claim_" ++ pretty (InnoProject.id project))
           <$> List.filter is_open (projects user_data).
Proof.
  intros Hwf. unfold _recommend_projects.
  destruct (project_loop_default rt settings user_data (projects user_data) [] w Hwf)
    as (ext & w' & Hrun & Hids).
  exists ext, w'. by rewrite app_nil_l in Hrun.
Qed.

Lemma default_weights_every_open_project_witness :
  exists recs w',
    _recommend_projects still_runtime default_settings default_engine project_user_data
      empty_world = (Ok recs, w')
    /\ RecommendationItem.id <$> recs
       = (fun project => "task_claim_" ++ pretty (InnoProject.id project))
           <$> List.filter is_open (projects project_user_data).
Proof.
  apply default_weights_every_open_project.
  repeat constructor; [by eexists | by vm_compute | by vm_compute].
Defined.

(** ** The client of the provider *)

Section ClientProperties.

Variable rt : Runtime.

Lemma stateless_ret {A} (a : A) : stateless (ret a).
Proof. by intros w. Qed.

Lemma stateless_getitem {A} key (v : option A) : stateless (getitem key v).
Proof. intros w. by destruct v. Qed.

Lemma stateless_lift_res {A} (r : res A) : stateless (lift_res r).
Proof. by intros w. Qed.

Lemma stateless_bind {A B} (m : prog World A) (k : A -> prog World B) :
  stateless m -> (forall a, stateless (k a)) -> stateless (bind m k).
Proof.
  intros Hm Hk w. rewrite !bind_unfold, (Hm w).
  destruct (m empty_world) as [[a | e] w0] eqn:E; cbn [fst].
  - pose proof (Hm empty_world) as Hm0. rewrite E in Hm0. cbn [fst] in Hm0.
    injection Hm0 as ->. apply Hk.
  - reflexivity.
Qed.

Lemma parse_selection_pure (item : RawSelection.t) : stateless (parse_selection rt item).
Proof.
  unfold parse_selection.
  repeat (apply stateless_bind;
          [first [apply stateless_getitem | apply stateless_lift_res] | intros ?]).
  apply stateless_ret.
Qed.

Lemma parse_project_pure (item : RawProject.t) : stateless (parse_project rt item).
Proof.
  unfold parse_project.
  repeat (apply stateless_bind;
          [first [apply stateless_getitem | apply stateless_lift_res] | intros ?]).
  apply stateless_ret.
Qed.

Lemma getitem_Ok_inv {A} key (v : option A) (w w' : World) (a : A) :
  getitem key v w = (Ok a, w') -> v = Some a /\ w' = w.
Proof. destruct v; cbn; intros [= <- <-] || intros [=]; done. Qed.

Lemma lift_res_Ok_inv {A} (r : res A) (w w' : World) (a : A) :
  lift_res r w = (Ok a, w') -> r = Ok a /\ w' = w.
Proof. unfold lift_res. by intros [= -> <-]. Qed.

Lemma warnings_snoc (l : list LogRecord) (r : LogRecord) :
  warnings (l ++ [r])
  = (warnings l + match level r with WARNING => 1 | _ => 0 end)%nat.
Proof.
  unfold warnings. rewrite List.filter_app, length_app. simpl.
  by destruct (level r).
Qed.

Lemma selection_step_run (item : RawSelection.t) (selections : list CourseSelection.t)
    (w : World) :
  exists w',
    selection_step rt item selections w
    = (Ok (selections ++ from_option (fun s => [s]) [] (parsed_selection rt item))%list, w')
    /\ reads w' = reads w
    /\ warnings (log w')
       = (warnings (log w) + if parsed_selection rt item is Some _ then 0 else 1)%nat.
Proof.
  unfold selection_step, try_except, parsed_selection.
  rewrite bind_unfold, (parse_selection_pure item w).
  destruct (parse_selection rt item empty_world).1 as [selection | e]; cbn [fst from_option].
  - exists w. split_and!; [done | done | lia].
  - cbv [bind log_warning logger ret World_log]. eexists. split_and!.
    + by rewrite app_nil_r.
    + done.
    + cbn [log]. by rewrite warnings_snoc.
Qed.

Lemma selections_loop (data : list RawSelection.t) (selections : list CourseSelection.t)
    (w : World) :
  exists w',
    for_each (selection_step rt) data selections w
    = (Ok (selections ++ omap (parsed_selection rt) data)%list, w')
    /\ reads w' = reads w
    /\ (warnings (log w') + length (omap (parsed_selection rt) data)
        = warnings (log w) + length data)%nat.
Proof.
  revert selections w. induction data as [| item data IH]; intros selections w.
  - exists w. cbn. rewrite app_nil_r. split_and!; [done | done | lia].
  - destruct (selection_step_run item selections w) as (w1 & Hstep & Hreads & Hwarn).
    cbn [for_each omap list_omap]. rewrite (bind_Ok _ _ _ _ _ Hstep).
    destruct (IH (selections ++ from_option (fun s => [s]) [] (parsed_selection rt item))%list w1)
      as (w' & -> & Hreads' & Hwarn').
    exists w'. destruct (parsed_selection rt item) as [selection |]; cbn [from_option length].
    + rewrite <- app_assoc. split_and!; [done | congruence | lia].
    + rewrite app_nil_r. split_and!; [done | congruence | lia].
Qed.

Lemma parsed_selection_readable (item : RawSelection.t) :
  is_Some (parsed_selection rt item) <-> selection_readable rt item.
Proof.
  unfold parsed_selection, selection_readable. split.
  - destruct (parse_selection rt item empty_world) as [[selection | e] w'] eqn:E;
      cbn [fst]; [intros _ | intros [? [=]]].
    unfold parse_selection in E.
    apply bind_Ok_inv in E as (deadline_str & w1 & H1 & E).
    apply getitem_Ok_inv in H1 as [H1 ->].
    apply bind_Ok_inv in E as (? & ? & H2 & E). apply getitem_Ok_inv in H2 as [H2 ->].
    apply bind_Ok_inv in E as (? & ? & H3 & E). apply getitem_Ok_inv in H3 as [H3 ->].
    apply bind_Ok_inv in E as (? & ? & H4 & E). apply getitem_Ok_inv in H4 as [H4 ->].
    apply bind_Ok_inv in E as (? & ? & H5 & E). apply getitem_Ok_inv in H5 as [H5 ->].
    apply bind_Ok_inv in E as (? & ? & H6 & E). apply getitem_Ok_inv in H6 as [H6 ->].
    apply bind_Ok_inv in E as (? & ? & H7 & E). apply getitem_Ok_inv in H7 as [H7 ->].
    apply bind_Ok_inv in E as (? & ? & H8 & E). apply getitem_Ok_inv in H8 as [H8 ->].
    apply bind_Ok_inv in E as (? & ? & H9 & E). apply getitem_Ok_inv in H9 as [H9 ->].
    apply bind_Ok_inv in E as (? & ? & H10 & E). apply lift_res_Ok_inv in H10 as [H10 ->].
    apply bind_Ok_inv in E as (? & ? & H11 & E). apply getitem_Ok_inv in H11 as [H11 ->].
    split_and!; try (by eexists).
    exists deadline_str. by rewrite H10.
  - intros ([? H2] & [? H3] & [? H4] & [? H5] & [? H6] & [? H7] & [? H8] & [? H9]
            & [? H11] & deadline_str & H1 & H10).
    destruct (fromisoformat rt (deadline_with_zone deadline_str)) as [deadline | e] eqn:Hparse;
      [| discriminate].
    unfold parse_selection. rewrite H1, H2, H3, H4, H5, H6, H7, H8, H9, H11.
    cbv [bind getitem ret lift_res]. rewrite Hparse. by eexists.
Qed.

(** X25: [get_user_selections] keeps what it can read and skips the
    rest.  When the request returns a list, the method returns, in the order
    of the list, the models of the items it can read, and logs one warning for
    every other item; an item can be read exactly when it carries the ten
    required keys and [fromisoformat] accepts its deadline once that has its
    zone.  When the request raises, so does the method. *)
Theorem get_user_selections_skips_unreadable
    (request_selections : string -> prog World (list RawSelection.t))
    (token : string) (w : World) :
  match request_selections token w with
  | (Ok data, w1) =>
      exists w',
        get_user_selections rt request_selections token w
        = (Ok (omap (parsed_selection rt) data), w')
        /\ reads w' = reads w1
        /\ (warnings (log w') + length (omap (parsed_selection rt) data)
            = warnings (log w1) + length data)%nat
  | (Raise e, w1) => get_user_selections rt request_selections token w = (Raise e, w1)
  end
  /\ forall item, is_Some (parsed_selection rt item) <-> selection_readable rt item.
Proof.
  split; [| apply parsed_selection_readable].
  unfold get_user_selections. rewrite bind_unfold.
  destruct (request_selections token w) as [[data | e] w1]; [| done].
  destruct (selections_loop data [] w1) as (w' & Hrun & Hreads & Hwarn).
  exists w'. by rewrite app_nil_l in Hrun.
Qed.

Lemma project_parse_step_run (item : RawProject.t) (projects : list InnoProject.t)
    (w : World) :
  exists w',
    project_parse_step rt item projects w
    = (Ok (projects ++ from_option (fun p => [p]) [] (parsed_project rt item))%list, w')
    /\ reads w' = reads w
    /\ warnings (log w')
       = (warnings (log w) + if parsed_project rt item is Some _ then 0 else 1)%nat.
Proof.
  unfold project_parse_step, try_except, parsed_project.
  rewrite bind_unfold, (parse_project_pure item w).
  destruct (parse_project rt item empty_world).1 as [project | e]; cbn [fst from_option].
  - exists w. split_and!; [done | done | lia].
  - cbv [bind log_warning logger ret World_log]. eexists. split_and!.
    + by rewrite app_nil_r.
    + done.
    + cbn [log]. by rewrite warnings_snoc.
Qed.

Lemma projects_loop (data : list RawProject.t) (projects : list InnoProject.t) (w : World) :
  exists w',
    for_each (project_parse_step rt) data projects w
    = (Ok (projects ++ omap (parsed_project rt) data)%list, w')
    /\ reads w' = reads w
    /\ (warnings (log w') + length (omap (parsed_project rt) data)
        = warnings (log w) + length data)%nat.
Proof.
  revert projects w. induction data as [| item data IH]; intros projects w.
  - exists w. cbn. rewrite app_nil_r. split_and!; [done | done | lia].
  - destruct (project_parse_step_run item projects w) as (w1 & Hstep & Hreads & Hwarn).
    cbn [for_each omap list_omap]. rewrite (bind_Ok _ _ _ _ _ Hstep).
    destruct (IH (projects ++ from_option (fun p => [p]) [] (parsed_project rt item))%list w1)
      as (w' & -> & Hreads' & Hwarn').
    exists w'. destruct (parsed_project rt item) as [project |]; cbn [from_option length].
    + rewrite <- app_assoc. split_and!; [done | congruence | lia].
    + rewrite app_nil_r. split_and!; [done | congruence | lia].
Qed.

Lemma parsed_project_inv (item : RawProject.t) (project : InnoProject.t) :
  parsed_project rt item = Some project ->
  exists deadline_str create_time_str,
    RawProject.deadline item = Some deadline_str
    /\ RawProject.create_time item = Some create_time_str
    /\ RawProject.id item = Some (InnoProject.id project)
    /\ RawProject.task_serial item = Some (InnoProject.task_serial project)
    /\ RawProject.title item = Some (InnoProject.title project)
    /\ RawProject.publisher item = Some (InnoProject.publisher project)
    /\ fromisoformat rt (deadline_with_zone deadline_str) = Ok (InnoProject.deadline project)
    /\ RawProject.planed_hour item = Some (InnoProject.planed_hour project)
    /\ fromisoformat rt (with_utc_suffix create_time_str)
       = Ok (InnoProject.create_time project)
    /\ InnoProject.taker_id project = RawProject.taker_id item
    /\ InnoProject.status project = get_or (RawProject.status item) (Some "待认领")
    /\ InnoProject.desc project = get_or (RawProject.desc item) (Some "")
    /\ is_Some (InnoProject.bonus project)
    /\ (0 <= get_default (RawProject.bonus item) 0 -> 0 <= bonus_or_0 project)%Q.
Proof.
  unfold parsed_project.
  destruct (parse_project rt item empty_world) as [[p | e] w'] eqn:E; cbn [fst]; [| done].
  intros [= ->]. unfold parse_project in E.
  apply bind_Ok_inv in E as (deadline_str & ? & H1 & E).
  apply getitem_Ok_inv in H1 as [H1 ->].
  apply bind_Ok_inv in E as (create_time_str & ? & H2 & E).
  apply getitem_Ok_inv in H2 as [H2 ->].
  apply bind_Ok_inv in E as (? & ? & H3 & E). apply getitem_Ok_inv in H3 as [H3 ->].
  apply bind_Ok_inv in E as (? & ? & H4 & E). apply getitem_Ok_inv in H4 as [H4 ->].
  apply bind_Ok_inv in E as (? & ? & H5 & E). apply getitem_Ok_inv in H5 as [H5 ->].
  apply bind_Ok_inv in E as (? & ? & H6 & E). apply getitem_Ok_inv in H6 as [H6 ->].
  apply bind_Ok_inv in E as (? & ? & H7 & E). apply lift_res_Ok_inv in H7 as [H7 ->].
  apply bind_Ok_inv in E as (? & ? & H8 & E). apply getitem_Ok_inv in H8 as [H8 ->].
  apply bind_Ok_inv in E as (? & ? & H9 & E). apply lift_res_Ok_inv in H9 as [H9 ->].
  injection E as <- _.
  exists deadline_str, create_time_str.
  cbn [InnoProject.id InnoProject.task_serial InnoProject.title InnoProject.publisher
       InnoProject.deadline InnoProject.planed_hour InnoProject.create_time
       InnoProject.taker_id InnoProject.status InnoProject.desc InnoProject.bonus].
  split_and!; try done; try (by eexists).
  unfold bonus_or_0. cbn [InnoProject.bonus].
  destruct (RawProject.bonus item) as [b |]; cbn [get_default]; intros Hb.
  - destruct (Qeq_bool b 0) eqn:Eb; cbn.
    + done.
    + rewrite Eb. exact Hb.
  - done.
Qed.

Lemma parsed_project_readable (item : RawProject.t) :
  is_Some (parsed_project rt item) <-> project_readable rt item.
Proof.
  split.
  - intros [project Hp]. apply parsed_project_inv in Hp
      as (deadline_str & create_time_str & H1 & H2 & H3 & H4 & H5 & H6 & H7 & H8 & H9 & _).
    unfold project_readable. split_and!; try (by eexists).
    + exists deadline_str. by rewrite H7.
    + exists create_time_str. by rewrite H9.
  - intros ([? H3] & [? H4] & [? H5] & [? H6] & [? H8] & (deadline_str & H1 & H7)
            & (create_time_str & H2 & H9)).
    destruct (fromisoformat rt (deadline_with_zone deadline_str)) as [deadline | e] eqn:Hd;
      [| discriminate].
    destruct (fromisoformat rt (with_utc_suffix create_time_str)) as [create_time | e]
      eqn:Hc; [| discriminate].
    unfold parsed_project, parse_project. rewrite H1, H2, H3, H4, H5, H6, H8.
    cbv [bind getitem ret lift_res]. rewrite Hd, Hc. by eexists.
Qed.

(** X26: [get_current_projects] keeps what it can read and skips the
    rest, one warning for each skipped item, as [get_user_selections] does; an
    item can be read exactly when it carries the five required keys and
    both of its dates are accepted.  In every project it delivers the bonus
    is a number, never [None]; the description is the empty text when the key
    is absent, but [None] when the key is there with [null]. *)
Theorem get_current_projects_skips_unreadable
    (request_projects : prog World (list RawProject.t)) (w : World) :
  match request_projects w with
  | (Ok data, w1) =>
      exists w',
        get_current_projects rt request_projects w = (Ok (omap (parsed_project rt) data), w')
        /\ reads w' = reads w1
        /\ (warnings (log w') + length (omap (parsed_project rt) data)
            = warnings (log w1) + length data)%nat
  | (Raise e, w1) => get_current_projects rt request_projects w = (Raise e, w1)
  end
  /\ (forall item, is_Some (parsed_project rt item) <-> project_readable rt item)
  /\ (forall item project,
        parsed_project rt item = Some project ->
        is_Some (InnoProject.bonus project)
        /\ InnoProject.taker_id project = RawProject.taker_id item
        /\ (RawProject.desc item = None -> InnoProject.desc project = Some "")
        /\ (RawProject.desc item = Some None -> InnoProject.desc project = None)).
Proof.
  split_and!; [| apply parsed_project_readable |].
  - unfold get_current_projects. rewrite bind_unfold.
    destruct (request_projects w) as [[data | e] w1]; [| done].
    destruct (projects_loop data [] w1) as (w' & Hrun & Hreads & Hwarn).
    exists w'. by rewrite app_nil_l in Hrun.
  - intros item project Hp. apply parsed_project_inv in Hp
      as (_ & _ & _ & _ & _ & _ & _ & _ & _ & _ & _ & Htaker & _ & Hdesc & Hbonus & _).
    split_and!; [done | done | |]; intros Hraw; by rewrite Hdesc, Hraw.
Qed.

End ClientProperties.

(** ** The services that hold an engine and a cache store *)

Lemma generate_returns rt settings api_gather self user_id token w :
  exists recs w',
    generate_recommendations rt settings api_gather self user_id token w = (Ok recs, w').
Proof.
  unfold generate_recommendations. apply try_except_returns. intros e w1.
  cbv [generate_recommendations_except bind log_error logger ret]. eauto.
Qed.

Section ServiceProperties.

Context {R : Type} `{RedisClient R}.
Variable rt : Runtime.
Variable settings : Settings.
Variable api_gather : Z -> string -> res Gathered.
Variable from_url : nat -> string -> res R.
Variable json_dumps : option PyValue -> res string.
Variable json_loads : string -> res (option PyValue).
Variable item_dict : RecommendationItem.t -> PyValue.

Implicit Types (s : ServiceState R).

Lemma on_world_Ok {A} (m : prog World A) s (a : A) (w' : World) :
  m (engine_world s) = (Ok a, w') ->
  on_world m s = (Ok a, {| engine_world := w'; cache_state := cache_state s |}).
Proof. intros E. unfold on_world. by rewrite E. Qed.

Lemma on_cache_Ok {A} (m : prog (CacheState R) A) s (a : A) (st' : CacheState R) :
  m (cache_state s) = (Ok a, st') ->
  on_cache m s = (Ok a, {| engine_world := engine_world s; cache_state := st' |}).
Proof. intros E. unfold on_cache. by rewrite E. Qed.

(** A step on the side of the engine that returns by computation. *)
Ltac world_step :=
  match goal with
  | |- context [bind (on_world ?m) ?k ?s0] =>
      rewrite (bind_Ok (on_world m) k s0 _ _ (on_world_Ok m s0 _ _ eq_refl));
      cbn [engine_world cache_state]
  end.

(** One turn of the loop of [_precompute_all_users]: it returns, the count
    is one more, and the cache service has been asked to store the user's
    entry. *)
Lemma precompute_step_run (total_users : Z) (entry : Z * UserInfo) (success_count : Z) s :
  exists (w' : World) (b : bool) (st' : CacheState R) (value : PyValue),
    precompute_step rt settings api_gather from_url json_dumps item_dict
      total_users entry success_count s
    = (Ok (success_count + 1), {| engine_world := w'; cache_state := st' |})
    /\ CacheService_set from_url PyValue json_dumps (recommendations_key (info_user_id entry.2))
         (Some value) (Some 7200) (cache_state s) = (Ok b, st').
Proof.
  destruct entry as [i user_info]. unfold precompute_step, try_except. cbv zeta.
  destruct (generate_returns rt settings api_gather (service_engine settings)
              (info_user_id user_info) (info_token user_info) (engine_world s))
    as (recs & w1 & Hgen).
  rewrite (bind_Ok _ _ _ _ _ (on_world_Ok _ s recs w1 Hgen)).
  do 2 world_step.
  match goal with
  | |- context [CacheService_set from_url PyValue json_dumps ?k (Some ?v) ?t] =>
      destruct (set_returns from_url PyValue json_dumps k (Some v) t (cache_state s))
        as (b & st' & Hset);
      pose (value := v)
  end.
  erewrite (bind_Ok _ _ _ _ _
              (on_cache_Ok _ {| engine_world := _; cache_state := cache_state s |} b st' Hset)).
  cbn [engine_world cache_state snd].
  destruct (i mod 10 =? 0).
  - world_step. eexists _, b, st', value. split; [reflexivity | exact Hset].
  - cbv [bind ret]. eexists _, b, st', value. split; [reflexivity | exact Hset].
Qed.

Lemma set_refused_degraded (st : CacheState R) key value ttl e :
  is_Some (fallback_of st) ->
  json_dumps value = Raise e ->
  exists st',
    CacheService_set from_url PyValue json_dumps key value ttl st = (Ok false, st')
    /\ fallback_of st' = fallback_of st
    /\ prefix (service st') = prefix (service st).
Proof.
  intros Hf Hdumps.
  unfold CacheService_set, try_except.
  rewrite (bind_Ok _ _ _ _ _ (get_redis_degraded_run from_url st Hf)).
  rewrite (bind_Ok _ _ st st (_make_key (service st) key)) by reflexivity.
  rewrite (bind_Raise _ _ st st e) by (unfold lift_res; by rewrite Hdumps).
  cbv [bind cache_logger logger ret CacheState_log].
  eexists. split_and!; reflexivity.
Qed.

(** What the loop of [_precompute_all_users] leaves behind. *)
Lemma precompute_loop (total_users : Z) (l : list (Z * UserInfo)) (success_count : Z) s :
  exists s',
    for_each (precompute_step rt settings api_gather from_url json_dumps item_dict total_users)
      l success_count s
    = (Ok (success_count + Z.of_nat (length l)), s')
    /\ (is_Some (fallback_of (cache_state s)) ->
        is_Some (fallback_of (cache_state s'))
        /\ prefix (service (cache_state s')) = prefix (service (cache_state s))
        /\ ((forall v, is_exception (json_dumps v) = false) ->
            (forall cache_key,
               is_Some (cached (cache_state s) cache_key) ->
               is_Some (cached (cache_state s') cache_key))
            /\ forall entry,
                 entry ∈ l ->
                 is_Some (cached (cache_state s')
                            (_make_key (service (cache_state s))
                               (recommendations_key (info_user_id entry.2)))))
        /\ ((forall v, is_exception (json_dumps v) = true) ->
            fallback_of (cache_state s') = fallback_of (cache_state s))).
Proof.
  revert success_count s. induction l as [| entry l IH]; intros success_count s.
  - exists s. split; [cbn [for_each length]; change (Z.of_nat 0) with 0; by rewrite Z.add_0_r |]. intros Hf.
    split_and!; [done | done | | done].
    intros _. split; [done |]. intros entry Hin. by apply elem_of_nil in Hin.
  - destruct (precompute_step_run total_users entry success_count s)
      as (w1 & b & st1 & value & Hstep & Hset).
    cbn [for_each]. rewrite (bind_Ok _ _ _ _ _ Hstep).
    destruct (IH (success_count + 1) {| engine_world := w1; cache_state := st1 |})
      as (s' & -> & Hrest).
    exists s'. split.
    { replace (success_count + Z.of_nat (length (entry :: l)))
        with (success_count + 1 + Z.of_nat (length l)) by (cbn [length]; lia).
      reflexivity. }
    cbn [cache_state] in Hrest. intros Hf.
    set (cache_key := _make_key (service (cache_state s))
                        (recommendations_key (info_user_id entry.2))).
    assert (is_Some (fallback_of st1)
            /\ prefix (service st1) = prefix (service (cache_state s))
            /\ ((forall v, is_exception (json_dumps v) = false) ->
                (forall k, is_Some (cached (cache_state s) k) -> is_Some (cached st1 k))
                /\ is_Some (cached st1 cache_key))
            /\ ((forall v, is_exception (json_dumps v) = true) ->
                fallback_of st1 = fallback_of (cache_state s))) as (Hf1 & Hp1 & Hok1 & Hbad1).
    { destruct (json_dumps (Some value)) as [data | e] eqn:Hdumps.
      - destruct (set_degraded from_url PyValue json_dumps (cache_state s)
                    (recommendations_key (info_user_id entry.2)) (Some value) (Some 7200)
                    data Hf Hdumps) as (st1' & Hset' & Hf1 & Hp1).
        rewrite Hset in Hset'. injection Hset' as _ <-.
        destruct Hf as [m Hm]. rewrite Hm in Hf1. cbn in Hf1.
        split_and!; [by eexists | done | | ].
        + intros _. unfold cached. rewrite Hf1, Hm. cbn. split.
          * intros k [x Hx].
            destruct (decide (cache_key = k)) as [<- | Hne].
            -- rewrite lookup_insert_eq. by eexists.
            -- rewrite lookup_insert_ne by done. by eexists.
          * fold cache_key. rewrite lookup_insert_eq. by eexists.
        + intros Hbad. specialize (Hbad (Some value)). by rewrite Hdumps in Hbad.
      - destruct (set_refused_degraded (cache_state s) (recommendations_key (info_user_id entry.2))
                    (Some value) (Some 7200) e Hf Hdumps) as (st1' & Hset' & Hf1 & Hp1).
        rewrite Hset in Hset'. injection Hset' as _ <-.
        split_and!; [by rewrite Hf1 | done | | done].
        intros Hgood. specialize (Hgood (Some value)). by rewrite Hdumps in Hgood. }
    destruct (Hrest Hf1) as (Hf' & Hp' & Hok' & Hbad').
    split_and!; [done | congruence | |].
    + intros Hgood. destruct (Hok1 Hgood) as [Hkeep1 Hentry1].
      destruct (Hok' Hgood) as [Hkeep' Hentries'].
      split; [by auto |].
      intros entry' Hin. apply elem_of_cons in Hin as [-> | Hin].
      * by apply Hkeep'.
      * specialize (Hentries' entry' Hin). unfold _make_key in *. by rewrite Hp1 in Hentries'.
    + intros Hbad. rewrite (Hbad' Hbad). by apply Hbad1.
Qed.

(** X27: [_precompute_all_users] never raises and always reports full
    success: its last log line is ["预计算完成: 成功 5/5"], whatever the
    provider and the cache store did, because the count is raised after every
    call of [set], whatever [set] answered.  On the in-process fallback, if
    [json.dumps] accepts the values, every one of the five users has an entry
    afterwards; if it refuses them, nothing has been stored, and the report
    is the same. *)
Theorem precompute_reports_full_success s :
  exists s',
    _precompute_all_users rt settings api_gather from_url json_dumps item_dict s = (Ok tt, s')
    /\ last (log (engine_world s'))
       = Some {| level := INFO; message := "预计算完成: 成功 5/5" |}
    /\ (is_Some (fallback_of (cache_state s)) ->
        ((forall v, is_exception (json_dumps v) = false) ->
         forall user_info,
           user_info ∈ _get_active_user_ids ->
           is_Some (cached (cache_state s')
                      (_make_key (service (cache_state s))
                         (recommendations_key (info_user_id user_info)))))
        /\ ((forall v, is_exception (json_dumps v) = true) ->
            fallback_of (cache_state s') = fallback_of (cache_state s))).
Proof.
  unfold _precompute_all_users. world_step. unfold try_except. cbv zeta.
  match goal with
  | |- context [bind (for_each ?body ?l ?c) ?k ?s0] =>
      destruct (precompute_loop (Z.of_nat (length _get_active_user_ids)) l c s0)
        as (s1 & Hloop & Hcache)
  end.
  rewrite (bind_Ok _ _ _ _ _ Hloop).
  eexists. split; [reflexivity |]. cbn [snd engine_world cache_state log World_log].
  split; [by rewrite last_snoc |].
  cbn [cache_state] in Hcache. intros Hf.
  destruct (Hcache Hf) as (_ & _ & Hok & Hbad). split; [| exact Hbad].
  intros Hgood user_info Hin. destruct (Hok Hgood) as [_ Hentries].
  apply list_elem_of_lookup in Hin as [i Hi].
  apply (Hentries (Z.of_nat i, user_info)), elem_of_lookup_imap. by exists i, user_info.
Qed.

(** *** The routes *)

(** A request the store answers. *)
Lemma top3_hit_run user_id token s (cached_data : option PyValue) (st0 : CacheState R) :
  CacheService_get from_url PyValue json_loads (recommendations_key user_id) (cache_state s)
  = (Ok cached_data, st0) ->
  py_truthy cached_data = true ->
  exists response w',
    get_top3_recommendations rt settings api_gather from_url json_dumps json_loads item_dict
      false user_id token s
    = (Ok (inr (response, true)), {| engine_world := w'; cache_state := st0 |})
    /\ APIResponse.code response = 200
    /\ APIResponse.message response = "success"
    /\ APIResponse.data response = cached_data
    /\ log w' = (log (engine_world s)
                 ++ [{| level := INFO;
                        message := "从缓存返回用户" ++ pretty user_id ++ "的推荐" |}])%list.
Proof.
  intros Hget Htruthy.
  unfold get_top3_recommendations, try_except. cbv zeta. cbn [negb].
  rewrite (bind_unfold (bind _ _)).
  rewrite (bind_Ok _ _ _ _ _ (on_cache_Ok _ s cached_data st0 Hget)).
  rewrite Htruthy. do 2 world_step.
  cbv [ret]. eexists _, _. split_and!; reflexivity.
Qed.

(** A request the engine answers: a forced one, or one the store had
    nothing for.  [st0] is the cache service as the lookup, if any, left it. *)
Lemma top3_fresh_run refresh user_id token s (st0 : CacheState R) :
  (refresh = true /\ st0 = cache_state s)
  \/ (refresh = false
      /\ exists cached_data,
           CacheService_get from_url PyValue json_loads (recommendations_key user_id)
             (cache_state s) = (Ok cached_data, st0)
           /\ py_truthy cached_data = false) ->
  exists response value w' (b : bool) (st' : CacheState R),
    get_top3_recommendations rt settings api_gather from_url json_dumps json_loads item_dict
      refresh user_id token s
    = (Ok (inr (response, false)), {| engine_world := w'; cache_state := st' |})
    /\ APIResponse.code response = 200
    /\ APIResponse.message response = "success"
    /\ APIResponse.data response = Some value
    /\ CacheService_set from_url PyValue json_dumps (recommendations_key user_id)
         (Some value) (Some 7200) st0 = (Ok b, st').
Proof.
  intros Hcase.
  unfold get_top3_recommendations, try_except. cbv zeta.
  assert (exists s0 : ServiceState R,
            cache_state s0 = st0
            /\ forall k : option APIResponse.t -> prog (ServiceState R)
                                                   (HTTPException + APIResponse.t * bool),
                 bind (if negb refresh then
                         cached_data <- on_cache (CacheService_get from_url PyValue json_loads
                                                    (recommendations_key user_id)) ;;
                         if py_truthy cached_data then
                           on_world (log_info ("从缓存返回用户" ++ pretty user_id ++ "的推荐")) ;;;
                           response <- on_world (APIResponse_new rt 200 "success" cached_data) ;;
                           ret (Some response)
                         else ret None
                       else ret None) k s
                 = k None s0) as (s0 & Hs0 & ->).
  { destruct Hcase as [[-> ->] | (-> & cached_data & Hget & Hfalsy)].
    - exists s. split; [done |]. intros k. reflexivity.
    - exists {| engine_world := engine_world s; cache_state := st0 |}. split; [done |].
      intros k. cbn [negb]. rewrite (bind_unfold (bind _ _)).
      rewrite (bind_Ok _ _ _ _ _ (on_cache_Ok _ s cached_data st0 Hget)).
      by rewrite Hfalsy. }
  world_step.
  match goal with
  | |- context [on_world (generate_recommendations ?a ?b ?c ?d ?e ?f)] =>
      destruct (generate_returns a b c d e f
                  (World_log {| level := INFO;
                                message := "为用户" ++ pretty user_id ++ "生成新推荐" |}
                     (engine_world s0)))
        as (recs & w1 & Hgen)
  end.
  erewrite (bind_Ok _ _ _ _ _
              (on_world_Ok _ {| engine_world := _; cache_state := cache_state s0 |}
                 recs w1 Hgen)).
  cbn [engine_world cache_state].
  do 2 world_step.
  match goal with
  | |- context [CacheService_set from_url PyValue json_dumps ?k (Some ?v) ?t] =>
      destruct (set_returns from_url PyValue json_dumps k (Some v) t st0)
        as (b & st' & Hset);
      pose (value := v)
  end.
  rewrite Hs0.
  erewrite (bind_Ok _ _ _ _ _
              (on_cache_Ok _ {| engine_world := _; cache_state := st0 |} b st' Hset)).
  cbn [engine_world cache_state].
  do 2 world_step.
  cbv [ret]. eexists _, value, _, b, st'. split_and!; try reflexivity. exact Hset.
Qed.

Lemma get_miss_degraded (st : CacheState R) key :
  is_Some (fallback_of st) ->
  cached st (_make_key (service st) key) = None ->
  CacheService_get from_url PyValue json_loads key st = (Ok None, st).
Proof.
  intros Hf Hmiss. destruct (fallback_of_Some st Hf) as [c Hc].
  rewrite (cached_fallback st c) in Hmiss by done.
  unfold CacheService_get, try_except.
  rewrite (bind_Ok _ _ _ _ _ (get_redis_degraded_run from_url st Hf)).
  rewrite (bind_Ok _ _ st st (_make_key (service st) key)) by reflexivity.
  cbv [bind on_redis redis_get Backend_client InMemoryCache_client run_backend
       InMemoryCache_get]. rewrite Hc, Hmiss. cbn [opt_str_truthy ret].
  destruct st as [[url conn p] n lg]. cbn [service redis redis_url prefix attempts cache_log] in *.
  by subst.
Qed.

Lemma delete_degraded (st : CacheState R) key :
  is_Some (fallback_of st) ->
  exists (b : bool) (st1 : CacheState R),
    CacheService_delete from_url key st = (Ok b, st1)
    /\ fallback_of st1 = (fun m => delete (_make_key (service st) key) m) <$> fallback_of st
    /\ prefix (service st1) = prefix (service st).
Proof.
  intros Hf. destruct (fallback_of_Some st Hf) as [c Hc].
  unfold CacheService_delete, try_except.
  rewrite (bind_Ok _ _ _ _ _ (get_redis_degraded_run from_url st Hf)).
  rewrite (bind_Ok _ _ st st (_make_key (service st) key)) by reflexivity.
  cbv [bind on_redis redis_delete Backend_client InMemoryCache_client run_backend
       InMemoryCache_delete cache_logger logger ret]. rewrite Hc.
  destruct (cache c !! _make_key (service st) key) as [data |] eqn:E.
  - eexists _, _. split; [reflexivity |]. unfold fallback_of. cbn. rewrite Hc. by cbn.
  - eexists _, _. split; [reflexivity |]. unfold fallback_of. cbn. rewrite ?Hc. cbn.
    split; [| done]. f_equal. symmetry. by apply delete_id.
Qed.

(** What [submit_feedback] does: it answers, and it has asked the cache
    service for one [delete] if the feedback was ["complete"], for nothing
    otherwise. *)
Lemma submit_feedback_run recommendation_id feedback_type user_id s :
  exists response (w' : World) (st' : CacheState R),
    submit_feedback rt from_url recommendation_id feedback_type user_id s
    = (Ok (inr response), {| engine_world := w'; cache_state := st' |})
    /\ APIResponse.code response = 200
    /\ APIResponse.message response = "反馈提交成功"
    /\ APIResponse.data response = Some (PyDict [("feedback_recorded", PyBool true)])
    /\ (if String.eqb feedback_type "complete"
        then exists b : bool,
               CacheService_delete from_url (recommendations_key user_id) (cache_state s)
               = (Ok b, st')
        else st' = cache_state s).
Proof.
  unfold submit_feedback, try_except. cbv zeta. do 2 world_step.
  destruct (String.eqb feedback_type "complete").
  - destruct (delete_returns from_url (recommendations_key user_id) (cache_state s))
      as (b & st' & Hdel).
    rewrite (bind_unfold (bind _ _)).
    erewrite (bind_Ok _ _ _ _ _
                (on_cache_Ok _ {| engine_world := _; cache_state := cache_state s |}
                   b st' Hdel)).
    cbv [on_world log_info logger bind ret APIResponse_new datetime_now].
    cbn [engine_world cache_state].
    eexists _, _, st'. split_and!; try reflexivity. by exists b.
  - cbv [on_world log_info logger bind ret APIResponse_new datetime_now].
    cbn [engine_world cache_state].
    eexists _, _, _. split_and!; reflexivity.
Qed.

(** X28: neither route ever answers 500.  The handler of
    [get_top3_recommendations] that turns an exception into status 500 and
    the one of [submit_feedback] are never entered: the engine and the cache
    service swallow their own errors, so both routes answer 200 in every state
    of the cache service and whatever the provider, the store and the JSON
    codec do; [submit_feedback] does so for every recommendation id and every
    feedback type, neither of which it checks. *)
Theorem routes_never_answer_500 s :
  (forall refresh user_id token,
     exists response (cache_hit : bool) s',
       get_top3_recommendations rt settings api_gather from_url json_dumps json_loads
         item_dict refresh user_id token s
       = (Ok (inr (response, cache_hit)), s')
       /\ APIResponse.code response = 200
       /\ APIResponse.message response = "success")
  /\ (forall recommendation_id feedback_type user_id,
        exists response s',
          submit_feedback rt from_url recommendation_id feedback_type user_id s
          = (Ok (inr response), s')
          /\ APIResponse.code response = 200
          /\ APIResponse.data response = Some (PyDict [("feedback_recorded", PyBool true)])).
Proof.
  split.
  - intros refresh user_id token.
    destruct (get_returns from_url PyValue json_loads (recommendations_key user_id)
                (cache_state s)) as (cached_data & st0 & Hget).
    destruct refresh; [| destruct (py_truthy cached_data) eqn:Htruthy].
    + destruct (top3_fresh_run true user_id token s (cache_state s))
        as (response & value & w' & b & st' & -> & Hcode & Hmsg & _); [by left |].
      by eexists _, _, _.
    + destruct (top3_hit_run user_id token s cached_data st0 Hget Htruthy)
        as (response & w' & -> & Hcode & Hmsg & _).
      by eexists _, _, _.
    + destruct (top3_fresh_run false user_id token s st0)
        as (response & value & w' & b & st' & -> & Hcode & Hmsg & _);
        [right; split; [done | by exists cached_data] |].
      by eexists _, _, _.
  - intros recommendation_id feedback_type user_id.
    destruct (submit_feedback_run recommendation_id feedback_type user_id s)
      as (response & w' & st' & -> & Hcode & _ & Hdata & _).
    by eexists _, _.
Qed.

(** X29: cache-aside on the fallback.  A request that is forced
    ([refresh]) or finds no entry is answered by the engine, not marked as a
    cache hit, and its data are handed to [set]; if the store can encode them,
    the next unforced request for that user, whatever token it carries, is
    answered with the decoded entry and marked as a hit, the entry stays, and
    the engine is not asked: the only log line is the one of the hit. *)
Theorem top3_cache_aside refresh user_id token s :
  is_Some (fallback_of (cache_state s)) ->
  refresh = true
  \/ cached (cache_state s)
       (_make_key (service (cache_state s)) (recommendations_key user_id)) = None ->
  exists response value s1,
    get_top3_recommendations rt settings api_gather from_url json_dumps json_loads item_dict
      refresh user_id token s
    = (Ok (inr (response, false)), s1)
    /\ APIResponse.data response = Some value
    /\ forall data cached_data token',
         json_dumps (Some value) = Ok data ->
         str_truthy data = true ->
         json_loads data = Ok cached_data ->
         py_truthy cached_data = true ->
         exists response' s2,
           get_top3_recommendations rt settings api_gather from_url json_dumps json_loads
             item_dict false user_id token' s1
           = (Ok (inr (response', true)), s2)
           /\ APIResponse.data response' = cached_data
           /\ fallback_of (cache_state s2) = fallback_of (cache_state s1)
           /\ log (engine_world s2)
              = (log (engine_world s1)
                 ++ [{| level := INFO;
                        message := "从缓存返回用户" ++ pretty user_id ++ "的推荐" |}])%list.
Proof.
  intros Hf Hcase.
  destruct (top3_fresh_run refresh user_id token s (cache_state s))
    as (response & value & w1 & b & st1 & -> & _ & _ & Hdata & Hset).
  { destruct Hcase as [-> | Hmiss]; [by left |].
    destruct refresh; [by left | right]. split; [done |]. exists None.
    split; [by apply get_miss_degraded | done]. }
  exists response, value, {| engine_world := w1; cache_state := st1 |}.
  split_and!; [done | done |].
  intros data cached_data token' Hdumps Hnonempty Hloads Htruthy.
  destruct (set_degraded from_url PyValue json_dumps (cache_state s)
              (recommendations_key user_id) (Some value) (Some 7200) data Hf Hdumps)
    as (st1' & Hset' & Hf1 & Hp1).
  rewrite Hset in Hset'. injection Hset' as _ <-.
  destruct (get_degraded from_url PyValue json_loads st1 (recommendations_key user_id)
              data cached_data) as (st2 & Hget & Hf2); [| done | done |].
  { destruct Hf as [m Hm]. unfold cached, _make_key. rewrite Hf1, Hp1, Hm. cbn.
    apply lookup_insert_eq. }
  destruct (top3_hit_run user_id token' {| engine_world := w1; cache_state := st1 |}
              cached_data st2 Hget Htruthy)
    as (response' & w2 & -> & _ & _ & Hdata' & Hlog).
  by eexists _, _.
Qed.

(** X30: feedback and the cache, on the fallback.  ["complete"] removes
    the entry of the user and no other, so that the next unforced request of
    that user is answered by the engine; every other feedback type leaves the
    cache service exactly as it was. *)
Theorem feedback_complete_invalidates recommendation_id feedback_type user_id s :
  is_Some (fallback_of (cache_state s)) ->
  exists response s1,
    submit_feedback rt from_url recommendation_id feedback_type user_id s
    = (Ok (inr response), s1)
    /\ (feedback_type <> "complete" -> cache_state s1 = cache_state s)
    /\ (feedback_type = "complete" ->
        cached (cache_state s1)
          (_make_key (service (cache_state s)) (recommendations_key user_id)) = None
        /\ (forall cache_key,
              cache_key <> _make_key (service (cache_state s)) (recommendations_key user_id) ->
              cached (cache_state s1) cache_key = cached (cache_state s) cache_key)
        /\ forall token,
             exists response' s2,
               get_top3_recommendations rt settings api_gather from_url json_dumps json_loads
                 item_dict false user_id token s1
               = (Ok (inr (response', false)), s2)).
Proof.
  intros Hf.
  destruct (submit_feedback_run recommendation_id feedback_type user_id s)
    as (response & w1 & st1 & -> & _ & _ & _ & Hcache).
  exists response, {| engine_world := w1; cache_state := st1 |}.
  split; [done |]. cbn [cache_state].
  destruct (String.eqb_spec feedback_type "complete") as [-> | Hne].
  - split; [done |]. intros _. destruct Hcache as [b Hdel].
    destruct (delete_degraded (cache_state s) (recommendations_key user_id) Hf)
      as (b' & st1' & Hdel' & Hf1 & Hp1).
    rewrite Hdel in Hdel'. injection Hdel' as _ <-.
    assert (cached st1 (_make_key (service (cache_state s)) (recommendations_key user_id))
            = None) as Hnone.
    { destruct Hf as [m Hm]. unfold cached. rewrite Hf1, Hm. cbn. apply lookup_delete_eq. }
    split_and!; [done | |].
    + intros cache_key Hother. destruct Hf as [m Hm]. unfold cached. rewrite Hf1, Hm. cbn.
      by apply lookup_delete_ne.
    + intros token.
      destruct (top3_fresh_run false user_id token
                  {| engine_world := w1; cache_state := st1 |} st1)
        as (response' & value & w2 & b2 & st2 & -> & _); [| by eexists _, _].
      right. split; [done |]. exists None. split; [| done].
      cbn [cache_state]. apply get_miss_degraded.
      * destruct Hf as [m Hm]. rewrite Hf1, Hm. by eexists.
      * unfold _make_key in *. by rewrite Hp1.
  - split; [| done]. intros _. exact Hcache.
Qed.

End ServiceProperties.

Lemma top3_cache_aside_witness :
  exists response value s1,
    get_top3_recommendations still_runtime default_settings api_all_fail connection_refused
      (fun _ => Ok "{}") (fun _ => Ok (Some (PyBool true))) (fun _ => PyNone)
      true 51 "test_token" {| engine_world := empty_world; cache_state := one_entry_cache |}
    = (Ok (inr (response, false)), s1)
    /\ APIResponse.data response = Some value
    /\ forall data cached_data token',
         Ok "{}" = Ok data ->
         str_truthy data = true ->
         Ok (Some (PyBool true)) = Ok cached_data ->
         py_truthy cached_data = true ->
         exists response' s2,
           get_top3_recommendations still_runtime default_settings api_all_fail
             connection_refused
             (fun _ => Ok "{}") (fun _ => Ok (Some (PyBool true))) (fun _ => PyNone)
             false 51 token' s1
           = (Ok (inr (response', true)), s2)
           /\ APIResponse.data response' = cached_data
           /\ fallback_of (cache_state s2) = fallback_of (cache_state s1)
           /\ log (engine_world s2)
              = (log (engine_world s1)
                 ++ [{| level := INFO;
                        message := "从缓存返回用户" ++ pretty 51 ++ "的推荐" |}])%list.
Proof.
  apply (top3_cache_aside still_runtime default_settings api_all_fail connection_refused
           (fun _ => Ok "{}") (fun _ => Ok (Some (PyBool true))) (fun _ => PyNone)
           true 51 "test_token"
           {| engine_world := empty_world; cache_state := one_entry_cache |}).
  - by eexists.
  - by left.
Defined.

Lemma feedback_complete_invalidates_witness :
  exists response s1,
    submit_feedback still_runtime connection_refused "course_urgent_12" "complete" 51
      {| engine_world := empty_world; cache_state := one_entry_cache |}
    = (Ok (inr response), s1)
    /\ ("complete" <> "complete" -> cache_state s1 = one_entry_cache)
    /\ ("complete" = "complete" ->
        cached (cache_state s1)
          (_make_key (service one_entry_cache) (recommendations_key 51)) = None
        /\ (forall cache_key,
              cache_key <> _make_key (service one_entry_cache) (recommendations_key 51) ->
              cached (cache_state s1) cache_key = cached one_entry_cache cache_key)
        /\ forall token,
             exists response' s2,
               get_top3_recommendations still_runtime default_settings api_all_fail
                 connection_refused
                 (fun _ => Ok "{}") (fun _ => Ok (Some (PyBool true))) (fun _ => PyNone)
                 false 51 token s1
               = (Ok (inr (response', false)), s2)).
Proof.
  apply (feedback_complete_invalidates still_runtime default_settings api_all_fail
           connection_refused
           (fun _ => Ok "{}") (fun _ => Ok (Some (PyBool true))) (fun _ => PyNone)
           "course_urgent_12" "complete" 51
           {| engine_world := empty_world; cache_state := one_entry_cache |}).
  by eexists.
Defined.
